(** * TerraMind microservice (terramind-service/app.py)

    A shallow embedding of the request handler and of the demo generators,
    and the properties stated about them.

    - Python floats are IEEE binary64 numbers: Rocq's primitive [float].
      The two powers the program takes, [** 2] and [** 0.5], follow
      CPython's [float_pow], which hands them to libm's [pow]: a [Libm],
      of which only its accuracy of one unit in the last place is used.
    - JSON / Python values are the inductive [pyval]; a dict is an
      association list in insertion order, looked up on its first match.
    - A Python exception is an outcome [Raise e] of type [result]; the
      exceptions modelled are instances of [Exception].
    - numpy's generator, the clock and the log are the [World]; the shared
      [processor] object is a field of the program [State].
    - What Python's builtins print and what transformers does are the
      fields of a [Runtime], over which every property is stated.

    The file has four parts: the program, the properties of its parts
    (bounds on rounded arithmetic first), the claims C1 to C10, and the
    further properties X1 to X21 of the code around them. *)

From Stdlib Require Import ZArith QArith Floats String Ascii List Bool Lia.
Import ListNotations.
Close Scope Q_scope.
Set Warnings "-inexact-float,-register-all".
Local Open Scope string_scope.

(** ** Python values and exceptions *)

Inductive pyval : Type :=
| PNone
| PBool (b : bool)
| PInt (z : Z)
| PFloat (f : float)
| PStr (s : string)
| PList (l : list pyval)
| PDict (d : list (string * pyval)).

(** The exceptions the program can meet; all are subclasses of Python's
    [Exception], the class both [except] clauses catch.  [LibraryError] is
    an error raised inside Flask or transformers. *)
Inductive exn : Type :=
| TypeError
| AttributeError
| KeyError
| ValueError
| OverflowError
| LibraryError (what : string).

Inductive result (A : Type) : Type :=
| Ok (a : A)
| Raise (e : exn).
Arguments Ok {A} a.
Arguments Raise {A} e.

Definition rbind {A B : Type} (r : result A) (k : A -> result B) : result B :=
  match r with
  | Ok a => k a
  | Raise e => Raise e
  end.

Notation "'let?' x ':=' r 'in' k" := (rbind r (fun x => k))
  (at level 10, x name, r at level 100, k at level 200).

(** [bool(v)], as [if not data] tests it. *)
Definition truthy (v : pyval) : bool :=
  match v with
  | PNone => false
  | PBool b => b
  | PInt z => negb (z =? 0)%Z
  | PFloat f => negb (f =? 0)%float
  | PStr s => negb (String.eqb s "")
  | PList l => match l with [] => false | _ :: _ => true end
  | PDict d => match d with [] => false | _ :: _ => true end
  end.

Fixpoint lookup (k : string) (d : list (string * pyval)) : option pyval :=
  match d with
  | [] => None
  | (k', v) :: rest => if String.eqb k k' then Some v else lookup k rest
  end.

(** [v.get(k, default)]: only a dict has the method. *)
Definition py_get (v : pyval) (k : string) (default : pyval) : result pyval :=
  match v with
  | PDict d => Ok (match lookup k d with Some x => x | None => default end)
  | _ => Raise AttributeError
  end.

(** [v[k]] with a string key. *)
Definition py_getitem (v : pyval) (k : string) : result pyval :=
  match v with
  | PDict d => match lookup k d with Some x => Ok x | None => Raise KeyError end
  | _ => Raise TypeError
  end.

(** [v[:n]]: strings and lists can be sliced; a dict answers [TypeError]
    ([KeyError] from Python 3.12 on, caught all the same). *)
Definition py_slice_to (n : nat) (v : pyval) : result pyval :=
  match v with
  | PStr s => Ok (PStr (substring 0 n s))
  | PList l => Ok (PList (firstn n l))
  | _ => Raise TypeError
  end.

(** A field of a JSON object. *)
Definition field (k : string) (v : pyval) : option pyval :=
  match v with
  | PDict d => lookup k d
  | _ => None
  end.

Definition has_field (v : pyval) (k : string) : bool :=
  match field k v with Some _ => true | None => false end.

(** *** Strings: [str.lower] and [in] *)

Definition lower_ascii (c : ascii) : ascii :=
  let n := nat_of_ascii c in
  if (65 <=? n)%nat && (n <=? 90)%nat then ascii_of_nat (n + 32) else c.

(** [s.lower()].  Characters outside ASCII are left as they are; none of them
    lowers to a letter of the three words the program looks for, so the
    membership tests below answer as Python's do. *)
Fixpoint lower (s : string) : string :=
  match s with
  | EmptyString => EmptyString
  | String c rest => String (lower_ascii c) (lower rest)
  end.

(** [needle in hay]. *)
Fixpoint contains (needle hay : string) : bool :=
  prefix needle hay ||
  match hay with
  | EmptyString => false
  | String _ rest => contains needle rest
  end.

(** [v.lower()]: only a str has the method. *)
Definition py_lower (v : pyval) : result string :=
  match v with
  | PStr s => Ok (lower s)
  | _ => Raise AttributeError
  end.

(** ** Float arithmetic as CPython performs it *)

(** [float(z)] for a Python int: rounded to nearest even, and
    [OverflowError] when the int is too large for a double. *)
Definition float_of_int (z : Z) : result float :=
  match binary_normalize prec emax z 0 false with
  | S754_infinity _ => Raise OverflowError
  | sf => Ok (SF2Prim sf)
  end.

(** The float a small int literal of the program stands for. *)
Definition float_of_Z (z : Z) : float :=
  SF2Prim (binary_normalize prec emax z 0 false).

(** The left operand of [v - c] for a float [c]: a float is taken as it is,
    an int (and a bool, which is an int) is converted; anything else has no
    subtraction with a float. *)
Definition as_float (v : pyval) : result float :=
  match v with
  | PFloat f => Ok f
  | PInt z => float_of_int z
  | PBool b => Ok (if b then 1 else 0)%float
  | _ => Raise TypeError
  end.

(** *** libm

    [a] is [r] or one of the two doubles next to it: every double above
    [r] is at least [a], and every double below [r] at most [a]. *)
Definition next_to (r a : float) : Prop :=
  forall z : float,
    ((r <? z)%float = true -> (a <=? z)%float = true) /\
    ((z <? r)%float = true -> (z <=? a)%float = true).

(** The C library's [pow].  Of its results only this is used: on a positive
    base, a square and a square root are within one unit in the last place
    of the correctly rounded ones, the bound the libraries document, and
    carry no sign.  Which of the three doubles [pow] answers is left to the
    library, and differs between them. *)
Class Libm : Type := {
  libm_pow : float -> float -> float;
  libm_pow_2 :
    forall x : float, (0 <? x)%float = true -> next_to (x * x) (libm_pow x 2);
  libm_pow_half :
    forall x : float, (0 <? x)%float = true -> next_to (sqrt x) (libm_pow x 0.5);
  libm_pow_sign :
    forall x y : float, (0 <? x)%float = true -> abs (libm_pow x y) = libm_pow x y
}.

Section Thresholds.
Context {LM : Libm}.

(** [x ** 2] (float_pow in floatobject.c): NaN, infinities and zeros are
    answered directly, and so is a base of absolute value 1; otherwise
    libm's [pow(|x|, 2.0)], and [OverflowError] when it is infinite. *)
Definition float_pow_2 (x : float) : result float :=
  match Prim2SF x with
  | S754_nan => Ok x
  | S754_infinity _ => Ok infinity
  | S754_zero _ => Ok 0%float
  | S754_finite _ _ _ =>
      if (abs x =? 1)%float then Ok 1%float
      else
        let r := libm_pow (abs x) 2 in
        match Prim2SF r with
        | S754_infinity _ => Raise OverflowError
        | _ => Ok r
        end
  end.

(** [x ** 0.5]: NaN, infinities and zeros are answered directly, and so is
    1; another positive [x] gives libm's [pow(x, 0.5)]; a negative [x]
    gives a complex number, and the comparison [distance <= radius] that
    follows raises [TypeError] on it. *)
Definition float_pow_half (x : float) : result float :=
  match Prim2SF x with
  | S754_nan => Ok x
  | S754_infinity _ => Ok infinity
  | S754_zero _ => Ok 0%float
  | S754_finite true _ _ => Raise TypeError
  | S754_finite false _ _ =>
      if (x =? 1)%float then Ok 1%float
      else
        let r := libm_pow x 0.5 in
        match Prim2SF r with
        | S754_infinity _ => Raise OverflowError
        | _ => Ok r
        end
  end.

(** ** Coordinate thresholds: [is_urban_area], [is_coastal_area] *)

Definition center : Type := (float * float * Z)%type.

Definition urban_centers : list center :=
  [ (13.0827, 80.2707, 50%Z)    (* Chennai *)
  ; (12.9716, 77.5946, 50%Z)    (* Bangalore *)
  ; (19.0760, 72.8777, 50%Z)    (* Mumbai *)
  ; (28.7041, 77.1025, 50%Z)    (* Delhi *)
  ]%float.

Definition coastal_regions : list center :=
  [ (13.0827, 80.2707, 30%Z)    (* Chennai coast *)
  ; (19.0760, 72.8777, 20%Z)    (* Mumbai coast *)
  ; (11.9416, 79.8083, 15%Z)    (* Pondicherry coast *)
  ]%float.

(** [((lat - center_lat)**2 + (lng - center_lng)**2)**0.5 * 111], in the
    order Python evaluates it. *)
Definition distance (lat lng : pyval) (center_lat center_lng : float) : result float :=
  let? x := as_float lat in
  let? dx2 := float_pow_2 (x - center_lat) in
  let? y := as_float lng in
  let? dy2 := float_pow_2 (y - center_lng) in
  let? d := float_pow_half (dx2 + dy2) in
  Ok (d * 111)%float.

(** The loop shared by both functions: the first center within its radius
    answers [True]; an exception leaves the loop. *)
Fixpoint within_any (lat lng : pyval) (centers : list center) : result bool :=
  match centers with
  | [] => Ok false
  | (center_lat, center_lng, radius) :: rest =>
      let? d := distance lat lng center_lat center_lng in
      if (d <=? float_of_Z radius)%float then Ok true
      else within_any lat lng rest
  end.

Definition is_urban_area (lat lng : pyval) : result bool :=
  within_any lat lng urban_centers.

Definition is_coastal_area (lat lng : pyval) : result bool :=
  within_any lat lng coastal_regions.

(** The test of one turn of the loop as a boolean on doubles,
    [((lat - clat)**2 + (lng - clng)**2)**0.5 * 111 <= radius]: the square
    and the root are the doubles Python's [** 2] and [** 0.5] answer, an
    overflow read as infinity and a root that is no double as NaN, neither
    of which is within any radius. *)
Definition float_value (r : result float) : float :=
  match r with
  | Ok v => v
  | Raise OverflowError => infinity
  | Raise _ => nan
  end.

Definition squared (x : float) : float := float_value (float_pow_2 x).

Definition rooted (x : float) : float := float_value (float_pow_half x).

Definition python_within (lat lng : float) (c : center) : bool :=
  let '(clat, clng, radius) := c in
  (rooted (squared (lat - clat) + squared (lng - clng)) * 111
   <=? float_of_Z radius)%float.

End Thresholds.

(** The threshold in the words of the specification,
    [sqrt((lat-clat)^2 + (lng-clng)^2) * 111 <= radius], read on doubles:
    every operation correctly rounded, the square a product and the root
    IEEE's square root, whatever the libm. *)
Definition spec_within (lat lng : float) (c : center) : bool :=
  let '(clat, clng, radius) := c in
  (sqrt ((lat - clat) * (lat - clat) + (lng - clng) * (lng - clng)) * 111
   <=? float_of_Z radius)%float.

(** The same words read over the rationals.  [exact x] is the number a
    finite double denotes; for a radius that is not negative,
    [sqrt(s) * 111 <= radius] is [s * 111^2 <= radius^2]. *)
Definition exact (x : float) : Q :=
  match Prim2SF x with
  | S754_finite s m e =>
      Qmult (inject_Z (if s then Z.neg m else Z.pos m)) (Qpower (inject_Z 2) e)
  | _ => inject_Z 0
  end.

Definition exact_within (lat lng : float) (c : center) : bool :=
  let '(clat, clng, radius) := c in
  let dx := Qminus (exact lat) (exact clat) in
  let dy := Qminus (exact lng) (exact clng) in
  Qle_bool (Qmult (Qplus (Qmult dx dx) (Qmult dy dy)) (inject_Z (111 * 111)))
           (inject_Z (radius * radius)).

(** ** Vegetation helpers *)

Definition categorize_vegetation_health (ndvi : float) : string :=
  if (0.7 <? ndvi)%float then "excellent"
  else if (0.5 <? ndvi)%float then "good"
  else if (0.3 <? ndvi)%float then "moderate"
  else if (0.1 <? ndvi)%float then "poor"
  else "very_poor".

Definition generate_vegetation_recommendations (ndvi : float) (analysis_type : pyval)
  : list string :=
  if (ndvi <? 0.3)%float then
    [ "Consider soil health improvement programs"
    ; "Implement water conservation measures"
    ; "Monitor for pest and disease pressure" ]
  else if (ndvi <? 0.6)%float then
    [ "Maintain current management practices"
    ; "Monitor seasonal variations"
    ; "Consider precision agriculture techniques" ]
  else
    [ "Excellent vegetation health detected"
    ; "Continue current conservation practices"
    ; "Consider this area for biodiversity studies" ].

Definition drought_stress (base_ndvi : float) : string :=
  if (0.6 <? base_ndvi)%float then "low" else "moderate".

(** ** Insights and risks *)

Definition generate_geospatial_insights (query analysis_type : pyval)
  : result (list string) :=
  let? q1 := py_lower query in
  if contains "fishing" q1 then
    Ok [ "Coastal water quality analysis indicates safe fishing conditions"
       ; "Satellite data shows stable marine ecosystem health"
       ; "No significant pollution indicators detected in water bodies" ]
  else
    let? q2 := py_lower query in
    if contains "water" q2 then
      Ok [ "Multi-spectral analysis reveals water body health status"
         ; "NDWI indicators show adequate water availability"
         ; "No significant contamination detected in satellite imagery" ]
    else
      let? q3 := py_lower query in
      if contains "development" q3 then
        Ok [ "Land use change analysis shows development patterns"
           ; "Urban expansion rate within sustainable limits"
           ; "Environmental impact assessment suggests moderate pressure" ]
      else
        Ok [ "Comprehensive satellite analysis completed"
           ; "Multi-temporal change detection reveals stable conditions"
           ; "Environmental health indicators within normal ranges" ].

Definition risk (type level : string) (confidence : float) : pyval :=
  PDict [ ("type", PStr type); ("level", PStr level); ("confidence", PFloat confidence) ].

Definition urban_risks : list pyval :=
  [ risk "air_pollution" "moderate" 0.82
  ; risk "urban_heat_island" "high" 0.78
  ; risk "water_stress" "moderate" 0.75 ].

Definition coastal_risks : list pyval :=
  [ risk "sea_level_rise" "moderate" 0.85
  ; risk "coastal_erosion" "low" 0.72
  ; risk "storm_surge" "moderate" 0.80 ].

Definition rural_risks : list pyval :=
  [ risk "drought_risk" "low" 0.88
  ; risk "soil_degradation" "moderate" 0.75
  ; risk "biodiversity_loss" "low" 0.82 ].

Definition assess_environmental_risks {LM : Libm} (lat lng analysis_type : pyval)
  : result (list pyval) :=
  let? urban := is_urban_area lat lng in
  if urban then Ok urban_risks
  else
    let? coastal := is_coastal_area lat lng in
    if coastal then Ok coastal_risks else Ok rural_risks.

(** ** The world: numpy's generator, the clock and the log *)

(** One constructor per message the program logs. *)
Inductive log_event : Type :=
| LoadingModel (name : string)
| ModelLoaded
| ModelLoadFailed (e : exn)
| DemoModeNotice
| GeneratingDemo
| RunningReal
| AnalysisError (e : exn)
| AnalysisCompleted (seconds : float)
| AnalysisRequest (query_head : pyval)
| EndpointError (e : exn).

(** What the environment answers, as oracles read at the current [tick]:
    the sample [np.random.uniform] returns, the index [np.random.choice]
    picks, [time.time()] and [datetime.now().isoformat()].  Every effect
    advances the tick, so any sequence of answers is some world. *)
Record World : Type := {
  uniform_at : nat -> float;
  choice_at : nat -> nat;
  time_at : nat -> float;
  now_at : nat -> string;
  tick : nat;
  log : list log_event
}.

Record TerraMindProcessor : Type := {
  model_name : string;
  model_loaded : bool;
  demo_mode : bool
}.

(** The module-level [processor] and the world around it. *)
Record State : Type := {
  processor : TerraMindProcessor;
  world : World
}.

(** Computations that read and write the state and may raise. *)
Definition M (A : Type) : Type := State -> result A * State.

Definition ret {A : Type} (a : A) : M A := fun st => (Ok a, st).

Definition bind {A B : Type} (m : M A) (k : A -> M B) : M B :=
  fun st =>
    match m st with
    | (Ok a, st') => k a st'
    | (Raise e, st') => (Raise e, st')
    end.

Definition raise {A : Type} (e : exn) : M A := fun st => (Raise e, st).

Definition lift {A : Type} (r : result A) : M A := fun st => (r, st).

(** [try: m  except Exception as e: h e]. *)
Definition try_except {A : Type} (m : M A) (h : exn -> M A) : M A :=
  fun st =>
    match m st with
    | (Ok a, st') => (Ok a, st')
    | (Raise e, st') => h e st'
    end.

(** [try: m  finally: f]: [f] runs whatever [m] did, and [m]'s outcome
    stands unless [f] raises. *)
Definition finally {A : Type} (m : M A) (f : M unit) : M A :=
  fun st =>
    let (r, st1) := m st in
    match f st1 with
    | (Ok _, st2) => (r, st2)
    | (Raise e, st2) => (Raise e, st2)
    end.

Notation "x <- m ;; k" := (bind m (fun x => k))
  (at level 61, m at next level, right associativity).
Notation "m ;; k" := (bind m (fun _ => k))
  (at level 61, right associativity).

(** Code outside the program (numpy, the clock, the logger, transformers)
    acts on the world and has no access to [processor]. *)
Definition external {A : Type} (f : World -> result A * World) : M A :=
  fun st =>
    let (r, w) := f (world st) in
    (r, {| processor := processor st; world := w |}).

Definition next (w : World) : World :=
  {| uniform_at := uniform_at w; choice_at := choice_at w; time_at := time_at w;
     now_at := now_at w; tick := S (tick w); log := log w |}.

Definition record (ev : log_event) (w : World) : World :=
  {| uniform_at := uniform_at w; choice_at := choice_at w; time_at := time_at w;
     now_at := now_at w; tick := tick w; log := log w ++ [ev] |}.

(** [np.random.uniform(low, high)]. *)
Definition uniform (low high : float) : M float :=
  external (fun w => (Ok (uniform_at w (tick w)), next w)).

(** [np.random.choice(options)] on a list of strings. *)
Definition choice (options : list string) : M string :=
  external (fun w =>
    (Ok (nth (choice_at w (tick w) mod length options) options ""), next w)).

Definition time_time : M float :=
  external (fun w => (Ok (time_at w (tick w)), next w)).

Definition datetime_now_isoformat : M string :=
  external (fun w => (Ok (now_at w (tick w)), next w)).

Definition logger (ev : log_event) : M unit :=
  external (fun w => (Ok tt, record ev w)).

(** Reading and assigning the attributes of [self]. *)
Definition self : M TerraMindProcessor := fun st => (Ok (processor st), st).

Definition set_model_name (v : string) : M unit :=
  fun st =>
    (Ok tt, {| processor := {| model_name := v;
                               model_loaded := model_loaded (processor st);
                               demo_mode := demo_mode (processor st) |};
               world := world st |}).

Definition set_model_loaded (v : bool) : M unit :=
  fun st =>
    (Ok tt, {| processor := {| model_name := model_name (processor st);
                               model_loaded := v;
                               demo_mode := demo_mode (processor st) |};
               world := world st |}).

Definition set_demo_mode (v : bool) : M unit :=
  fun st =>
    (Ok tt, {| processor := {| model_name := model_name (processor st);
                               model_loaded := model_loaded (processor st);
                               demo_mode := v |};
               world := world st |}).

(** ** What Python and the libraries provide *)

(** Builtins whose output the program only stores or prints, and the calls
    into transformers. *)
Class Runtime : Type := {
  py_round : float -> Z -> float;            (* round(x, ndigits) *)
  py_format : string -> float -> string;     (* format(x, spec) *)
  py_str : pyval -> string;                  (* str(v) *)
  exn_str : exn -> string;                   (* str(e) *)
  tokenizer : string -> World -> result unit * World;
  import_transformers : World -> result unit * World;
  from_pretrained : string -> World -> result unit * World
}.

Definition strs (l : list string) : pyval := PList (map PStr l).

Section Service.
Context {LM : Libm} {RT : Runtime}.

(** [round(np.random.uniform(low, high), ndigits)]. *)
Definition rounded (low high : float) (ndigits : Z) : M pyval :=
  x <- uniform low high ;; ret (PFloat (py_round x ndigits)).

(** [f"{np.random.uniform(low, high):spec}suffix"]. *)
Definition formatted (low high : float) (spec suffix : string) : M pyval :=
  x <- uniform low high ;; ret (PStr (py_format spec x ++ suffix)).

Definition chosen (options : list string) : M pyval :=
  s <- choice options ;; ret (PStr s).

(** [format(v, spec)] with a float presentation type. *)
Definition py_format_value (spec : string) (v : pyval) : result string :=
  match v with
  | PStr _ => Raise ValueError
  | _ => let? x := as_float v in Ok (py_format spec x)
  end.

Definition simulate_land_use_classification (lat lng analysis_type : pyval) : M pyval :=
  is_urban <- lift (is_urban_area lat lng) ;;
  is_coastal <- lift (is_coastal_area lat lng) ;;
  if is_urban : bool then
    urban <- rounded 45 65 1 ;;
    vegetation <- rounded 20 35 1 ;;
    water <- rounded 5 15 1 ;;
    agriculture <- rounded 5 15 1 ;;
    bare_soil <- rounded 2 8 1 ;;
    ret (PDict
      [ ("primary_class", PStr "urban")
      ; ("confidence", PFloat 0.87)
      ; ("classes", PDict
          [ ("urban", urban); ("vegetation", vegetation); ("water", water)
          ; ("agriculture", agriculture); ("bare_soil", bare_soil) ])
      ; ("change_indicators", PDict
          [ ("urban_expansion", PStr "+2.3% annually")
          ; ("vegetation_loss", PStr "-1.8% annually") ]) ])
  else if is_coastal : bool then
    water <- rounded 35 55 1 ;;
    vegetation <- rounded 25 40 1 ;;
    urban <- rounded 15 25 1 ;;
    sand <- rounded 5 15 1 ;;
    agriculture <- rounded 3 10 1 ;;
    ret (PDict
      [ ("primary_class", PStr "coastal_mixed")
      ; ("confidence", PFloat 0.82)
      ; ("classes", PDict
          [ ("water", water); ("vegetation", vegetation); ("urban", urban)
          ; ("sand", sand); ("agriculture", agriculture) ])
      ; ("coastal_indicators", PDict
          [ ("erosion_rate", PStr "0.5m/year")
          ; ("water_quality", PStr "moderate") ]) ])
  else
    agriculture <- rounded 50 70 1 ;;
    vegetation <- rounded 20 35 1 ;;
    water <- rounded 3 10 1 ;;
    urban <- rounded 2 8 1 ;;
    bare_soil <- rounded 5 15 1 ;;
    ret (PDict
      [ ("primary_class", PStr "agricultural")
      ; ("confidence", PFloat 0.91)
      ; ("classes", PDict
          [ ("agriculture", agriculture); ("vegetation", vegetation); ("water", water)
          ; ("urban", urban); ("bare_soil", bare_soil) ])
      ; ("agricultural_indicators", PDict
          [ ("crop_health", PStr "good")
          ; ("irrigation_efficiency", PStr "moderate") ]) ]).

Definition simulate_vegetation_health_analysis (satellite_data analysis_type : pyval)
  : M pyval :=
  base_ndvi <- uniform 0.3 0.8 ;;
  disease_pressure <- chosen ["low"; "moderate"] ;;
  nutrient_status <- chosen ["adequate"; "deficient"] ;;
  six_month_change <- formatted (-5) 10 "+.1f" "%" ;;
  growth_trajectory <- chosen ["stable"; "improving"; "declining"] ;;
  ret (PDict
    [ ("ndvi_score", PFloat (py_round base_ndvi 3))
    ; ("health_category", PStr (categorize_vegetation_health base_ndvi))
    ; ("stress_indicators", PDict
        [ ("drought_stress", PStr (drought_stress base_ndvi))
        ; ("disease_pressure", disease_pressure)
        ; ("nutrient_status", nutrient_status) ])
    ; ("temporal_trends", PDict
        [ ("6_month_change", six_month_change)
        ; ("seasonal_pattern", PStr "normal")
        ; ("growth_trajectory", growth_trajectory) ])
    ; ("recommendations",
        strs (generate_vegetation_recommendations base_ndvi analysis_type)) ]).

Definition simulate_change_detection_analysis (lat lng : pyval) : M pyval :=
  significant_changes <- rounded 5 25 1 ;;
  change_confidence <- rounded 0.8 0.95 3 ;;
  deforestation <- formatted 0 3 ".1f" "%" ;;
  urban_expansion <- formatted 1 8 ".1f" "%" ;;
  water_body_changes <- formatted (-2) 2 "+.1f" "%" ;;
  agricultural_conversion <- formatted (-1) 5 "+.1f" "%" ;;
  area1 <- formatted 50 200 ".0f" " hectares" ;;
  area2 <- formatted 100 500 ".0f" " hectares" ;;
  ret (PDict
    [ ("temporal_analysis", PDict
        [ ("analysis_period", PStr "12 months")
        ; ("significant_changes", significant_changes)
        ; ("change_confidence", change_confidence) ])
    ; ("land_cover_changes", PDict
        [ ("deforestation", deforestation)
        ; ("urban_expansion", urban_expansion)
        ; ("water_body_changes", water_body_changes)
        ; ("agricultural_conversion", agricultural_conversion) ])
    ; ("hotspots", PList
        [ PDict [ ("type", PStr "urban_development"); ("intensity", PStr "high")
                ; ("area", area1) ]
        ; PDict [ ("type", PStr "vegetation_change"); ("intensity", PStr "moderate")
                ; ("area", area2) ] ]) ]).

Definition simulate_environmental_assessment (query analysis_type : pyval) : M pyval :=
  environmental_score <- rounded 6.5 9.2 1 ;;
  carbon_sequestration <- formatted 50 150 ".0f" " kg CO2/ha/year" ;;
  biodiversity_index <- rounded 0.6 0.9 2 ;;
  ecosystem_health <- chosen ["excellent"; "good"; "moderate"] ;;
  pollution_pressure <- chosen ["low"; "moderate"; "high"] ;;
  development_pressure <- chosen ["low"; "moderate"; "high"] ;;
  resource_exploitation <- chosen ["sustainable"; "moderate"; "intensive"] ;;
  outlook <- chosen ["stable"; "improving"; "declining"] ;;
  ret (PDict
    [ ("environmental_score", environmental_score)
    ; ("sustainability_indicators", PDict
        [ ("carbon_sequestration", carbon_sequestration)
        ; ("biodiversity_index", biodiversity_index)
        ; ("ecosystem_health", ecosystem_health) ])
    ; ("human_impact_factors", PDict
        [ ("pollution_pressure", pollution_pressure)
        ; ("development_pressure", development_pressure)
        ; ("resource_exploitation", resource_exploitation) ])
    ; ("predictive_insights", PDict
        [ ("5_year_outlook", outlook)
        ; ("risk_factors", strs ["climate_change"; "urban_expansion"; "water_stress"])
        ; ("opportunities",
            strs ["conservation"; "sustainable_development"; "restoration"]) ]) ]).

Definition generate_demo_analysis (query satellite_data coordinates analysis_type : pyval)
  : M pyval :=
  logger GeneratingDemo ;;
  lat <- lift (py_get coordinates "lat" (PInt 0)) ;;
  lng <- lift (py_get coordinates "lng" (PInt 0)) ;;
  land_use_analysis <- simulate_land_use_classification lat lng analysis_type ;;
  vegetation_analysis <- simulate_vegetation_health_analysis satellite_data analysis_type ;;
  change_detection <- simulate_change_detection_analysis lat lng ;;
  environmental_assessment <- simulate_environmental_assessment query analysis_type ;;
  multimodal_confidence <- rounded 0.75 0.95 3 ;;
  geospatial_insights <- lift (generate_geospatial_insights query analysis_type) ;;
  risk_factors <- lift (assess_environmental_risks lat lng analysis_type) ;;
  timestamp <- datetime_now_isoformat ;;
  processing_time <- rounded 1.2 3.5 2 ;;
  ret (PDict
    [ ("success", PBool true)
    ; ("model", PStr "TerraMind-1.0-large")
    ; ("mode", PStr "demo")
    ; ("analysis", PDict
        [ ("land_use_classification", land_use_analysis)
        ; ("vegetation_health", vegetation_analysis)
        ; ("change_detection", change_detection)
        ; ("environmental_assessment", environmental_assessment)
        ; ("multimodal_confidence", multimodal_confidence)
        ; ("geospatial_insights", strs geospatial_insights)
        ; ("risk_factors", PList risk_factors) ])
    ; ("metadata", PDict
        [ ("timestamp", PStr timestamp)
        ; ("coordinates", coordinates)
        ; ("analysis_type", analysis_type)
        ; ("modalities_processed", strs ["optical"; "sar"; "climate"; "text"])
        ; ("processing_time", processing_time) ]) ]).

(** The text of the prompt, line by line: the f-string opens and ends with
    a line break, and every line, the empty ones too, carries the eight
    blanks of the method's indentation. *)
Definition prompt_lines (query lat lng analysis_type : string) : list string :=
  [ ""
  ; "        Geospatial Analysis Task:"
  ; "        Query: " ++ query
  ; "        Location: " ++ lat ++ ", " ++ lng
  ; "        Analysis Type: " ++ analysis_type
  ; "        "
  ; "        Analyze the satellite data and provide:"
  ; "        1. Land use classification with confidence scores"
  ; "        2. Vegetation health assessment using NDVI"
  ; "        3. Change detection over temporal period"
  ; "        4. Environmental risk assessment"
  ; "        5. Specific insights for the query context"
  ; "        "
  ; "        Focus on actionable insights for non-expert users."
  ; "        " ].

Definition prompt_text (query lat lng analysis_type : string) : string :=
  String.concat (String "010"%char "") (prompt_lines query lat lng analysis_type).

(** The prompt of the real path; [coordinates['lat']] and
    [coordinates['lng']] must be there and be numbers. *)
Definition build_geospatial_prompt (query coordinates analysis_type : pyval)
  : result string :=
  let? lat := py_getitem coordinates "lat" in
  let? lat_text := py_format_value ".4f" lat in
  let? lng := py_getitem coordinates "lng" in
  let? lng_text := py_format_value ".4f" lng in
  Ok (prompt_text (py_str query) lat_text lng_text (py_str analysis_type)).

(** The real path.  After the tokenizer has run, the method asks for
    [self.process_satellite_modalities], an attribute the class never
    defines: the statements after it are never reached. *)
Definition run_terramind_analysis (query satellite_data coordinates analysis_type : pyval)
  : M pyval :=
  logger RunningReal ;;
  text_prompt <- lift (build_geospatial_prompt query coordinates analysis_type) ;;
  external (tokenizer text_prompt) ;;
  raise AttributeError.

Definition analyze_geospatial_data (query satellite_data coordinates analysis_type : pyval)
  : M pyval :=
  start_time <- time_time ;;
  finally
    (try_except
       (p <- self ;;
        if demo_mode p || negb (model_loaded p)
        then generate_demo_analysis query satellite_data coordinates analysis_type
        else run_terramind_analysis query satellite_data coordinates analysis_type)
       (fun e =>
          logger (AnalysisError e) ;;
          generate_demo_analysis query satellite_data coordinates analysis_type))
    (now <- time_time ;; logger (AnalysisCompleted (now - start_time))).

(** [TerraMindProcessor.__init__]: [getenv] is the value of
    TERRAMIND_DEMO_MODE, if set. *)
Definition __init__ (getenv : option string) : M unit :=
  set_model_name "ibm-esa-geospatial/TerraMind-1.0-large" ;;
  set_model_loaded false ;;
  set_demo_mode
    (String.eqb (lower (match getenv with Some v => v | None => "true" end)) "true") ;;
  p <- self ;;
  (if negb (demo_mode p) then
     try_except
       (external import_transformers ;;
        logger (LoadingModel (model_name p)) ;;
        external (from_pretrained (model_name p)) ;;
        external (from_pretrained (model_name p)) ;;
        set_model_loaded true ;;
        logger ModelLoaded)
       (fun e => logger (ModelLoadFailed e) ;; set_demo_mode true)
   else ret tt) ;;
  p' <- self ;;
  if demo_mode p' then logger DemoModeNotice else ret tt.

(** ** The /analyze endpoint *)

Definition response : Type := (pyval * Z)%type.

(** The body of the handler's [try]; [get_json] is what
    [request.get_json()] did on this request. *)
Definition analyze_geospatial_body (get_json : result pyval) : M response :=
  data <- lift get_json ;;
  if negb (truthy data) then
    ret (PDict [ ("error", PStr "No data provided") ], 400%Z)
  else
    query <- lift (py_get data "query" (PStr "")) ;;
    satellite_data <- lift (py_get data "satellite_data" (PDict [])) ;;
    coordinates <- lift (py_get data "coordinates" (PDict [])) ;;
    analysis_type <- lift (py_get data "analysis_type" (PStr "general")) ;;
    query_head <- lift (py_slice_to 50 query) ;;
    logger (AnalysisRequest query_head) ;;
    result <- analyze_geospatial_data query satellite_data coordinates analysis_type ;;
    ret (result, 200%Z).

Definition analyze_geospatial (get_json : result pyval) : M response :=
  try_except
    (analyze_geospatial_body get_json)
    (fun e =>
       logger (EndpointError e) ;;
       ret (PDict [ ("error", PStr "Analysis failed")
                  ; ("message", PStr (exn_str e))
                  ; ("fallback", PBool true) ], 500%Z)).

End Service.

(** ** The /health and /capabilities endpoints *)

(** [jsonify] of a dict, answered with status 200. *)
Definition health_check : M response :=
  p <- self ;;
  timestamp <- datetime_now_isoformat ;;
  ret (PDict
    [ ("status", PStr "healthy")
    ; ("model", PStr "TerraMind-1.0-large")
    ; ("mode", PStr (if demo_mode p then "demo" else "production"))
    ; ("model_loaded", PBool (model_loaded p))
    ; ("timestamp", PStr timestamp) ], 200%Z).

Definition get_capabilities : response :=
  (PDict
    [ ("model", PStr "TerraMind-1.0-large")
    ; ("modalities", strs
        [ "optical_imagery"; "sar_radar"; "climate_data"; "land_use"
        ; "vegetation_indices"; "text_description"; "temporal_analysis"
        ; "change_detection"; "environmental_assessment" ])
    ; ("analysis_types", strs
        [ "fishing"; "marine"; "weather"; "hiking"; "driving"; "agriculture"
        ; "urban_planning"; "environmental_monitoring"; "disaster_assessment" ])
    ; ("output_formats", strs
        [ "land_use_classification"; "vegetation_health"; "change_detection"
        ; "environmental_assessment"; "risk_analysis" ]) ], 200%Z).

(** ** Bounds on floats by powers of two

    The magnitude of [m * 2^e] is the [k] with [2^(k-1) <= m * 2^e < 2^k]. *)

Local Open Scope Z_scope.

Definition mag (m : positive) (e : Z) : Z := Z.log2 (Z.pos m) + 1 + e.

(** The float [binary_round_aux] ends on, from the mantissa and exponent it
    has reached. *)
Definition build_float (s : bool) (m e : Z) : spec_float :=
  match m with
  | Z0 => S754_zero s
  | Zpos p => if e <=? emax - prec then S754_finite s p e else S754_infinity s
  | Zneg _ => S754_nan
  end.

(** [2^k <= x]: [x] is positive, possibly infinite. *)
Definition ge_pow2 (k : Z) (x : spec_float) : bool :=
  match x with
  | S754_infinity false => true
  | S754_finite false m e => k <? mag m e
  | _ => false
  end.

(** [2^k <= |x|]. *)
Definition abs_ge_pow2 (k : Z) (x : spec_float) : bool :=
  match x with
  | S754_infinity _ => true
  | S754_finite _ m e => k <? mag m e
  | _ => false
  end.

(** [|x| < 2^k]: [x] is a zero or finite. *)
Definition abs_lt_pow2 (k : Z) (x : spec_float) : bool :=
  match x with
  | S754_zero _ => true
  | S754_finite _ m e => mag m e <=? k
  | _ => false
  end.

(** The float [2^k]. *)
Definition pow2_float (k : Z) : spec_float := S754_finite false 4503599627370496 (k - 52).

(** [+0], a positive number or [+inf]. *)
Definition sf_nonneg (x : spec_float) : bool :=
  match x with
  | S754_zero false | S754_infinity false | S754_finite false _ _ => true
  | _ => false
  end.

(** ** Definitions the properties are stated with *)

(** The centers are a few degrees of latitude and longitude, the radii a
    few kilometres. *)
Definition center_ok (c : center) : bool :=
  let '(cx, cy, r) := c in
  abs_lt_pow2 7 (Prim2SF cx) && abs_lt_pow2 7 (Prim2SF cy) && abs_lt_pow2 6 (Prim2SF (float_of_Z r)).

(** *** Outcomes of computations *)

(** [m] always returns. *)
Definition total {A : Type} (m : M A) : Prop :=
  forall st, exists a st', m st = (Ok a, st').

(** [m] always raises [e]. *)
Definition fails_with {A : Type} (m : M A) (e : exn) : Prop :=
  forall st, fst (m st) = Raise e.

(** What [m] returns, when it returns, satisfies [P]. *)
Definition post {A : Type} (m : M A) (P : A -> Prop) : Prop :=
  forall st a st', m st = (Ok a, st') -> P a.

(** [m] leaves the attributes of [processor] as they were. *)
Definition keeps_processor {A : Type} (m : M A) : Prop :=
  forall st, processor (snd (m st)) = processor st.

(** [m] does not enter the real path: it logs no [RunningReal]. *)
Definition quiet {A : Type} (m : M A) : Prop :=
  forall st, In RunningReal (log (world (snd (m st)))) -> In RunningReal (log (world st)).

(** *** The area of a request *)

(** The three branches, and the one [simulate_land_use_classification]
    takes: both tests are evaluated, urban is looked at first. *)
Inductive area : Type := Urban | Coastal | Rural.

Definition class_name (a : area) : string :=
  match a with
  | Urban => "urban"
  | Coastal => "coastal_mixed"
  | Rural => "agricultural"
  end.

Definition risks_of (a : area) : list pyval :=
  match a with
  | Urban => urban_risks
  | Coastal => coastal_risks
  | Rural => rural_risks
  end.

Definition area_class {LM : Libm} (lat lng : pyval) : result area :=
  let? urban := is_urban_area lat lng in
  let? coastal := is_coastal_area lat lng in
  Ok (if urban : bool then Urban else if coastal : bool then Coastal else Rural).

(** What [generate_demo_analysis] draws from its arguments before it can
    answer, in the order it does: the exceptions it can meet are these. *)
Definition demo_area {LM : Libm} (query coordinates : pyval) : result area :=
  let? lat := py_get coordinates "lat" (PInt 0) in
  let? lng := py_get coordinates "lng" (PInt 0) in
  let? a := area_class lat lng in
  let? _ := py_lower query in
  Ok a.

(** Walking down a JSON object. *)
Fixpoint path (keys : list string) (v : pyval) : option pyval :=
  match keys with
  | [] => Some v
  | k :: rest => match field k v with Some w => path rest w | None => None end
  end.

(** The fields of a demo answer. *)
Definition demo_schema (obj : pyval) : bool :=
  forallb (has_field obj) ["success"; "model"; "mode"; "analysis"; "metadata"] &&
  match field "analysis" obj with
  | Some a =>
      forallb (has_field a)
        [ "land_use_classification"; "vegetation_health"; "change_detection"
        ; "environmental_assessment"; "multimodal_confidence"
        ; "geospatial_insights"; "risk_factors" ]
  | None => false
  end.

(** The primary class of a classification, or the exception in its place. *)
Definition primary_class_of (r : result pyval) : result (option pyval) :=
  match r with
  | Ok v => Ok (field "primary_class" v)
  | Raise e => Raise e
  end.

(** What a demo answer for area [a] holds, beyond its random numbers. *)
Definition demo_answer (a : area) (obj : pyval) : Prop :=
  demo_schema obj = true /\
  field "success" obj = Some (PBool true) /\
  field "model" obj = Some (PStr "TerraMind-1.0-large") /\
  field "mode" obj = Some (PStr "demo") /\
  path ["analysis"; "land_use_classification"; "primary_class"] obj
  = Some (PStr (class_name a)) /\
  path ["analysis"; "risk_factors"] obj = Some (PList (risks_of a)).

(** The state in which [analyze_geospatial_data] enters its [try]: the
    clock has been read once. *)
Definition entered (st : State) : State := snd (time_time st).

(** A number the distance computation cannot overflow on. *)
Definition in_range (v : pyval) : bool :=
  match as_float v with
  | Ok x => abs_lt_pow2 480 (Prim2SF x)
  | Raise _ => false
  end.

(** [d.get(k, 0)] on a dict. *)
Definition coordinate (d : list (string * pyval)) (k : string) : pyval :=
  match lookup k d with Some v => v | None => PInt 0 end.

(** *** Requests and answers of the endpoint *)

(** [data.get(k, default)] on the dict of a request body. *)
Definition body_get (d : list (string * pyval)) (k : string) (default : pyval) : pyval :=
  match lookup k d with Some v => v | None => default end.

(** The body of a 500 answer. *)
Definition failure {RT : Runtime} (e : exn) : pyval :=
  PDict [ ("error", PStr "Analysis failed")
        ; ("message", PStr (exn_str e))
        ; ("fallback", PBool true) ].

(** What a demo answer echoes of its arguments. *)
Definition echoes (query coordinates analysis_type obj : pyval) : Prop :=
  path ["metadata"; "coordinates"] obj = Some coordinates /\
  path ["metadata"; "analysis_type"] obj = Some analysis_type /\
  exists l,
    generate_geospatial_insights query analysis_type = Ok l /\
    path ["analysis"; "geospatial_insights"] obj = Some (strs l).

(** Two outcomes that leave the same state and are the same exception, or
    two objects related by [Q]. *)
Definition alike (Q : pyval -> pyval -> Prop) (r1 r2 : result pyval * State) : Prop :=
  snd r1 = snd r2 /\
  match fst r1, fst r2 with
  | Ok o1, Ok o2 => Q o1 o2
  | Raise e1, Raise e2 => e1 = e2
  | _, _ => False
  end.

(** Two demo answers that differ at most in the analysis type their
    metadata echo. *)
Definition same_but_type (o1 o2 : pyval) : Prop :=
  (forall k, k <> "metadata" -> field k o1 = field k o2) /\
  (forall k, k <> "analysis_type" -> path ["metadata"; k] o1 = path ["metadata"; k] o2).

(** [m] logs nothing. *)
Definition silent {A : Type} (m : M A) : Prop :=
  forall st, log (world (snd (m st))) = log (world st).

(** *** Words in a query, and the four lists of insights *)

(** [needle] is a substring of [hay]. *)
Definition occurs (needle hay : string) : Prop :=
  exists before after, hay = before ++ needle ++ after.

Definition fishing_insights : list string :=
  [ "Coastal water quality analysis indicates safe fishing conditions"
  ; "Satellite data shows stable marine ecosystem health"
  ; "No significant pollution indicators detected in water bodies" ].

Definition water_insights : list string :=
  [ "Multi-spectral analysis reveals water body health status"
  ; "NDWI indicators show adequate water availability"
  ; "No significant contamination detected in satellite imagery" ].

Definition development_insights : list string :=
  [ "Land use change analysis shows development patterns"
  ; "Urban expansion rate within sustainable limits"
  ; "Environmental impact assessment suggests moderate pressure" ].

Definition general_insights : list string :=
  [ "Comprehensive satellite analysis completed"
  ; "Multi-temporal change detection reveals stable conditions"
  ; "Environmental health indicators within normal ranges" ].

(** *** Fields that hold one of a few words *)

(** The value at [keys] is one of the strings [options]. *)
Definition one_of (options : list string) (keys : list string) (obj : pyval) : Prop :=
  exists s, path keys obj = Some (PStr s) /\ In s options.

(** *** The health categories, from worst to best *)

Definition health_rank (category : string) : nat :=
  if String.eqb category "excellent" then 4
  else if String.eqb category "good" then 3
  else if String.eqb category "moderate" then 2
  else if String.eqb category "poor" then 1
  else 0.

(** ** Requests and states to run the model on *)

Module Example.

(** A libm whose squares and roots are the correctly rounded ones. *)
Definition libm : Libm.
Proof.
  refine {| libm_pow := fun x y => if (y =? 2)%float then (x * x)%float else sqrt x |}.
  - intros x _ z. change (2 =? 2)%float with true. cbv iota.
    rewrite !ltb_spec, !leb_spec. unfold SFltb, SFleb.
    split; intros H; destruct (SFcompare _ _) as [[]|]; congruence.
  - intros x _ z. change (0.5 =? 2)%float with false. cbv iota.
    rewrite !ltb_spec, !leb_spec. unfold SFltb, SFleb.
    split; intros H; destruct (SFcompare _ _) as [[]|]; congruence.
  - intros x y Hx. rewrite ltb_spec in Hx. apply Prim2SF_inj. rewrite abs_spec.
    destruct (y =? 2)%float.
    + rewrite mul_spec.
      destruct (Prim2SF x) as [s|[]| |[] m e]; try discriminate; try reflexivity.
      unfold SF64mul, SFmul, binary_round_aux. cbn [xorb].
      repeat match goal with
        | |- context [shr_fexp ?p ?q ?a ?b ?c] => destruct (shr_fexp p q a b c)
        end.
      destruct (shr_m _); [reflexivity| |reflexivity].
      destruct (_ <=? _)%Z; reflexivity.
    + rewrite sqrt_spec.
      destruct (Prim2SF x) as [s|[]| |[] m e]; try discriminate; try reflexivity.
      unfold SF64sqrt, SFsqrt, binary_round_aux.
      destruct (SFsqrt_core_binary _ _ _ _) as [[q e'] l].
      repeat match goal with
        | |- context [shr_fexp ?p ?q ?a ?b ?c] => destruct (shr_fexp p q a b c)
        end.
      destruct (shr_m _); [reflexivity| |reflexivity].
      destruct (_ <=? _)%Z; reflexivity.
Defined.

(** A libm that rounds one square the other way, as glibc 2.36 does:
    [pow(0x1.799e870ceb3p-2, 2.0)] is [0x1.168225f783f23p-3], one unit in
    the last place above the correctly rounded product; every other
    square, and every root, is the correctly rounded one. *)
Definition libm_glibc : Libm.
Proof.
  refine {| libm_pow := fun x y =>
              if (y =? 2)%float then
                if (x =? 0x1.799e870ceb3p-2)%float then 0x1.168225f783f23p-3%float
                else (x * x)%float
              else sqrt x |}.
  - intros x _. change (2 =? 2)%float with true. cbv iota.
    destruct (x =? 0x1.799e870ceb3p-2)%float eqn:E.
    + assert (Heq : forall (m0 : positive) (e0 : Z) (a : spec_float),
                 SFeqb a (S754_finite false m0 e0) = true -> a = S754_finite false m0 e0).
      { intros m0 e0 [s|s| |s m e]; cbv [SFeqb SFcompare];
          try discriminate; try (destruct s; discriminate).
        destruct s; try discriminate.
        destruct (Z.compare_spec e e0) as [He| |]; try discriminate.
        change (Pos.compare_cont Eq m m0) with (Pos.compare m m0).
        destruct (Pos.compare_spec m m0) as [Hm| |]; try discriminate.
        intros _. rewrite He, Hm. reflexivity. }
      assert (Hnext : forall (m0 : positive) (e0 : Z) (z : spec_float),
                 (SFltb (S754_finite false m0 e0) z = true ->
                  SFleb (S754_finite false (m0 + 1) e0) z = true) /\
                 (SFltb z (S754_finite false m0 e0) = true ->
                  SFleb z (S754_finite false (m0 + 1) e0) = true)).
      { intros m0 e0 [[]|[]| |[] m e]; cbv [SFltb SFleb SFcompare];
          try (split; congruence).
        destruct (Z.compare_spec e0 e) as [He| |]; destruct (Z.compare_spec e e0);
          try lia; try (split; congruence).
        change (Pos.compare_cont Eq ?a ?b) with (Pos.compare a b).
        destruct (Pos.compare_spec m0 m); destruct (Pos.compare_spec (m0 + 1) m);
          destruct (Pos.compare_spec m m0); destruct (Pos.compare_spec m (m0 + 1));
          try lia; split; congruence. }
      assert (Hx : x = 0x1.799e870ceb3p-2%float).
      { apply Prim2SF_inj. rewrite FloatAxioms.eqb_spec in E.
        exact (Heq 6643148068401920%positive (-54)%Z _ E). }
      subst x. intros z. rewrite !ltb_spec, !leb_spec.
      exact (Hnext 4899571443973922%positive (-55)%Z (Prim2SF z)).
    + intros z. rewrite !ltb_spec, !leb_spec. unfold SFltb, SFleb.
      split; intros H; destruct (SFcompare _ _) as [[]|]; congruence.
  - intros x _ z. change (0.5 =? 2)%float with false. cbv iota.
    rewrite !ltb_spec, !leb_spec. unfold SFltb, SFleb.
    split; intros H; destruct (SFcompare _ _) as [[]|]; congruence.
  - intros x y Hx. rewrite ltb_spec in Hx. apply Prim2SF_inj. rewrite abs_spec.
    destruct (y =? 2)%float; [destruct (x =? 0x1.799e870ceb3p-2)%float; [reflexivity|]|].
    + rewrite mul_spec.
      destruct (Prim2SF x) as [s|[]| |[] m e]; try discriminate; try reflexivity.
      unfold SF64mul, SFmul, binary_round_aux. cbn [xorb].
      repeat match goal with
        | |- context [shr_fexp ?p ?q ?a ?b ?c] => destruct (shr_fexp p q a b c)
        end.
      destruct (shr_m _); [reflexivity| |reflexivity].
      destruct (_ <=? _)%Z; reflexivity.
    + rewrite sqrt_spec.
      destruct (Prim2SF x) as [s|[]| |[] m e]; try discriminate; try reflexivity.
      unfold SF64sqrt, SFsqrt, binary_round_aux.
      destruct (SFsqrt_core_binary _ _ _ _) as [[q e'] l].
      repeat match goal with
        | |- context [shr_fexp ?p ?q ?a ?b ?c] => destruct (shr_fexp p q a b c)
        end.
      destruct (shr_m _); [reflexivity| |reflexivity].
      destruct (_ <=? _)%Z; reflexivity.
Defined.

(** A runtime for running the model: it leaves numbers unrounded and prints
    every value the same way; transformers loads and tokenizes without
    error. *)
Definition runtime : Runtime :=
  {| py_round := fun x _ => x;
     py_format := fun _ _ => "0.0";
     py_str := fun _ => "...";
     exn_str := fun _ => "error";
     tokenizer := fun _ w => (Ok tt, w);
     import_transformers := fun w => (Ok tt, w);
     from_pretrained := fun _ w => (Ok tt, w) |}.

(** A world whose generator always answers [sample]. *)
Definition world_of (sample : float) : World :=
  {| uniform_at := fun _ => sample;
     choice_at := fun _ => 0%nat;
     time_at := fun _ => 0%float;
     now_at := fun _ => "2024-01-01T00:00:00";
     tick := 0;
     log := [] |}.

Definition demo_state : State :=
  {| processor := {| model_name := "ibm-esa-geospatial/TerraMind-1.0-large";
                     model_loaded := false; demo_mode := true |};
     world := world_of 0.5 |}.

Definition real_state : State :=
  {| processor := {| model_name := "ibm-esa-geospatial/TerraMind-1.0-large";
                     model_loaded := true; demo_mode := false |};
     world := world_of 0.5 |}.

Definition chennai : pyval := PDict [ ("lat", PFloat 13.0827); ("lng", PFloat 80.2707) ].

End Example.

(** * Properties *)

(** ** Rounding keeps magnitudes *)

Lemma digits2_pos_size (m : positive) : digits2_pos m = Pos.size m.
Proof. induction m; simpl; congruence. Qed.

Lemma digits2_pos_log2 (m : positive) :
  Z.pos (digits2_pos m) = Z.log2 (Z.pos m) + 1.
Proof.
  rewrite digits2_pos_size.
  destruct m; simpl; rewrite ?Pos2Z.inj_succ; lia.
Qed.

Lemma Zdigits2_log2 (z : Z) : 0 < z -> Zdigits2 z = Z.log2 z + 1.
Proof. destruct z; try lia. intros _. apply digits2_pos_log2. Qed.

Lemma shr_1_m (mrs : shr_record) :
  0 <= shr_m mrs -> shr_m (shr_1 mrs) = Z.shiftr (shr_m mrs) 1.
Proof.
  destruct mrs as [m r s]. simpl. intros Hm.
  destruct m as [|[p|p|]|p]; try lia; reflexivity.
Qed.

Lemma iter_shr_1_m (p : positive) : forall mrs,
  0 <= shr_m mrs ->
  shr_m (iter_pos shr_1 p mrs) = Z.shiftr (shr_m mrs) (Z.pos p).
Proof.
  induction p as [p IH|p IH|]; intros mrs Hm; simpl iter_pos.
  - assert (H1 : 0 <= shr_m (shr_1 mrs)).
    { rewrite shr_1_m by assumption. apply Z.shiftr_nonneg. assumption. }
    assert (H2 : 0 <= shr_m (iter_pos shr_1 p (shr_1 mrs))).
    { rewrite IH by assumption. apply Z.shiftr_nonneg. assumption. }
    rewrite IH by assumption. rewrite IH by assumption.
    rewrite shr_1_m by assumption.
    rewrite !Z.shiftr_shiftr by lia. f_equal. lia.
  - assert (H2 : 0 <= shr_m (iter_pos shr_1 p mrs)).
    { rewrite IH by assumption. apply Z.shiftr_nonneg. assumption. }
    rewrite IH by assumption. rewrite IH by assumption.
    rewrite !Z.shiftr_shiftr by lia. f_equal. lia.
  - apply shr_1_m. assumption.
Qed.

Lemma shr_record_of_loc_m m l : shr_m (shr_record_of_loc m l) = m.
Proof. destruct l as [|[]]; reflexivity. Qed.

Lemma shr_fexp_spec (m e : Z) (l : location) :
  0 <= m ->
  let '(mrs, e') := shr_fexp prec emax m e l in
  e' = Z.max e (fexp prec emax (Zdigits2 m + e)) /\
  shr_m mrs = Z.shiftr m (e' - e).
Proof.
  intros Hm. unfold shr_fexp, shr.
  destruct (fexp prec emax (Zdigits2 m + e) - e) as [|p|p] eqn:E.
  - split; [lia|]. rewrite shr_record_of_loc_m.
    replace (e - e) with 0 by lia. reflexivity.
  - split; [lia|]. rewrite iter_shr_1_m by (rewrite shr_record_of_loc_m; assumption).
    rewrite shr_record_of_loc_m. f_equal. lia.
  - split; [lia|]. rewrite shr_record_of_loc_m.
    replace (e - e) with 0 by lia. reflexivity.
Qed.

Lemma fexp_eq (x : Z) : fexp prec emax x = Z.max (x - 53) (-1074).
Proof. reflexivity. Qed.

Lemma round_nearest_even_cases (m : Z) (l : location) :
  round_nearest_even m l = m \/ round_nearest_even m l = m + 1.
Proof.
  destruct l as [|[]]; simpl; auto. destruct (Z.even m); auto.
Qed.

Lemma binary_round_aux_spec (sx : bool) (mx ex : Z) (lx : location) :
  0 <= mx ->
  exists m2 e1 e3,
    e1 = Z.max ex (fexp prec emax (Zdigits2 mx + ex)) /\
    (m2 = Z.shiftr mx (e1 - ex) \/ m2 = Z.shiftr mx (e1 - ex) + 1) /\
    e3 = Z.max e1 (fexp prec emax (Zdigits2 m2 + e1)) /\
    binary_round_aux prec emax sx mx ex lx
    = build_float sx (Z.shiftr m2 (e3 - e1)) e3.
Proof.
  intros Hm. unfold binary_round_aux.
  pose proof (shr_fexp_spec mx ex lx Hm) as H1.
  destruct (shr_fexp prec emax mx ex lx) as [mrs1 e1].
  destruct H1 as [He1 Hm1].
  set (m2 := round_nearest_even (shr_m mrs1) (loc_of_shr_record mrs1)).
  assert (Hm2 : m2 = Z.shiftr mx (e1 - ex) \/ m2 = Z.shiftr mx (e1 - ex) + 1).
  { unfold m2. rewrite <- Hm1. apply round_nearest_even_cases. }
  assert (Hm2pos : 0 <= m2).
  { pose proof (Z.shiftr_nonneg mx (e1 - ex)) as Hn. lia. }
  pose proof (shr_fexp_spec m2 e1 loc_Exact Hm2pos) as H3.
  destruct (shr_fexp prec emax m2 e1 loc_Exact) as [mrs3 e3].
  destruct H3 as [He3 Hm3].
  exists m2, e1, e3. repeat split; try assumption.
  rewrite Hm3. reflexivity.
Qed.

Lemma shiftr_log2 (m n : Z) :
  0 < m -> 0 <= n -> n <= Z.log2 m ->
  0 < Z.shiftr m n /\ Z.log2 (Z.shiftr m n) = Z.log2 m - n.
Proof.
  intros Hm Hn Hle. split.
  - pose proof (Z.shiftr_nonneg m n) as Hnn.
    destruct (Z.eq_dec (Z.shiftr m n) 0) as [E|E]; [|lia].
    apply Z.shiftr_eq_0_iff in E. lia.
  - rewrite Z.log2_shiftr by assumption. lia.
Qed.

(** A positive value of magnitude above [k] rounds to a float of
    magnitude above [k] (or overflows to the infinity of its sign). *)
Lemma binary_round_aux_lower (sx : bool) (mx ex : Z) (lx : location) (k : Z) :
  0 < mx -> -1074 <= k -> k < Z.log2 mx + 1 + ex ->
  binary_round_aux prec emax sx mx ex lx = S754_infinity sx \/
  exists m e, binary_round_aux prec emax sx mx ex lx = S754_finite sx m e
              /\ k < mag m e.
Proof.
  intros Hm Hk Hmag.
  destruct (binary_round_aux_spec sx mx ex lx) as (m2 & e1 & e3 & He1 & Hm2 & He3 & ->);
    [lia|].
  rewrite Zdigits2_log2, fexp_eq in He1 by assumption.
  pose proof (Z.log2_nonneg mx) as Hl0.
  destruct (shiftr_log2 mx (e1 - ex)) as [H1pos H1log]; try lia.
  assert (H2pos : 0 < m2) by lia.
  assert (H2log : Z.log2 mx - (e1 - ex) <= Z.log2 m2).
  { rewrite <- H1log. apply Z.log2_le_mono. lia. }
  rewrite Zdigits2_log2, fexp_eq in He3 by assumption.
  destruct (shiftr_log2 m2 (e3 - e1)) as [H3pos H3log]; try lia.
  unfold build_float.
  destruct (Z.shiftr m2 (e3 - e1)) as [|p|p] eqn:E; try lia.
  destruct (e3 <=? emax - prec); [right|left; reflexivity].
  exists p, e3. split; [reflexivity|]. unfold mag. lia.
Qed.

(** A value of magnitude at most [k] rounds to zero or to a finite float
    of magnitude at most [k + 1]. *)
Lemma binary_round_aux_upper (sx : bool) (mx ex : Z) (lx : location) (k : Z) :
  0 < mx -> -1074 <= k -> k <= 970 -> Z.log2 mx + 1 + ex <= k ->
  binary_round_aux prec emax sx mx ex lx = S754_zero sx \/
  exists m e, binary_round_aux prec emax sx mx ex lx = S754_finite sx m e
              /\ mag m e <= k + 1.
Proof.
  intros Hm Hk Hk' Hmag.
  destruct (binary_round_aux_spec sx mx ex lx) as (m2 & e1 & e3 & He1 & Hm2 & He3 & ->);
    [lia|].
  unfold build_float.
  destruct (Z.shiftr m2 (e3 - e1)) as [|p|p] eqn:E.
  - left. reflexivity.
  - right.
    assert (H2pos : 0 < m2).
    { pose proof (Z.shiftr_nonneg mx (e1 - ex)).
      destruct (Z.eq_dec m2 0) as [Z0|]; [|lia].
      rewrite Z0, Z.shiftr_0_l in E. discriminate. }
    assert (H3 : e3 - e1 <= Z.log2 m2).
    { destruct (Z_le_gt_dec (e3 - e1) (Z.log2 m2)); [assumption|].
      rewrite Z.shiftr_eq_0 in E by lia. discriminate. }
    rewrite Zdigits2_log2, fexp_eq in He3 by assumption.
    destruct (shiftr_log2 m2 (e3 - e1)) as [H3pos H3log]; try lia.
    rewrite E in H3log.
    assert (Hm2mag : Z.log2 m2 + 1 + e1 <= k + 1 /\ e1 <= Z.max (k - 1) (-1074)).
    { rewrite Zdigits2_log2, fexp_eq in He1 by assumption.
      pose proof (Z.log2_nonneg mx) as Hl0.
      destruct (Z_le_gt_dec (e1 - ex) (Z.log2 mx)) as [Hle|Hgt].
      + destruct (shiftr_log2 mx (e1 - ex)) as [H1pos H1log]; try lia.
        assert (Z.log2 m2 <= Z.log2 (Z.shiftr mx (e1 - ex)) + 1).
        { destruct Hm2 as [->| ->]; [lia|].
          pose proof (Z.log2_succ_le (Z.shiftr mx (e1 - ex))). unfold Z.succ in *. lia. }
        lia.
      + rewrite (Z.shiftr_eq_0 mx) in Hm2 by lia.
        assert (m2 = 1) by lia. subst m2. simpl Z.log2. lia. }
    assert (Hle : (e3 <=? emax - prec) = true).
    { apply Z.leb_le. change (emax - prec) with 971. lia. }
    rewrite Hle. exists p, e3. split; [reflexivity|]. unfold mag. lia.
  - pose proof (Z.shiftr_nonneg m2 (e3 - e1)) as Hn.
    pose proof (Z.shiftr_nonneg mx (e1 - ex)). lia.
Qed.

Lemma ge_pow2_mono (k k' : Z) (x : spec_float) :
  k' <= k -> ge_pow2 k x = true -> ge_pow2 k' x = true.
Proof.
  intros Hk. destruct x as [s|[]| |[] m e]; simpl; try congruence.
  rewrite !Z.ltb_lt. lia.
Qed.

Lemma abs_ge_pow2_mono (k k' : Z) (x : spec_float) :
  k' <= k -> abs_ge_pow2 k x = true -> abs_ge_pow2 k' x = true.
Proof.
  intros Hk. destruct x as [s|s| |s m e]; simpl; try congruence.
  rewrite !Z.ltb_lt. lia.
Qed.

Lemma abs_lt_pow2_mono (k k' : Z) (x : spec_float) :
  k <= k' -> abs_lt_pow2 k x = true -> abs_lt_pow2 k' x = true.
Proof.
  intros Hk. destruct x as [s|s| |s m e]; simpl; try congruence.
  rewrite !Z.leb_le. lia.
Qed.

Lemma abs_ge_pow2_abs (k : Z) (x : spec_float) :
  abs_ge_pow2 k x = true -> ge_pow2 k (SFabs x) = true.
Proof. destruct x as [s|s| |s m e]; simpl; congruence. Qed.

Lemma not_abs_ge_pow2 (k : Z) (x : spec_float) :
  abs_ge_pow2 k x = false -> x <> S754_nan -> abs_lt_pow2 k x = true.
Proof.
  destruct x as [s|s| |s m e]; simpl; try congruence.
  rewrite Z.ltb_ge, Z.leb_le. trivial.
Qed.

(** Left shifts used to align mantissas keep the value. *)
Lemma iter_xO_pow (d m : positive) : Z.pos (Pos.iter xO m d) = Z.pos m * 2 ^ Z.pos d.
Proof.
  revert m. induction d as [|d IH] using Pos.peano_ind; intros m.
  - simpl. lia.
  - rewrite Pos.iter_succ, Pos2Z.inj_succ, Z.pow_succ_r by lia.
    change (Z.pos (Pos.iter xO m d)~0) with (2 * Z.pos (Pos.iter xO m d)).
    rewrite IH. lia.
Qed.

Lemma shl_align_spec (mx : positive) (ex ex' : Z) :
  snd (shl_align mx ex ex') = Z.min ex ex' /\
  Z.pos (fst (shl_align mx ex ex'))
  = Z.pos mx * 2 ^ (ex - snd (shl_align mx ex ex')).
Proof.
  unfold shl_align. destruct (ex' - ex) as [|p|p] eqn:E; simpl.
  - split; [lia|]. rewrite Z.sub_diag, Z.pow_0_r. lia.
  - split; [lia|]. rewrite Z.sub_diag, Z.pow_0_r. lia.
  - split; [lia|]. rewrite iter_xO_pow. f_equal. f_equal.
    replace (ex - ex') with (- (ex' - ex)) by lia. rewrite E. reflexivity.
Qed.

Lemma shl_align_mag (mx : positive) (ex ex' : Z) :
  mag (fst (shl_align mx ex ex')) (snd (shl_align mx ex ex')) = mag mx ex.
Proof.
  destruct (shl_align_spec mx ex ex') as [He Hm].
  unfold mag. rewrite Hm, Z.log2_mul_pow2 by lia. lia.
Qed.

Lemma binary_round_lower (s : bool) (m : positive) (e k : Z) :
  -1074 <= k -> k < mag m e ->
  abs_ge_pow2 k (binary_round prec emax s m e) = true /\
  (s = false -> ge_pow2 k (binary_round prec emax s m e) = true).
Proof.
  intros Hk Hm. unfold binary_round.
  pose proof (shl_align_mag m e (fexp prec emax (Z.pos (digits2_pos m) + e))) as Hmag.
  destruct (shl_align m e _) as [mz ez]. simpl in Hmag.
  destruct (binary_round_aux_lower s (Z.pos mz) ez loc_Exact k) as [->|(m' & e' & -> & Hm')];
    try lia.
  - unfold mag in *. lia.
  - simpl. split; [reflexivity|]. intros ->. reflexivity.
  - simpl. apply Z.ltb_lt in Hm'. rewrite Hm'. split; [reflexivity|].
    intros ->. reflexivity.
Qed.

Lemma binary_round_upper (s : bool) (m : positive) (e k : Z) :
  -1074 <= k -> k <= 970 -> mag m e <= k ->
  abs_lt_pow2 (k + 1) (binary_round prec emax s m e) = true /\
  (s = false -> sf_nonneg (binary_round prec emax s m e) = true).
Proof.
  intros Hk Hk' Hm. unfold binary_round.
  pose proof (shl_align_mag m e (fexp prec emax (Z.pos (digits2_pos m) + e))) as Hmag.
  destruct (shl_align m e _) as [mz ez]. simpl in Hmag.
  destruct (binary_round_aux_upper s (Z.pos mz) ez loc_Exact k) as [->|(m' & e' & -> & Hm')];
    try lia.
  - unfold mag in *. lia.
  - simpl. split; [reflexivity|]. intros ->. reflexivity.
  - simpl. apply Z.leb_le in Hm'. rewrite Hm'. split; [reflexivity|].
    intros ->. reflexivity.
Qed.

Lemma binary_round_aux_nonneg (mx ex : Z) (lx : location) :
  0 <= mx -> sf_nonneg (binary_round_aux prec emax false mx ex lx) = true.
Proof.
  intros Hm.
  destruct (binary_round_aux_spec false mx ex lx Hm) as (m2 & e1 & e3 & _ & Hm2 & _ & ->).
  unfold build_float.
  pose proof (Z.shiftr_nonneg mx (e1 - ex)) as H1.
  pose proof (Z.shiftr_nonneg m2 (e3 - e1)) as H3.
  destruct (Z.shiftr m2 (e3 - e1)); try reflexivity; [|lia].
  destruct (e3 <=? emax - prec); reflexivity.
Qed.

Lemma binary_round_nonneg (m : positive) (e : Z) :
  sf_nonneg (binary_round prec emax false m e) = true.
Proof.
  unfold binary_round. destruct (shl_align m e _) as [mz ez].
  apply binary_round_aux_nonneg. lia.
Qed.

(** Multiplication. *)
Lemma SFmul_lower (a b : Z) (x y : spec_float) :
  -1074 <= a + b -> ge_pow2 a x = true -> ge_pow2 b y = true ->
  ge_pow2 (a + b) (SF64mul x y) = true.
Proof.
  intros Hab Hx Hy.
  destruct x as [s|[]| |[] mx ex]; try discriminate;
    destruct y as [s'|[]| |[] my ey]; try discriminate; try reflexivity.
  simpl in Hx, Hy. apply Z.ltb_lt in Hx, Hy. unfold mag in Hx, Hy.
  unfold SF64mul, SFmul. simpl xorb.
  pose proof (Z.log2_mul_below (Z.pos mx) (Z.pos my)) as Hlog.
  destruct (binary_round_aux_lower false (Z.pos (mx * my)) (ex + ey) loc_Exact (a + b))
    as [->|(m' & e' & -> & Hm')]; try lia.
  - rewrite Pos2Z.inj_mul. lia.
  - reflexivity.
  - simpl. apply Z.ltb_lt. assumption.
Qed.

Lemma SFmul_upper (a b : Z) (x y : spec_float) :
  -1074 <= a + b -> a + b <= 970 -> abs_lt_pow2 a x = true -> abs_lt_pow2 b y = true ->
  abs_lt_pow2 (a + b + 1) (SF64mul x y) = true.
Proof.
  intros Hab Hab' Hx Hy.
  destruct x as [s|s| |s mx ex]; try discriminate;
    destruct y as [s'|s'| |s' my ey]; try discriminate; try reflexivity.
  simpl in Hx, Hy. apply Z.leb_le in Hx, Hy. unfold mag in Hx, Hy.
  unfold SF64mul, SFmul.
  pose proof (Z.log2_mul_above (Z.pos mx) (Z.pos my)) as Hlog.
  destruct (binary_round_aux_upper (xorb s s') (Z.pos (mx * my)) (ex + ey) loc_Exact (a + b))
    as [->|(m' & e' & -> & Hm')]; try lia.
  - rewrite Pos2Z.inj_mul. lia.
  - reflexivity.
  - simpl. apply Z.leb_le. assumption.
Qed.

Lemma SFmul_abs_nonneg (x : spec_float) :
  SF64mul (SFabs x) (SFabs x) = S754_nan \/
  sf_nonneg (SF64mul (SFabs x) (SFabs x)) = true.
Proof.
  destruct x as [s|s| |s m e]; simpl; auto.
  right. apply binary_round_aux_nonneg. lia.
Qed.

(** Addition of non-negative floats. *)
Lemma SFadd_nonneg (x y : spec_float) :
  sf_nonneg x = true -> sf_nonneg y = true -> sf_nonneg (SF64add x y) = true.
Proof.
  intros Hx Hy.
  destruct x as [[]|[]| |[] mx ex]; try discriminate;
    destruct y as [[]|[]| |[] my ey]; try discriminate; try reflexivity.
  unfold SF64add, SFadd, cond_Zopp. cbn [binary_normalize Z.add].
  apply binary_round_nonneg.
Qed.

Lemma SFadd_lower_l (a : Z) (x y : spec_float) :
  -1074 <= a -> ge_pow2 a x = true -> sf_nonneg y = true ->
  ge_pow2 a (SF64add x y) = true.
Proof.
  intros Ha Hx Hy.
  destruct x as [s|[]| |[] mx ex]; try discriminate;
    destruct y as [[]|[]| |[] my ey]; try discriminate; try assumption; try reflexivity.
  simpl in Hx. apply Z.ltb_lt in Hx.
  unfold SF64add, SFadd, cond_Zopp. cbn [binary_normalize Z.add].
  apply binary_round_lower; [assumption| |reflexivity].
  pose proof (shl_align_mag mx ex (Z.min ex ey)) as Hmag.
  destruct (shl_align_spec mx ex (Z.min ex ey)) as [He _].
  rewrite He in Hmag. replace (Z.min ex (Z.min ex ey)) with (Z.min ex ey) in Hmag by lia.
  unfold mag in *. rewrite Pos2Z.inj_add.
  assert (Z.log2 (Z.pos (fst (shl_align mx ex (Z.min ex ey))))
          <= Z.log2 (Z.pos (fst (shl_align mx ex (Z.min ex ey)))
                     + Z.pos (fst (shl_align my ey (Z.min ex ey))))).
  { apply Z.log2_le_mono. lia. }
  lia.
Qed.

Lemma SFadd_lower_r (a : Z) (x y : spec_float) :
  -1074 <= a -> sf_nonneg x = true -> ge_pow2 a y = true ->
  ge_pow2 a (SF64add x y) = true.
Proof.
  intros Ha Hx Hy.
  destruct y as [s|[]| |[] my ey]; try discriminate;
    destruct x as [[]|[]| |[] mx ex]; try discriminate; try assumption; try reflexivity.
  simpl in Hy. apply Z.ltb_lt in Hy.
  unfold SF64add, SFadd, cond_Zopp. cbn [binary_normalize Z.add].
  apply binary_round_lower; [assumption| |reflexivity].
  pose proof (shl_align_mag my ey (Z.min ex ey)) as Hmag.
  destruct (shl_align_spec my ey (Z.min ex ey)) as [He _].
  rewrite He in Hmag. replace (Z.min ey (Z.min ex ey)) with (Z.min ex ey) in Hmag by lia.
  unfold mag in *. rewrite Pos2Z.inj_add.
  assert (Z.log2 (Z.pos (fst (shl_align my ey (Z.min ex ey))))
          <= Z.log2 (Z.pos (fst (shl_align mx ex (Z.min ex ey)))
                     + Z.pos (fst (shl_align my ey (Z.min ex ey))))).
  { apply Z.log2_le_mono. lia. }
  lia.
Qed.

Lemma binary_normalize_lower (z e k : Z) :
  z <> 0 -> -1074 <= k -> k < Z.log2 (Z.abs z) + 1 + e ->
  abs_ge_pow2 k (binary_normalize prec emax z e false) = true.
Proof.
  intros Hz Hk Hm. destruct z as [|p|p]; [congruence| |];
    apply binary_round_lower; assumption.
Qed.

Lemma binary_normalize_upper (z e k : Z) :
  -1074 <= k -> k <= 970 -> (z <> 0 -> Z.log2 (Z.abs z) + 1 + e <= k) ->
  abs_lt_pow2 (k + 1) (binary_normalize prec emax z e false) = true.
Proof.
  intros Hk Hk' Hm. destruct z as [|p|p]; [reflexivity| |];
    apply binary_round_upper; try assumption; apply Hm; discriminate.
Qed.

(** Subtraction. *)
Lemma SFsub_lower (a : Z) (x y : spec_float) :
  -1074 <= a - 1 -> abs_ge_pow2 a x = true -> abs_lt_pow2 (a - 1) y = true ->
  abs_ge_pow2 (a - 1) (SF64sub x y) = true.
Proof.
  intros Ha Hx Hy.
  destruct x as [s|s| |s mx ex]; try discriminate;
    destruct y as [s'|s'| |s' my ey]; try discriminate; try reflexivity.
  - simpl in *. apply Z.ltb_lt in Hx. apply Z.ltb_lt. lia.
  - simpl in Hx, Hy. apply Z.ltb_lt in Hx. apply Z.leb_le in Hy.
    unfold SF64sub, SFsub.
    pose proof (shl_align_mag mx ex (Z.min ex ey)) as Hmx.
    pose proof (shl_align_mag my ey (Z.min ex ey)) as Hmy.
    destruct (shl_align_spec mx ex (Z.min ex ey)) as [Hex _].
    destruct (shl_align_spec my ey (Z.min ex ey)) as [Hey _].
    rewrite Hex in Hmx. rewrite Hey in Hmy.
    replace (Z.min ex (Z.min ex ey)) with (Z.min ex ey) in Hmx by lia.
    replace (Z.min ey (Z.min ex ey)) with (Z.min ex ey) in Hmy by lia.
    set (X := fst (shl_align mx ex (Z.min ex ey))) in *.
    set (Y := fst (shl_align my ey (Z.min ex ey))) in *.
    set (ez := Z.min ex ey) in *. unfold mag in *.
    pose proof (Z.log2_spec (Z.pos X) eq_refl) as HX.
    pose proof (Z.log2_spec (Z.pos Y) eq_refl) as HY.
    pose proof (Z.log2_nonneg (Z.pos Y)) as HY0.
    set (L := Z.log2 (Z.pos X)) in *.
    assert (HL : Z.succ (Z.log2 (Z.pos Y)) <= L - 1) by lia.
    pose proof (Z.pow_le_mono_r 2 _ _ eq_refl HL) as Hpow.
    assert (H2L : 2 ^ L = 2 * 2 ^ (L - 1)).
    { replace L with (Z.succ (L - 1)) at 1 by lia. apply Z.pow_succ_r. lia. }
    set (z := cond_Zopp s (Z.pos X) - cond_Zopp s' (Z.pos Y)).
    assert (Hz : 2 ^ (L - 1) < Z.abs z).
    { unfold z, cond_Zopp. destruct s, s'; lia. }
    assert (Hpos : 0 < 2 ^ (L - 1)) by (apply Z.pow_pos_nonneg; lia).
    apply binary_normalize_lower; try lia.
    assert (L - 1 <= Z.log2 (Z.abs z)) by (apply Z.log2_le_pow2; lia).
    lia.
Qed.

Lemma SFsub_upper (a : Z) (x y : spec_float) :
  -1074 <= a -> a <= 968 -> abs_lt_pow2 a x = true -> abs_lt_pow2 a y = true ->
  abs_lt_pow2 (a + 2) (SF64sub x y) = true.
Proof.
  intros Ha Ha' Hx Hy.
  destruct x as [s|s| |s mx ex]; try discriminate;
    destruct y as [s'|s'| |s' my ey]; try discriminate.
  - simpl. destruct s, s'; reflexivity.
  - simpl in *. apply Z.leb_le in Hy. apply Z.leb_le. lia.
  - simpl in *. apply Z.leb_le in Hx. apply Z.leb_le. lia.
  - simpl in Hx, Hy. apply Z.leb_le in Hx, Hy.
    unfold SF64sub, SFsub.
    pose proof (shl_align_mag mx ex (Z.min ex ey)) as Hmx.
    pose proof (shl_align_mag my ey (Z.min ex ey)) as Hmy.
    destruct (shl_align_spec mx ex (Z.min ex ey)) as [Hex _].
    destruct (shl_align_spec my ey (Z.min ex ey)) as [Hey _].
    rewrite Hex in Hmx. rewrite Hey in Hmy.
    replace (Z.min ex (Z.min ex ey)) with (Z.min ex ey) in Hmx by lia.
    replace (Z.min ey (Z.min ex ey)) with (Z.min ex ey) in Hmy by lia.
    set (X := fst (shl_align mx ex (Z.min ex ey))) in *.
    set (Y := fst (shl_align my ey (Z.min ex ey))) in *.
    set (ez := Z.min ex ey) in *. unfold mag in *.
    pose proof (Z.log2_spec (Z.pos X) eq_refl) as HX.
    pose proof (Z.log2_spec (Z.pos Y) eq_refl) as HY.
    pose proof (Z.log2_nonneg (Z.pos X)) as HX0.
    pose proof (Z.log2_nonneg (Z.pos Y)) as HY0.
    assert (HXa : Z.succ (Z.log2 (Z.pos X)) <= a - ez) by lia.
    assert (HYa : Z.succ (Z.log2 (Z.pos Y)) <= a - ez) by lia.
    pose proof (Z.pow_le_mono_r 2 _ _ eq_refl HXa) as HpX.
    pose proof (Z.pow_le_mono_r 2 _ _ eq_refl HYa) as HpY.
    set (z := cond_Zopp s (Z.pos X) - cond_Zopp s' (Z.pos Y)).
    assert (Hz : Z.abs z < 2 ^ (a - ez + 1)).
    { rewrite Z.pow_add_r by lia. unfold z, cond_Zopp. destruct s, s'; lia. }
    replace (a + 2) with (a + 1 + 1) by lia.
    apply binary_normalize_upper; try lia.
    intros Hnz.
    assert (Z.log2 (Z.abs z) < a - ez + 1) by (apply Z.log2_lt_pow2; lia).
    lia.
Qed.

Lemma SFadd_upper (a : Z) (x y : spec_float) :
  -1074 <= a -> a <= 968 -> abs_lt_pow2 a x = true -> abs_lt_pow2 a y = true ->
  abs_lt_pow2 (a + 2) (SF64add x y) = true.
Proof.
  intros Ha Ha' Hx Hy.
  destruct x as [s|s| |s mx ex]; try discriminate;
    destruct y as [s'|s'| |s' my ey]; try discriminate.
  - simpl. destruct s, s'; reflexivity.
  - simpl in *. apply Z.leb_le in Hy. apply Z.leb_le. lia.
  - simpl in *. apply Z.leb_le in Hx. apply Z.leb_le. lia.
  - simpl in Hx, Hy. apply Z.leb_le in Hx, Hy.
    unfold SF64add, SFadd.
    pose proof (shl_align_mag mx ex (Z.min ex ey)) as Hmx.
    pose proof (shl_align_mag my ey (Z.min ex ey)) as Hmy.
    destruct (shl_align_spec mx ex (Z.min ex ey)) as [Hex _].
    destruct (shl_align_spec my ey (Z.min ex ey)) as [Hey _].
    rewrite Hex in Hmx. rewrite Hey in Hmy.
    replace (Z.min ex (Z.min ex ey)) with (Z.min ex ey) in Hmx by lia.
    replace (Z.min ey (Z.min ex ey)) with (Z.min ex ey) in Hmy by lia.
    set (X := fst (shl_align mx ex (Z.min ex ey))) in *.
    set (Y := fst (shl_align my ey (Z.min ex ey))) in *.
    set (ez := Z.min ex ey) in *. unfold mag in *.
    pose proof (Z.log2_spec (Z.pos X) eq_refl) as HX.
    pose proof (Z.log2_spec (Z.pos Y) eq_refl) as HY.
    pose proof (Z.log2_nonneg (Z.pos X)) as HX0.
    pose proof (Z.log2_nonneg (Z.pos Y)) as HY0.
    assert (HXa : Z.succ (Z.log2 (Z.pos X)) <= a - ez) by lia.
    assert (HYa : Z.succ (Z.log2 (Z.pos Y)) <= a - ez) by lia.
    pose proof (Z.pow_le_mono_r 2 _ _ eq_refl HXa) as HpX.
    pose proof (Z.pow_le_mono_r 2 _ _ eq_refl HYa) as HpY.
    set (z := cond_Zopp s (Z.pos X) + cond_Zopp s' (Z.pos Y)).
    assert (Hz : Z.abs z < 2 ^ (a - ez + 1)).
    { rewrite Z.pow_add_r by lia. unfold z, cond_Zopp. destruct s, s'; lia. }
    replace (a + 2) with (a + 1 + 1) by lia.
    apply binary_normalize_upper; try lia.
    intros Hnz.
    assert (Z.log2 (Z.abs z) < a - ez + 1) by (apply Z.log2_lt_pow2; lia).
    lia.
Qed.

(** Square root. *)
Lemma SFsqrt_lower (a : Z) (m : positive) (e : Z) :
  -1074 <= a -> 2 * a < mag m e ->
  ge_pow2 a (SF64sqrt (S754_finite false m e)) = true.
Proof.
  intros Ha Hm. unfold SF64sqrt, SFsqrt, SFsqrt_core_binary.
  set (e' := Z.min (fexp prec emax (Z.div2 (Zdigits2 (Z.pos m) + e + 1))) (Z.div2 e)).
  assert (He' : 2 * e' <= e).
  { unfold e'. pose proof (Zdiv2_odd_eqn e) as Hodd. destruct (Z.odd e); lia. }
  set (m' := match e - 2 * e' with
             | 0 => Z.pos m
             | Z.pos _ => Z.shiftl (Z.pos m) (e - 2 * e')
             | Z.neg _ => 0
             end).
  assert (Hm' : m' = Z.pos m * 2 ^ (e - 2 * e')).
  { unfold m'. destruct (e - 2 * e') as [|p|p] eqn:E.
    - rewrite Z.pow_0_r. lia.
    - apply Z.shiftl_mul_pow2. lia.
    - lia. }
  clearbody m'.
  assert (Hm'pos : 0 < m') by (rewrite Hm'; apply Z.mul_pos_pos; [lia|apply Z.pow_pos_nonneg; lia]).
  pose proof (Z.sqrtrem_spec m') as Hs.
  destruct (Z.sqrtrem m') as [q r]. destruct Hs as [Hq Hr]; [lia|].
  assert (Hqpos : 0 < q) by nia.
  assert (Hlog : a < Z.log2 q + 1 + e').
  { pose proof (Z.log2_nonneg q) as Hq0.
    destruct (Z_lt_le_dec a e') as [Hlt|Hge]; [lia|].
    assert (Hlm : Z.log2 m' = e - 2 * e' + Z.log2 (Z.pos m)).
    { rewrite Hm'. apply Z.log2_mul_pow2; lia. }
    unfold mag in Hm.
    assert (Hp : 2 ^ (2 * (a - e')) <= m').
    { apply Z.log2_le_pow2; lia. }
    rewrite Z.pow_twice_r in Hp.
    assert (Hpp : 0 < 2 ^ (a - e')) by (apply Z.pow_pos_nonneg; lia).
    assert (2 ^ (a - e') <= q) by nia.
    assert (a - e' <= Z.log2 q) by (apply Z.log2_le_pow2; lia).
    lia. }
  match goal with |- context [binary_round_aux _ _ _ _ _ ?l] =>
    destruct (binary_round_aux_lower false q e' l a) as [->|(m2 & e2 & -> & Hm2)]
  end; try lia.
  - reflexivity.
  - simpl. apply Z.ltb_lt. assumption.
Qed.

Lemma SFsqrt_nonneg (m : positive) (e : Z) :
  sf_nonneg (SF64sqrt (S754_finite false m e)) = true.
Proof.
  unfold SF64sqrt, SFsqrt, SFsqrt_core_binary.
  match goal with |- context [Z.sqrtrem ?x] =>
    pose proof (Z.sqrtrem_sqrt x) as Hs; pose proof (Z.sqrt_nonneg x) as Hn;
    destruct (Z.sqrtrem x) as [q r]
  end.
  simpl in Hs. subst q. apply binary_round_aux_nonneg. assumption.
Qed.

(** The root of a float below [4^j] is below [2^(j+1)]. *)
Lemma SFsqrt_upper (j : Z) (m : positive) (e : Z) :
  -1074 <= j -> j <= 970 -> mag m e <= 2 * j ->
  abs_lt_pow2 (j + 1) (SF64sqrt (S754_finite false m e)) = true.
Proof.
  intros Hj Hj' Hm. unfold SF64sqrt, SFsqrt, SFsqrt_core_binary.
  set (e' := Z.min (fexp prec emax (Z.div2 (Zdigits2 (Z.pos m) + e + 1))) (Z.div2 e)).
  assert (He' : 2 * e' <= e).
  { unfold e'. pose proof (Zdiv2_odd_eqn e) as Hodd. destruct (Z.odd e); lia. }
  set (m' := match e - 2 * e' with
             | 0 => Z.pos m
             | Z.pos _ => Z.shiftl (Z.pos m) (e - 2 * e')
             | Z.neg _ => 0
             end).
  assert (Hm' : m' = Z.pos m * 2 ^ (e - 2 * e')).
  { unfold m'. destruct (e - 2 * e') as [|p|p] eqn:E.
    - rewrite Z.pow_0_r. lia.
    - apply Z.shiftl_mul_pow2. lia.
    - lia. }
  clearbody m'.
  assert (Hm'pos : 0 < m') by (rewrite Hm'; apply Z.mul_pos_pos; [lia|apply Z.pow_pos_nonneg; lia]).
  pose proof (Z.sqrtrem_spec m') as Hs.
  destruct (Z.sqrtrem m') as [q r]. destruct Hs as [Hq Hr]; [lia|].
  assert (Hqpos : 0 < q) by nia.
  assert (Hlog : Z.log2 q + 1 + e' <= j).
  { assert (Hlm : Z.log2 m' = e - 2 * e' + Z.log2 (Z.pos m)).
    { rewrite Hm'. apply Z.log2_mul_pow2; lia. }
    unfold mag in Hm.
    pose proof (Z.log2_nonneg (Z.pos m)) as Hl0.
    assert (Hlt : m' < 2 ^ (2 * (j - e'))).
    { apply Z.log2_lt_pow2; lia. }
    rewrite Z.pow_twice_r in Hlt.
    assert (Hje : 0 <= j - e').
    { destruct (Z_lt_le_dec (j - e') 0) as [Hneg|]; [|assumption].
      rewrite (Z.pow_neg_r 2 (j - e')) in Hlt by assumption. lia. }
    assert (Hpp : 0 < 2 ^ (j - e')) by (apply Z.pow_pos_nonneg; lia).
    assert (q < 2 ^ (j - e')) by nia.
    assert (Z.log2 q < j - e') by (apply Z.log2_lt_pow2; lia).
    lia. }
  match goal with |- context [binary_round_aux _ _ _ _ _ ?l] =>
    destruct (binary_round_aux_upper false q e' l j) as [->|(m2 & e2 & -> & Hm2)]
  end; try lia.
  - reflexivity.
  - simpl. apply Z.leb_le. assumption.
Qed.

(** Comparison with a constant. *)
Lemma valid_exponent (s : bool) (m : positive) (e : Z) :
  valid_binary (S754_finite s m e) = true ->
  e = Z.max (mag m e - 53) (-1074).
Proof.
  simpl. unfold bounded, canonical_mantissa. rewrite andb_true_iff, Z.eqb_eq.
  intros [H _]. rewrite digits2_pos_log2, fexp_eq in H. unfold mag. lia.
Qed.

Lemma SFleb_ge2 (k : Z) (x c : spec_float) :
  -1021 <= k ->
  valid_binary x = true -> valid_binary c = true ->
  ge_pow2 k x = true -> abs_lt_pow2 k c = true -> SFleb x c = false.
Proof.
  intros Hk Vx Vc Hx Hc.
  destruct x as [s|[]| |[] mx ex]; try discriminate;
    destruct c as [s'|s'| |s' mc ec]; try discriminate; try reflexivity.
  simpl in Hx, Hc. apply Z.ltb_lt in Hx. apply Z.leb_le in Hc.
  apply valid_exponent in Vx, Vc.
  unfold SFleb, SFcompare. destruct s'; [reflexivity|].
  assert (Hgt : (ex ?= ec) = Gt) by (apply Z.compare_gt_iff; lia).
  rewrite Hgt. reflexivity.
Qed.

(** ** Doubles next to each other *)

Lemma pow2_float_valid (k : Z) :
  -1022 <= k -> k <= 1023 -> valid_binary (pow2_float k) = true.
Proof.
  intros Hk Hk'. unfold pow2_float, valid_binary, bounded, canonical_mantissa.
  rewrite andb_true_iff. split.
  - rewrite Z.eqb_eq, digits2_pos_log2, fexp_eq. simpl Z.log2. lia.
  - apply Z.leb_le. change (emax - prec) with 971. lia.
Qed.

Lemma pow2_float_prim (k : Z) :
  -1022 <= k -> k <= 1023 -> Prim2SF (SF2Prim (pow2_float k)) = pow2_float k.
Proof. intros Hk Hk'. apply Prim2SF_SF2Prim. apply pow2_float_valid; assumption. Qed.

(** A float of magnitude above [k + 1] is above [2^k]. *)
Lemma pow2_float_below (k : Z) (x : spec_float) :
  -1022 <= k -> valid_binary x = true -> ge_pow2 (k + 1) x = true ->
  SFltb (pow2_float k) x = true.
Proof.
  intros Hk Vx Hx. destruct x as [s|[]| |[] m e]; try discriminate; [reflexivity|].
  simpl in Hx. apply Z.ltb_lt in Hx. apply valid_exponent in Vx.
  unfold SFltb, SFcompare, pow2_float.
  assert (Hlt : (k - 52 ?= e) = Lt) by (apply Z.compare_lt_iff; lia).
  rewrite Hlt. reflexivity.
Qed.

(** A float that is at least [2^k] has magnitude above [k]. *)
Lemma pow2_float_le (k : Z) (x : spec_float) :
  -1021 <= k -> valid_binary x = true -> SFleb (pow2_float k) x = true ->
  ge_pow2 k x = true.
Proof.
  intros Hk Vx. destruct x as [s|[]| |[] m e]; try discriminate; [reflexivity|].
  apply valid_exponent in Vx. unfold SFleb, SFcompare, pow2_float.
  cbn [ge_pow2]. rewrite Z.ltb_lt.
  destruct (Z.compare_spec (k - 52) e) as [He|He|He]; try discriminate; intros _; lia.
Qed.

(** A float of magnitude at most [k] is below [2^k]. *)
Lemma pow2_float_above (k : Z) (x : spec_float) :
  -1021 <= k -> valid_binary x = true -> sf_nonneg x = true -> abs_lt_pow2 k x = true ->
  SFltb x (pow2_float k) = true.
Proof.
  intros Hk Vx Hn Hx. destruct x as [[]|[]| |[] m e]; try discriminate; [reflexivity|].
  simpl in Hx. apply Z.leb_le in Hx. apply valid_exponent in Vx.
  unfold SFltb, SFcompare, pow2_float.
  assert (Hlt : (e ?= k - 52) = Lt) by (apply Z.compare_lt_iff; lia).
  rewrite Hlt. reflexivity.
Qed.

(** A float with no sign that is at most [2^k] has magnitude at most
    [k + 1]. *)
Lemma pow2_float_ge (k : Z) (x : spec_float) :
  valid_binary x = true -> SFabs x = x -> SFleb x (pow2_float k) = true ->
  abs_lt_pow2 (k + 1) x = true /\ sf_nonneg x = true.
Proof.
  intros Vx Hs. destruct x as [[]|[]| |[] m e]; try discriminate; auto.
  apply valid_exponent in Vx. unfold SFleb, SFcompare, pow2_float.
  cbn [abs_lt_pow2 sf_nonneg]. rewrite Z.leb_le.
  destruct (Z.compare_spec e (k - 52)) as [He|He|He]; try discriminate;
    intros _; split; try reflexivity; lia.
Qed.

(** The doubles next to one that is at least [2^k] are at least
    [2^(k-1)]. *)
Lemma next_to_lower (r a : float) (Hnext : next_to r a) (k : Z) :
  -1020 <= k -> k <= 1024 ->
  ge_pow2 k (Prim2SF r) = true -> ge_pow2 (k - 1) (Prim2SF a) = true.
Proof.
  intros Hk Hk' Hr.
  destruct (Hnext (SF2Prim (pow2_float (k - 1)))) as [_ H].
  rewrite ltb_spec, leb_spec, pow2_float_prim in H by lia.
  apply pow2_float_le; [lia|apply Prim2SF_valid|]. apply H.
  apply pow2_float_below; [lia|apply Prim2SF_valid|].
  replace (k - 1 + 1) with k by lia. assumption.
Qed.

(** The doubles next to one below [2^k] are below [2^(k+1)]. *)
Lemma next_to_upper (r a : float) (Hnext : next_to r a) (k : Z) :
  -1021 <= k -> k <= 1023 -> abs a = a ->
  sf_nonneg (Prim2SF r) = true -> abs_lt_pow2 k (Prim2SF r) = true ->
  abs_lt_pow2 (k + 1) (Prim2SF a) = true /\ sf_nonneg (Prim2SF a) = true.
Proof.
  intros Hk Hk' Hs Hn Hr.
  destruct (Hnext (SF2Prim (pow2_float k))) as [H _].
  rewrite ltb_spec, leb_spec, pow2_float_prim in H by lia.
  apply (pow2_float_ge k); [apply Prim2SF_valid| |].
  - rewrite <- abs_spec, Hs. reflexivity.
  - apply H. apply pow2_float_above; try assumption; [apply Prim2SF_valid].
Qed.

(** ** The distance formula on doubles *)

Lemma SFmul_self_abs (x : spec_float) :
  SF64mul x x = SF64mul (SFabs x) (SFabs x).
Proof. destruct x as [[]|[]| |[] m e]; reflexivity. Qed.

Lemma SFmul_self_nonneg (x : spec_float) :
  SF64mul x x = S754_nan \/ sf_nonneg (SF64mul x x) = true.
Proof. rewrite SFmul_self_abs. apply SFmul_abs_nonneg. Qed.

Lemma SFadd_shape (x y : spec_float) :
  x = S754_nan \/ sf_nonneg x = true ->
  y = S754_nan \/ sf_nonneg y = true ->
  SF64add x y = S754_nan \/ sf_nonneg (SF64add x y) = true.
Proof.
  intros [->|Hx] [->|Hy]; auto.
  - left. destruct x as [s|s| |s m e]; reflexivity.
  - right. apply SFadd_nonneg; assumption.
Qed.

Lemma SFsqrt_ge2 (a : Z) (x : spec_float) :
  -1074 <= a -> ge_pow2 (2 * a) x = true -> ge_pow2 a (SF64sqrt x) = true.
Proof.
  intros Ha Hx. destruct x as [s|[]| |[] m e]; try discriminate; [reflexivity|].
  simpl in Hx. apply Z.ltb_lt in Hx. apply SFsqrt_lower; assumption.
Qed.

Lemma SFabs_shape (x : spec_float) :
  SFabs x = x -> x = S754_nan \/ sf_nonneg x = true.
Proof. destruct x as [[]|[]| |[] m e]; simpl; auto; discriminate. Qed.

(** A float that compares equal to a finite one is that one. *)
Lemma SFcompare_eq_finite_r (s : bool) (m : positive) (e : Z) (x : spec_float) :
  SFcompare x (S754_finite s m e) = Some Eq -> x = S754_finite s m e.
Proof.
  destruct x as [s'|s'| |s' m' e']; cbv [SFcompare]; try (destruct s; discriminate);
    try (destruct s'; discriminate); try discriminate.
  destruct s, s'; try discriminate;
    destruct (Z.compare_spec e' e) as [<-| |]; try discriminate;
    change (Pos.compare_cont Eq m' m) with (Pos.compare m' m);
    destruct (Pos.compare_spec m' m) as [<-| |]; try discriminate; reflexivity.
Qed.

Lemma eqb_one (x : float) :
  (x =? 1)%float = true -> Prim2SF x = S754_finite false 4503599627370496 (-52).
Proof.
  rewrite FloatAxioms.eqb_spec. unfold SFeqb.
  change (Prim2SF 1) with (S754_finite false 4503599627370496 (-52)).
  destruct (SFcompare (Prim2SF x) _) as [[]|] eqn:E; try discriminate.
  intros _. apply SFcompare_eq_finite_r. assumption.
Qed.

Section Distance.
Context {LM : Libm}.

(** *** Python's powers *)

Lemma positive_finite (x : float) (m : positive) (e : Z) :
  Prim2SF x = S754_finite false m e -> (0 <? x)%float = true.
Proof. intros H. rewrite ltb_spec, H. reflexivity. Qed.

Lemma positive_abs (x : float) (s : bool) (m : positive) (e : Z) :
  Prim2SF x = S754_finite s m e -> (0 <? abs x)%float = true.
Proof. intros H. rewrite ltb_spec, abs_spec, H. reflexivity. Qed.

Lemma libm_pow_shape (x y : float) :
  (0 <? x)%float = true ->
  Prim2SF (libm_pow x y) = S754_nan \/ sf_nonneg (Prim2SF (libm_pow x y)) = true.
Proof.
  intros Hx. apply SFabs_shape. rewrite <- abs_spec, libm_pow_sign by assumption.
  reflexivity.
Qed.

(** What [** 2] answers on a finite base other than 1 and -1 is what libm
    does, an infinite result being an overflow. *)
Lemma float_pow_2_libm (x : float) (s : bool) (m : positive) (e : Z) :
  Prim2SF x = S754_finite s m e -> (abs x =? 1)%float = false ->
  squared x = libm_pow (abs x) 2 /\
  (float_pow_2 x = Ok (libm_pow (abs x) 2) \/
   Prim2SF (libm_pow (abs x) 2) = S754_infinity false).
Proof.
  intros Hx H1. unfold squared, float_pow_2. rewrite Hx, H1.
  destruct (libm_pow_shape (abs x) 2 (positive_abs x s m e Hx)) as [Hs|Hs];
    destruct (Prim2SF (libm_pow (abs x) 2)) as [s'|[]| |s' m' e'] eqn:E;
    try discriminate; cbn [float_value]; auto.
  split; [|auto]. apply Prim2SF_inj. rewrite E. reflexivity.
Qed.

Lemma float_pow_half_libm (x : float) (m : positive) (e : Z) :
  Prim2SF x = S754_finite false m e -> (x =? 1)%float = false ->
  rooted x = libm_pow x 0.5 /\
  (float_pow_half x = Ok (libm_pow x 0.5) \/
   Prim2SF (libm_pow x 0.5) = S754_infinity false).
Proof.
  intros Hx H1. unfold rooted, float_pow_half. rewrite Hx, H1.
  destruct (libm_pow_shape x 0.5 (positive_finite x m e Hx)) as [Hs|Hs];
    destruct (Prim2SF (libm_pow x 0.5)) as [s'|[]| |s' m' e'] eqn:E;
    try discriminate; cbn [float_value]; auto.
  split; [|auto]. apply Prim2SF_inj. rewrite E. reflexivity.
Qed.

Lemma float_pow_2_ok (d q : float) : float_pow_2 d = Ok q -> q = squared d.
Proof. intros H. unfold squared. rewrite H. reflexivity. Qed.

Lemma float_pow_half_ok (s q : float) : float_pow_half s = Ok q -> q = rooted s.
Proof. intros H. unfold rooted. rewrite H. reflexivity. Qed.

Lemma float_pow_2_raise (x : float) (e : exn) :
  float_pow_2 x = Raise e -> e = OverflowError.
Proof.
  unfold float_pow_2. destruct (Prim2SF x); try discriminate.
  destruct (abs x =? 1)%float; [discriminate|].
  destruct (Prim2SF (libm_pow (abs x) 2)); try discriminate. congruence.
Qed.

(** A square is no negative number. *)
Lemma squared_shape (d : float) :
  Prim2SF (squared d) = S754_nan \/ sf_nonneg (Prim2SF (squared d)) = true.
Proof.
  destruct (Prim2SF d) as [s|s| |s m e] eqn:E.
  - right. unfold squared, float_pow_2. rewrite E. reflexivity.
  - right. unfold squared, float_pow_2. rewrite E. reflexivity.
  - left. unfold squared, float_pow_2. rewrite E. exact E.
  - destruct (abs d =? 1)%float eqn:H1.
    + right. unfold squared, float_pow_2. rewrite E, H1. reflexivity.
    + destruct (float_pow_2_libm d s m e E H1) as [-> _].
      apply libm_pow_shape. exact (positive_abs d s m e E).
Qed.

(** Below [2^k] in absolute value, the square is there and is below
    [2^(2k+2)]. *)
Lemma float_pow_2_small (k : Z) (d : float) :
  0 <= k -> k <= 484 -> abs_lt_pow2 k (Prim2SF d) = true ->
  float_pow_2 d = Ok (squared d) /\
  abs_lt_pow2 (k + k + 2) (Prim2SF (squared d)) = true /\
  sf_nonneg (Prim2SF (squared d)) = true.
Proof.
  intros Hk Hk' Hd.
  destruct (Prim2SF d) as [s|s| |s m e] eqn:E; try discriminate.
  - unfold squared, float_pow_2. rewrite E. cbn [float_value]. repeat split.
  - destruct (abs d =? 1)%float eqn:H1.
    + unfold squared, float_pow_2. rewrite E, H1. cbn [float_value].
      split; [reflexivity|]. split; [|reflexivity].
      change (Prim2SF 1) with (S754_finite false 4503599627370496 (-52)).
      cbn [abs_lt_pow2]. apply Z.leb_le. change (mag 4503599627370496 (-52)) with 1. lia.
    + destruct (float_pow_2_libm d s m e E H1) as [Hsq Hrun]. rewrite Hsq.
      assert (Hr : abs_lt_pow2 (k + k + 1) (Prim2SF (abs d * abs d)%float) = true).
      { rewrite mul_spec, abs_spec, E. apply SFmul_upper; try assumption; lia. }
      assert (Hn : sf_nonneg (Prim2SF (abs d * abs d)%float) = true).
      { rewrite mul_spec, abs_spec in Hr |- *.
        destruct (SFmul_abs_nonneg (Prim2SF d)) as [N|N]; [|assumption].
        rewrite N in Hr. discriminate. }
      destruct (next_to_upper _ _ (libm_pow_2 _ (positive_abs d s m e E)) (k + k + 1))
        as [Ha Hs]; try assumption; try lia.
      { apply libm_pow_sign. exact (positive_abs d s m e E). }
      replace (k + k + 1 + 1) with (k + k + 2) in Ha by lia.
      split; [|split; assumption].
      destruct Hrun as [Hrun|Hinf]; [assumption|]. rewrite Hinf in Ha. discriminate.
Qed.

(** At least [2^k] in absolute value, the square is at least
    [2^(2k-1)]. *)
Lemma squared_lower (k : Z) (d : float) :
  -510 <= k -> k <= 512 -> abs_ge_pow2 k (Prim2SF d) = true ->
  ge_pow2 (k + k - 1) (Prim2SF (squared d)) = true.
Proof.
  intros Hk Hk' Hd.
  destruct (Prim2SF d) as [s|s| |s m e] eqn:E; try discriminate.
  - unfold squared, float_pow_2. rewrite E. reflexivity.
  - destruct (abs d =? 1)%float eqn:H1.
    + unfold squared, float_pow_2. rewrite E, H1. cbn [float_value].
      apply eqb_one in H1. rewrite abs_spec, E in H1. injection H1 as -> ->.
      cbn [abs_ge_pow2] in Hd. apply Z.ltb_lt in Hd.
      change (Prim2SF 1) with (S754_finite false 4503599627370496 (-52)).
      cbn [ge_pow2]. apply Z.ltb_lt.
      change (mag 4503599627370496 (-52)) with 1 in *. lia.
    + destruct (float_pow_2_libm d s m e E H1) as [-> _].
      replace (k + k - 1) with (k + k - 1) by lia.
      apply (next_to_lower _ _ (libm_pow_2 _ (positive_abs d s m e E)) (k + k));
        try lia.
      rewrite mul_spec, abs_spec, E. apply SFmul_lower; try lia;
        apply (abs_ge_pow2_abs k (S754_finite s m e)); assumption.
Qed.

(** The root of a NaN is that NaN, and a root is no negative number. *)
Lemma rooted_nan (s : float) : Prim2SF s = S754_nan -> rooted s = s.
Proof. intros E. unfold rooted, float_pow_half. rewrite E. reflexivity. Qed.

Lemma rooted_shape (s : float) :
  Prim2SF (rooted s) = S754_nan \/ sf_nonneg (Prim2SF (rooted s)) = true.
Proof.
  destruct (Prim2SF s) as [sg|sg| |[] m e] eqn:E.
  - right. unfold rooted, float_pow_half. rewrite E. reflexivity.
  - right. unfold rooted, float_pow_half. rewrite E. reflexivity.
  - left. rewrite rooted_nan; assumption.
  - left. unfold rooted, float_pow_half. rewrite E. reflexivity.
  - destruct (s =? 1)%float eqn:H1.
    + right. unfold rooted, float_pow_half. rewrite E, H1. reflexivity.
    + destruct (float_pow_half_libm s m e E H1) as [-> _].
      apply libm_pow_shape. exact (positive_finite s m e E).
Qed.

(** The root of a number that is at least [4^a] is at least [2^(a-1)]. *)
Lemma rooted_lower (a : Z) (s : float) :
  -1020 <= a -> a <= 512 -> ge_pow2 (2 * a) (Prim2SF s) = true ->
  ge_pow2 (a - 1) (Prim2SF (rooted s)) = true.
Proof.
  intros Ha Ha' Hs.
  destruct (Prim2SF s) as [sg|[]| |[] m e] eqn:E; try discriminate.
  - unfold rooted, float_pow_half. rewrite E. reflexivity.
  - destruct (s =? 1)%float eqn:H1.
    + unfold rooted, float_pow_half. rewrite E, H1. cbn [float_value].
      apply eqb_one in H1. rewrite E in H1. injection H1 as -> ->.
      cbn [ge_pow2] in Hs. apply Z.ltb_lt in Hs.
      change (Prim2SF 1) with (S754_finite false 4503599627370496 (-52)).
      cbn [ge_pow2]. apply Z.ltb_lt.
      change (mag 4503599627370496 (-52)) with 1 in *. lia.
    + destruct (float_pow_half_libm s m e E H1) as [-> _].
      apply (next_to_lower _ _ (libm_pow_half _ (positive_finite s m e E)) a); try lia.
      rewrite sqrt_spec, E. apply SFsqrt_ge2; [lia|assumption].
Qed.

(** The root of a number that is not negative and below [4^j] is there. *)
Lemma float_pow_half_small (j : Z) (s : float) :
  0 <= j -> j <= 970 ->
  sf_nonneg (Prim2SF s) = true -> abs_lt_pow2 (2 * j) (Prim2SF s) = true ->
  float_pow_half s = Ok (rooted s).
Proof.
  intros Hj Hj' Hn Hs.
  destruct (Prim2SF s) as [[]|[]| |[] m e] eqn:E; try discriminate.
  - unfold rooted, float_pow_half. rewrite E. reflexivity.
  - destruct (s =? 1)%float eqn:H1.
    + unfold rooted, float_pow_half. rewrite E, H1. reflexivity.
    + destruct (float_pow_half_libm s m e E H1) as [Hr Hrun]. rewrite Hr.
      destruct Hrun as [Hrun|Hinf]; [assumption|].
      cbn [abs_lt_pow2] in Hs. apply Z.leb_le in Hs.
      destruct (next_to_upper _ _ (libm_pow_half _ (positive_finite s m e E)) (j + 1))
        as [Ha _]; try lia.
      * apply libm_pow_sign. exact (positive_finite s m e E).
      * rewrite sqrt_spec, E. apply SFsqrt_nonneg.
      * rewrite sqrt_spec, E. apply SFsqrt_upper; lia.
      * rewrite Hinf in Ha. discriminate.
Qed.

(** The root of a number that is not negative raises at most
    [OverflowError]. *)
Lemma float_pow_half_raise (s : float) (e : exn) :
  Prim2SF s = S754_nan \/ sf_nonneg (Prim2SF s) = true ->
  float_pow_half s = Raise e -> e = OverflowError.
Proof.
  intros Hs. unfold float_pow_half.
  destruct (Prim2SF s) as [sg|sg| |[] m ex]; try discriminate.
  - destruct Hs as [Hs|Hs]; discriminate.
  - destruct (s =? 1)%float; [discriminate|].
    destruct (Prim2SF (libm_pow s 0.5)); try discriminate. congruence.
Qed.

(** *** The formula *)

Lemma sum_shape (dx dy : float) :
  Prim2SF (squared dx + squared dy)%float = S754_nan \/
  sf_nonneg (Prim2SF (squared dx + squared dy)%float) = true.
Proof. rewrite add_spec. apply SFadd_shape; apply squared_shape. Qed.

(** A center at least 8 degrees away on one axis is out of reach of any
    radius below [2^7] km. *)
Lemma python_within_far (x y cx cy : float) (r : Z) :
  abs_ge_pow2 3 (Prim2SF (x - cx)%float) = true \/
  abs_ge_pow2 3 (Prim2SF (y - cy)%float) = true ->
  abs_lt_pow2 7 (Prim2SF (float_of_Z r)) = true ->
  python_within x y (cx, cy, r) = false.
Proof.
  intros Hfar Hr. unfold python_within.
  set (A := squared (x - cx)). set (B := squared (y - cy)).
  pose proof (squared_shape (x - cx)) as HA. fold A in HA.
  pose proof (squared_shape (y - cy)) as HB. fold B in HB.
  rewrite leb_spec, mul_spec.
  assert (HS : Prim2SF (A + B)%float = S754_nan \/ ge_pow2 4 (Prim2SF (A + B)%float) = true).
  { rewrite add_spec.
    destruct HA as [->|HA]; [left; reflexivity|].
    destruct HB as [->|HB]; [left; destruct (Prim2SF A) as [s|s| |s m e]; reflexivity|].
    right. destruct Hfar as [H|H].
    - apply SFadd_lower_l; [lia| |assumption].
      apply (ge_pow2_mono (3 + 3 - 1)); [lia|]. apply squared_lower; [lia|lia|assumption].
    - apply SFadd_lower_r; [lia|assumption|].
      apply (ge_pow2_mono (3 + 3 - 1)); [lia|]. apply squared_lower; [lia|lia|assumption]. }
  destruct HS as [HS|HS].
  - rewrite (rooted_nan _ HS), HS. reflexivity.
  - apply (SFleb_ge2 7); try assumption; try lia.
    + rewrite <- mul_spec. apply Prim2SF_valid.
    + apply Prim2SF_valid.
    + change 7 with (2 - 1 + 6). apply SFmul_lower; [lia| |reflexivity].
      apply rooted_lower; [lia|lia|assumption].
Qed.

(** Conversely, a point within reach of a center has small coordinates. *)
Lemma python_within_small (x y cx cy : float) (r : Z) :
  abs_lt_pow2 7 (Prim2SF cx) = true -> abs_lt_pow2 7 (Prim2SF cy) = true ->
  abs_lt_pow2 6 (Prim2SF (float_of_Z r)) = true ->
  python_within x y (cx, cy, r) = true ->
  abs_lt_pow2 8 (Prim2SF x) = true /\ abs_lt_pow2 8 (Prim2SF y) = true.
Proof.
  intros Hcx Hcy Hr. unfold python_within.
  set (A := squared (x - cx)). set (B := squared (y - cy)).
  set (S := (A + B)%float). set (R := rooted S).
  rewrite leb_spec, mul_spec. intros Hle.
  pose proof (squared_shape (x - cx)) as HA. fold A in HA.
  pose proof (squared_shape (y - cy)) as HB. fold B in HB.
  pose proof (sum_shape (x - cx) (y - cy)) as HS. fold A B S in HS.
  (* the product is below 2^6, so the root is below 1 *)
  assert (HR0 : ge_pow2 0 (Prim2SF R) = false).
  { destruct (ge_pow2 0 (Prim2SF R)) eqn:E; [|reflexivity].
    assert (HM : ge_pow2 (0 + 6) (SF64mul (Prim2SF R) (Prim2SF 111)) = true)
      by (apply SFmul_lower; [lia|assumption|reflexivity]).
    rewrite (SFleb_ge2 6) in Hle; try assumption; try lia; try discriminate.
    - rewrite <- mul_spec. apply Prim2SF_valid.
    - apply Prim2SF_valid. }
  assert (HSn : sf_nonneg (Prim2SF S) = true).
  { destruct HS as [E|E]; [|assumption].
    unfold R in Hle. rewrite (rooted_nan _ E), E in Hle. discriminate. }
  assert (HS2 : ge_pow2 2 (Prim2SF S) = false).
  { destruct (ge_pow2 2 (Prim2SF S)) eqn:E; [|reflexivity].
    unfold R in HR0. change 0 with (1 - 1) in HR0.
    rewrite rooted_lower in HR0; [discriminate|lia|lia|assumption]. }
  unfold S in HSn, HS2. rewrite add_spec in HSn, HS2.
  assert (HAn : sf_nonneg (Prim2SF A) = true).
  { destruct HA as [E|E]; [|assumption]. rewrite E in HSn. discriminate. }
  assert (HBn : sf_nonneg (Prim2SF B) = true).
  { destruct HB as [E|E]; [|assumption]. rewrite E in HSn.
    destruct (Prim2SF A) as [s|s| |s m e]; discriminate. }
  assert (HA2 : ge_pow2 2 (Prim2SF A) = false).
  { destruct (ge_pow2 2 (Prim2SF A)) eqn:E; [|reflexivity].
    rewrite (SFadd_lower_l 2) in HS2; [discriminate|lia|assumption|assumption]. }
  assert (HB2 : ge_pow2 2 (Prim2SF B) = false).
  { destruct (ge_pow2 2 (Prim2SF B)) eqn:E; [|reflexivity].
    rewrite (SFadd_lower_r 2) in HS2; [discriminate|lia|assumption|assumption]. }
  assert (Hcoord : forall z c : float,
             abs_lt_pow2 7 (Prim2SF c) = true ->
             sf_nonneg (Prim2SF (squared (z - c))) = true ->
             ge_pow2 2 (Prim2SF (squared (z - c))) = false ->
             abs_lt_pow2 8 (Prim2SF z) = true).
  { intros z c HC Hn H2.
    assert (HD : abs_ge_pow2 2 (Prim2SF (z - c)%float) = false).
    { destruct (abs_ge_pow2 2 (Prim2SF (z - c)%float)) eqn:E; [|reflexivity].
      rewrite (ge_pow2_mono (2 + 2 - 1) 2) in H2; [discriminate|lia|].
      apply squared_lower; [lia|lia|assumption]. }
    rewrite sub_spec in HD.
    apply not_abs_ge_pow2.
    - destruct (abs_ge_pow2 8 (Prim2SF z)) eqn:E; [|reflexivity].
      assert (H7 : abs_ge_pow2 (8 - 1) (SF64sub (Prim2SF z) (Prim2SF c)) = true)
        by (apply SFsub_lower; [lia|assumption|assumption]).
      apply (abs_ge_pow2_mono _ 2) in H7; [congruence|lia].
    - intros Hnan.
      assert (Hd : Prim2SF (z - c)%float = S754_nan) by (rewrite sub_spec, Hnan; reflexivity).
      unfold squared, float_pow_2 in Hn. rewrite Hd in Hn. cbn [float_value] in Hn.
      rewrite Hd in Hn. discriminate. }
  split; [apply (Hcoord x cx)|apply (Hcoord y cy)]; assumption.
Qed.

(** When Python computes a distance, it is the formula. *)
Lemma distance_ok (lat lng : pyval) (cx cy d : float) :
  distance lat lng cx cy = Ok d ->
  exists x y,
    as_float lat = Ok x /\ as_float lng = Ok y /\
    d = (rooted (squared (x - cx) + squared (y - cy)) * 111)%float.
Proof.
  unfold distance.
  destruct (as_float lat) as [x|]; simpl; [|discriminate].
  destruct (float_pow_2 (x - cx)) as [dx2|] eqn:E1; simpl; [|discriminate].
  destruct (as_float lng) as [y|]; simpl; [|discriminate].
  destruct (float_pow_2 (y - cy)) as [dy2|] eqn:E2; simpl; [|discriminate].
  apply float_pow_2_ok in E1, E2. subst dx2 dy2.
  destruct (float_pow_half _) as [v|] eqn:E3; simpl; [|discriminate].
  apply float_pow_half_ok in E3. subst v.
  intros [= <-]. exists x, y. auto.
Qed.

(** For small coordinates Python's computation raises nothing. *)
Lemma distance_small (lat lng : pyval) (x y cx cy : float) :
  as_float lat = Ok x -> as_float lng = Ok y ->
  abs_lt_pow2 480 (Prim2SF x) = true -> abs_lt_pow2 480 (Prim2SF y) = true ->
  abs_lt_pow2 480 (Prim2SF cx) = true -> abs_lt_pow2 480 (Prim2SF cy) = true ->
  distance lat lng cx cy
  = Ok (rooted (squared (x - cx) + squared (y - cy)) * 111)%float.
Proof.
  intros Hlat Hlng Hx Hy Hcx Hcy. unfold distance. rewrite Hlat, Hlng. simpl.
  assert (Hdx : abs_lt_pow2 (480 + 2) (Prim2SF (x - cx)%float) = true)
    by (rewrite sub_spec; apply SFsub_upper; try assumption; lia).
  assert (Hdy : abs_lt_pow2 (480 + 2) (Prim2SF (y - cy)%float) = true)
    by (rewrite sub_spec; apply SFsub_upper; try assumption; lia).
  destruct (float_pow_2_small (480 + 2) _ ltac:(lia) ltac:(lia) Hdx) as (-> & Hax & Hnx).
  destruct (float_pow_2_small (480 + 2) _ ltac:(lia) ltac:(lia) Hdy) as (-> & Hay & Hny).
  simpl. rewrite (float_pow_half_small 485); [reflexivity|lia|lia| |].
  - rewrite add_spec. apply SFadd_nonneg; assumption.
  - rewrite add_spec. change (2 * 485) with (968 + 2).
    apply SFadd_upper; try lia;
      [apply (abs_lt_pow2_mono (480 + 2 + (480 + 2) + 2))|
       apply (abs_lt_pow2_mono (480 + 2 + (480 + 2) + 2))]; try assumption; lia.
Qed.

(** A distance that cannot be computed: a coordinate is no number, or the
    computation overflows. *)
Lemma distance_raise (lat lng : pyval) (cx cy : float) (e : exn) :
  distance lat lng cx cy = Raise e ->
  as_float lat = Raise e \/ as_float lng = Raise e \/ e = OverflowError.
Proof.
  unfold distance.
  destruct (as_float lat) as [x|e1]; cbn [rbind]; [|auto].
  destruct (float_pow_2 (x - cx)) as [dx2|e2] eqn:E1; cbn [rbind];
    [|intros [= <-]; right; right; exact (float_pow_2_raise _ _ E1)].
  destruct (as_float lng) as [y|e3]; cbn [rbind]; [|auto].
  destruct (float_pow_2 (y - cy)) as [dy2|e4] eqn:E2; cbn [rbind];
    [|intros [= <-]; right; right; exact (float_pow_2_raise _ _ E2)].
  apply float_pow_2_ok in E1, E2. subst dx2 dy2.
  destruct (float_pow_half _) as [v|e5] eqn:E3; cbn [rbind]; [discriminate|].
  intros [= <-]. right. right.
  exact (float_pow_half_raise _ _ (sum_shape _ _) E3).
Qed.

(** ** The loop over the centers *)

Lemma centers_ok_urban : forallb center_ok urban_centers = true.
Proof. vm_compute. reflexivity. Qed.

Lemma centers_ok_coastal : forallb center_ok coastal_regions = true.
Proof. vm_compute. reflexivity. Qed.

Lemma within_any_spec (lat lng : pyval) (x y : float) (centers : list center) :
  as_float lat = Ok x -> as_float lng = Ok y ->
  forall b, within_any lat lng centers = Ok b ->
  b = existsb (python_within x y) centers.
Proof.
  intros Hlat Hlng. induction centers as [|[[cx cy] r] rest IH]; intros b.
  - simpl. congruence.
  - cbn [within_any existsb].
    destruct (distance lat lng cx cy) as [d|] eqn:Ed; cbn [rbind]; [|discriminate].
    apply distance_ok in Ed. destruct Ed as (x' & y' & Hx' & Hy' & ->).
    assert (x' = x) by congruence. assert (y' = y) by congruence. subst x' y'.
    change (rooted (squared (x - cx) + squared (y - cy)) * 111 <=? float_of_Z r)%float
      with (python_within x y (cx, cy, r)).
    destruct (python_within x y (cx, cy, r)); cbn [orb]; [congruence|]. apply IH.
Qed.

Lemma within_any_small (lat lng : pyval) (x y : float) (centers : list center) :
  as_float lat = Ok x -> as_float lng = Ok y ->
  abs_lt_pow2 480 (Prim2SF x) = true -> abs_lt_pow2 480 (Prim2SF y) = true ->
  forallb center_ok centers = true ->
  within_any lat lng centers = Ok (existsb (python_within x y) centers).
Proof.
  intros Hlat Hlng Hx Hy. induction centers as [|[[cx cy] r] rest IH]; intros Hc.
  - reflexivity.
  - cbn [forallb] in Hc. apply andb_true_iff in Hc. destruct Hc as [Hc Hrest].
    unfold center_ok in Hc.
    apply andb_true_iff in Hc. destruct Hc as [Hc Hr].
    apply andb_true_iff in Hc. destruct Hc as [Hcx Hcy].
    cbn [within_any existsb].
    rewrite (distance_small lat lng x y) by
      (try assumption; eapply abs_lt_pow2_mono; try eassumption; lia).
    cbn [rbind].
    change (rooted (squared (x - cx) + squared (y - cy)) * 111 <=? float_of_Z r)%float
      with (python_within x y (cx, cy, r)).
    destruct (python_within x y (cx, cy, r)); [reflexivity|]. apply IH. assumption.
Qed.

Lemma within_any_raise (lat lng : pyval) (centers : list center) (e : exn) :
  within_any lat lng centers = Raise e ->
  as_float lat = Raise e \/ as_float lng = Raise e \/ e = OverflowError.
Proof.
  induction centers as [|[[cx cy] r] rest IH]; [discriminate|].
  cbn [within_any].
  destruct (distance lat lng cx cy) as [d|e1] eqn:Ed; cbn [rbind].
  - destruct (d <=? float_of_Z r)%float; [discriminate|exact IH].
  - intros [= <-]. exact (distance_raise _ _ _ _ _ Ed).
Qed.

(** [python_within] is the test the loop makes at a center: the distance
    Python computes there is within the radius. *)
Lemma python_within_distance (lat lng : pyval) (x y cx cy : float) (r : Z) :
  as_float lat = Ok x -> as_float lng = Ok y ->
  center_ok (cx, cy, r) = true ->
  python_within x y (cx, cy, r) = true <->
  exists d, distance lat lng cx cy = Ok d /\ (d <=? float_of_Z r)%float = true.
Proof.
  intros Hlat Hlng Hc. unfold center_ok in Hc.
  apply andb_true_iff in Hc. destruct Hc as [Hc Hr].
  apply andb_true_iff in Hc. destruct Hc as [Hcx Hcy].
  split.
  - intros Hw. destruct (python_within_small x y cx cy r Hcx Hcy Hr Hw) as [Sx Sy].
    eexists. split; [|exact Hw].
    apply distance_small; try assumption;
      eapply abs_lt_pow2_mono; try eassumption; lia.
  - intros (d & Hd & Hle). apply distance_ok in Hd.
    destruct Hd as (x' & y' & Hx' & Hy' & ->).
    assert (x' = x) by congruence. assert (y' = y) by congruence. subst x' y'.
    exact Hle.
Qed.

(** The loop answers [True] exactly when some center of the list is within
    its radius by the distance Python computes. *)
Lemma within_any_true (lat lng : pyval) (centers : list center) :
  forallb center_ok centers = true ->
  within_any lat lng centers = Ok true <->
  exists x y, as_float lat = Ok x /\ as_float lng = Ok y /\
              exists c, In c centers /\ python_within x y c = true.
Proof.
  intros Hc. split.
  - intros H.
    assert (Hxy : exists x y, as_float lat = Ok x /\ as_float lng = Ok y).
    { destruct centers as [|[[cx cy] r] rest]; [discriminate|].
      cbn [within_any] in H.
      destruct (distance lat lng cx cy) as [d|] eqn:Ed; [|discriminate].
      apply distance_ok in Ed. destruct Ed as (x & y & Hx & Hy & _). eauto. }
    destruct Hxy as (x & y & Hx & Hy). exists x, y. repeat split; try assumption.
    apply (within_any_spec lat lng x y centers Hx Hy) in H.
    symmetry in H. apply existsb_exists in H. exact H.
  - intros (x & y & Hx & Hy & c & Hin & Hw).
    assert (Hsmall : abs_lt_pow2 8 (Prim2SF x) = true /\ abs_lt_pow2 8 (Prim2SF y) = true).
    { rewrite forallb_forall in Hc. specialize (Hc c Hin).
      destruct c as [[cx cy] r]. unfold center_ok in Hc.
      apply andb_true_iff in Hc. destruct Hc as [Hc Hr].
      apply andb_true_iff in Hc. destruct Hc as [Hcx Hcy].
      apply (python_within_small x y cx cy r); assumption. }
    destruct Hsmall as [Sx Sy].
    rewrite (within_any_small lat lng x y); try assumption.
    + f_equal. apply existsb_exists. eauto.
    + apply (abs_lt_pow2_mono 8); [lia|assumption].
    + apply (abs_lt_pow2_mono 8); [lia|assumption].
Qed.

End Distance.

(** ** Reasoning about computations *)

Section Combinators.
Context {A B : Type}.

Lemma total_ret (a : A) : total (ret a).
Proof. intros st. exists a, st. reflexivity. Qed.

Lemma total_lift_ok (a : A) : total (lift (Ok a)).
Proof. intros st. exists a, st. reflexivity. Qed.

Lemma total_bind (m : M A) (k : A -> M B) :
  total m -> (forall a, total (k a)) -> total (bind m k).
Proof.
  intros Hm Hk st. destruct (Hm st) as (a & st1 & E).
  destruct (Hk a st1) as (b & st2 & E2). exists b, st2.
  unfold bind. rewrite E. exact E2.
Qed.

Lemma fails_lift (e : exn) : fails_with (@lift A (Raise e)) e.
Proof. intros st. reflexivity. Qed.

Lemma fails_bind_l (m : M A) (k : A -> M B) (e : exn) :
  fails_with m e -> fails_with (bind m k) e.
Proof.
  intros Hm st. specialize (Hm st). unfold bind.
  destruct (m st) as [[a|e'] st1]; simpl in *; congruence.
Qed.

Lemma fails_bind_r (m : M A) (k : A -> M B) (e : exn) :
  total m -> (forall a, fails_with (k a) e) -> fails_with (bind m k) e.
Proof.
  intros Hm Hk st. destruct (Hm st) as (a & st1 & E). unfold bind. rewrite E. apply Hk.
Qed.

Lemma post_ret (a : A) (P : A -> Prop) : P a -> post (ret a) P.
Proof. intros H st a' st' [= <- _]. exact H. Qed.

Lemma post_bind (m : M A) (k : A -> M B) (P : B -> Prop) :
  (forall a, post (k a) P) -> post (bind m k) P.
Proof.
  intros Hk st b st'. unfold bind.
  destruct (m st) as [[a|e] st1]; [apply Hk|discriminate].
Qed.

Lemma post_bind_strong (m : M A) (k : A -> M B) (Q : A -> Prop) (P : B -> Prop) :
  post m Q -> (forall a, Q a -> post (k a) P) -> post (bind m k) P.
Proof.
  intros Hm Hk st b st'. unfold bind.
  destruct (m st) as [[a|e] st1] eqn:E; [|discriminate].
  apply Hk. apply (Hm st a st1 E).
Qed.

Lemma keeps_ret (a : A) : keeps_processor (ret a).
Proof. intros st. reflexivity. Qed.

Lemma keeps_raise (e : exn) : keeps_processor (@raise A e).
Proof. intros st. reflexivity. Qed.

Lemma keeps_lift (r : result A) : keeps_processor (lift r).
Proof. intros st. reflexivity. Qed.

Lemma keeps_external (f : World -> result A * World) : keeps_processor (external f).
Proof. intros st. unfold external. destruct (f (world st)). reflexivity. Qed.

Lemma keeps_bind (m : M A) (k : A -> M B) :
  keeps_processor m -> (forall a, keeps_processor (k a)) -> keeps_processor (bind m k).
Proof.
  intros Hm Hk st. specialize (Hm st). unfold bind.
  destruct (m st) as [[a|e] st1]; simpl in *; [|assumption].
  rewrite Hk. assumption.
Qed.

Lemma keeps_try_except (m : M A) (h : exn -> M A) :
  keeps_processor m -> (forall e, keeps_processor (h e)) -> keeps_processor (try_except m h).
Proof.
  intros Hm Hh st. specialize (Hm st). unfold try_except.
  destruct (m st) as [[a|e] st1]; simpl in *; [assumption|].
  rewrite Hh. assumption.
Qed.

Lemma keeps_finally (m : M A) (f : M unit) :
  keeps_processor m -> keeps_processor f -> keeps_processor (finally m f).
Proof.
  intros Hm Hf st. specialize (Hm st). unfold finally.
  destruct (m st) as [r st1]. specialize (Hf st1).
  destruct (f st1) as [[u|e] st2]; simpl in *; congruence.
Qed.

Lemma quiet_ret (a : A) : quiet (ret a).
Proof. intros st H. exact H. Qed.

Lemma quiet_lift (r : result A) : quiet (lift r).
Proof. intros st H. exact H. Qed.

Lemma quiet_bind (m : M A) (k : A -> M B) :
  quiet m -> (forall a, quiet (k a)) -> quiet (bind m k).
Proof.
  intros Hm Hk st. specialize (Hm st). unfold bind.
  destruct (m st) as [[a|e] st1]; simpl in *; [|assumption].
  intros H. apply Hm. apply (Hk a st1). assumption.
Qed.

Lemma quiet_try_except (m : M A) (h : exn -> M A) :
  quiet m -> (forall e, quiet (h e)) -> quiet (try_except m h).
Proof.
  intros Hm Hh st. specialize (Hm st). unfold try_except.
  destruct (m st) as [[a|e] st1]; simpl in *; [assumption|].
  intros H. apply Hm. apply (Hh e st1). assumption.
Qed.

Lemma quiet_finally (m : M A) (f : M unit) :
  quiet m -> quiet f -> quiet (finally m f).
Proof.
  intros Hm Hf st. specialize (Hm st). unfold finally.
  destruct (m st) as [r st1]. specialize (Hf st1).
  destruct (f st1) as [[u|e] st2]; simpl in *; auto.
Qed.

End Combinators.

Lemma total_uniform (low high : float) : total (uniform low high).
Proof. intros st. eexists. eexists. reflexivity. Qed.

Lemma total_choice (options : list string) : total (choice options).
Proof. intros st. eexists. eexists. reflexivity. Qed.

Lemma total_time_time : total time_time.
Proof. intros st. eexists. eexists. reflexivity. Qed.

Lemma total_now : total datetime_now_isoformat.
Proof. intros st. eexists. eexists. reflexivity. Qed.

Lemma total_logger (ev : log_event) : total (logger ev).
Proof. intros st. eexists. eexists. reflexivity. Qed.

Lemma total_self : total self.
Proof. intros st. eexists. eexists. reflexivity. Qed.

Lemma keeps_self : keeps_processor self.
Proof. intros st. reflexivity. Qed.

Lemma quiet_uniform (low high : float) : quiet (uniform low high).
Proof. intros st H. exact H. Qed.

Lemma quiet_choice (options : list string) : quiet (choice options).
Proof. intros st H. exact H. Qed.

Lemma quiet_time_time : quiet time_time.
Proof. intros st H. exact H. Qed.

Lemma quiet_now : quiet datetime_now_isoformat.
Proof. intros st H. exact H. Qed.

Lemma quiet_self : quiet self.
Proof. intros st H. exact H. Qed.

Lemma quiet_logger (ev : log_event) : ev <> RunningReal -> quiet (logger ev).
Proof.
  intros Hev st. simpl. rewrite in_app_iff. intros [H|[H|[]]]; [assumption|].
  congruence.
Qed.

Create HintDb total_db.
Create HintDb keeps_db.
Create HintDb quiet_db.

#[export] Hint Resolve total_ret total_lift_ok total_uniform total_choice
  total_time_time total_now total_logger total_self : total_db.
#[export] Hint Resolve keeps_ret keeps_raise keeps_lift keeps_external keeps_self
  : keeps_db.
#[export] Hint Resolve quiet_ret quiet_lift quiet_uniform quiet_choice quiet_time_time
  quiet_now quiet_self : quiet_db.
#[export] Hint Extern 1 (quiet (logger _)) => (apply quiet_logger; discriminate) : quiet_db.

(** Walking through a sequence of binds. *)
Ltac total_steps :=
  repeat match goal with
    | |- total (ret _) => apply total_ret
    | |- total (bind _ _) => apply total_bind; [solve [auto with total_db]|intro]
    end.

Ltac post_steps :=
  repeat match goal with
    | |- post (bind _ _) _ => apply post_bind; intro
    end;
  match goal with
  | |- post (ret _) _ => apply post_ret
  end.

Ltac keeps_steps :=
  repeat match goal with
    | |- keeps_processor (bind _ _) => apply keeps_bind; [|intro]
    | |- keeps_processor (try_except _ _) => apply keeps_try_except; [|intro]
    | |- keeps_processor (finally _ _) => apply keeps_finally
    | |- keeps_processor (if ?b then _ else _) => destruct b
    | |- keeps_processor _ => solve [auto 2 with keeps_db]
    end.

Ltac quiet_steps :=
  repeat match goal with
    | |- quiet (bind _ _) => apply quiet_bind; [|intro]
    | |- quiet (try_except _ _) => apply quiet_try_except; [|intro]
    | |- quiet (finally _ _) => apply quiet_finally
    | |- quiet (if ?b then _ else _) => destruct b
    | |- quiet _ => solve [auto 2 with quiet_db]
    end.


(** ** The generators *)

Section Generators.
Context {LM : Libm} {RT : Runtime}.

Lemma total_rounded (low high : float) (n : Z) : total (rounded low high n).
Proof. unfold rounded. total_steps. Qed.

Lemma total_formatted (low high : float) (spec suffix : string) :
  total (formatted low high spec suffix).
Proof. unfold formatted. total_steps. Qed.

Lemma total_chosen (options : list string) : total (chosen options).
Proof. unfold chosen. total_steps. Qed.

Lemma keeps_uniform (low high : float) : keeps_processor (uniform low high).
Proof. apply keeps_external. Qed.

Lemma keeps_rounded (low high : float) (n : Z) : keeps_processor (rounded low high n).
Proof. unfold rounded. keeps_steps. Qed.

Lemma keeps_formatted (low high : float) (spec suffix : string) :
  keeps_processor (formatted low high spec suffix).
Proof. unfold formatted. keeps_steps. Qed.

Lemma keeps_chosen (options : list string) : keeps_processor (chosen options).
Proof. unfold chosen. keeps_steps. Qed.

Lemma keeps_logger (ev : log_event) : keeps_processor (logger ev).
Proof. apply keeps_external. Qed.

Lemma keeps_time_time : keeps_processor time_time.
Proof. apply keeps_external. Qed.

Lemma keeps_now : keeps_processor datetime_now_isoformat.
Proof. apply keeps_external. Qed.

Lemma quiet_rounded (low high : float) (n : Z) : quiet (rounded low high n).
Proof. unfold rounded. quiet_steps. Qed.

Lemma quiet_formatted (low high : float) (spec suffix : string) :
  quiet (formatted low high spec suffix).
Proof. unfold formatted. quiet_steps. Qed.

Lemma quiet_chosen (options : list string) : quiet (chosen options).
Proof. unfold chosen. quiet_steps. Qed.

Hint Resolve total_rounded total_formatted total_chosen : total_db.
Hint Resolve keeps_rounded keeps_formatted keeps_chosen keeps_logger keeps_time_time
  keeps_now keeps_uniform : keeps_db.
Hint Resolve quiet_rounded quiet_formatted quiet_chosen : quiet_db.

(** *** Land use *)

Lemma bind_lift_ok {A B : Type} (a : A) (k : A -> M B) : bind (lift (Ok a)) k = k a.
Proof. reflexivity. Qed.

Lemma bind_lift_raise {A B : Type} (e : exn) (k : A -> M B) :
  bind (lift (Raise e)) k = lift (Raise e).
Proof. reflexivity. Qed.

Lemma land_use_total (lat lng analysis_type : pyval) (a : area) :
  area_class lat lng = Ok a ->
  total (simulate_land_use_classification lat lng analysis_type).
Proof.
  unfold area_class, simulate_land_use_classification. intros H.
  destruct (is_urban_area lat lng) as [u|e1]; simpl in H; [|discriminate].
  destruct (is_coastal_area lat lng) as [c|e2]; simpl in H; [|discriminate].
  rewrite !bind_lift_ok. destruct u, c; total_steps.
Qed.

Lemma land_use_fails (lat lng analysis_type : pyval) (e : exn) :
  area_class lat lng = Raise e ->
  fails_with (simulate_land_use_classification lat lng analysis_type) e.
Proof.
  unfold area_class, simulate_land_use_classification. intros H.
  destruct (is_urban_area lat lng) as [u|e1]; simpl in H.
  - destruct (is_coastal_area lat lng) as [c|e2]; simpl in H; [discriminate|].
    injection H as ->. rewrite bind_lift_ok. apply fails_bind_l, fails_lift.
  - injection H as ->. apply fails_bind_l, fails_lift.
Qed.

Lemma land_use_post (lat lng analysis_type : pyval) (a : area) :
  area_class lat lng = Ok a ->
  post (simulate_land_use_classification lat lng analysis_type)
       (fun v => field "primary_class" v = Some (PStr (class_name a))).
Proof.
  unfold area_class, simulate_land_use_classification. intros H.
  destruct (is_urban_area lat lng) as [u|e1]; simpl in H; [|discriminate].
  destruct (is_coastal_area lat lng) as [c|e2]; simpl in H; [|discriminate].
  injection H as <-. rewrite !bind_lift_ok.
  destruct u, c; post_steps; reflexivity.
Qed.

(** Which branch the classification takes does not depend on the state. *)
Lemma land_use_primary_class (lat lng analysis_type : pyval) (st : State) :
  primary_class_of (fst (simulate_land_use_classification lat lng analysis_type st))
  = match area_class lat lng with
    | Ok a => Ok (Some (PStr (class_name a)))
    | Raise e => Raise e
    end.
Proof.
  destruct (area_class lat lng) as [a|e] eqn:E.
  - destruct (land_use_total lat lng analysis_type a E st) as (v & st' & Hv).
    rewrite Hv. simpl. f_equal.
    exact (land_use_post lat lng analysis_type a E st v st' Hv).
  - rewrite (land_use_fails lat lng analysis_type e E st). reflexivity.
Qed.

Lemma land_use_keeps (lat lng analysis_type : pyval) :
  keeps_processor (simulate_land_use_classification lat lng analysis_type).
Proof. unfold simulate_land_use_classification. keeps_steps. Qed.

Lemma land_use_quiet (lat lng analysis_type : pyval) :
  quiet (simulate_land_use_classification lat lng analysis_type).
Proof. unfold simulate_land_use_classification. quiet_steps. Qed.

(** *** Vegetation, change detection, environment *)

Lemma vegetation_total (satellite_data analysis_type : pyval) :
  total (simulate_vegetation_health_analysis satellite_data analysis_type).
Proof. unfold simulate_vegetation_health_analysis. total_steps. Qed.

Lemma vegetation_keeps (satellite_data analysis_type : pyval) :
  keeps_processor (simulate_vegetation_health_analysis satellite_data analysis_type).
Proof. unfold simulate_vegetation_health_analysis. keeps_steps. Qed.

Lemma vegetation_quiet (satellite_data analysis_type : pyval) :
  quiet (simulate_vegetation_health_analysis satellite_data analysis_type).
Proof. unfold simulate_vegetation_health_analysis. quiet_steps. Qed.

Lemma change_total (lat lng : pyval) : total (simulate_change_detection_analysis lat lng).
Proof. unfold simulate_change_detection_analysis. total_steps. Qed.

Lemma change_keeps (lat lng : pyval) :
  keeps_processor (simulate_change_detection_analysis lat lng).
Proof. unfold simulate_change_detection_analysis. keeps_steps. Qed.

Lemma change_quiet (lat lng : pyval) : quiet (simulate_change_detection_analysis lat lng).
Proof. unfold simulate_change_detection_analysis. quiet_steps. Qed.

Lemma environment_total (query analysis_type : pyval) :
  total (simulate_environmental_assessment query analysis_type).
Proof. unfold simulate_environmental_assessment. total_steps. Qed.

Lemma environment_keeps (query analysis_type : pyval) :
  keeps_processor (simulate_environmental_assessment query analysis_type).
Proof. unfold simulate_environmental_assessment. keeps_steps. Qed.

Lemma environment_quiet (query analysis_type : pyval) :
  quiet (simulate_environmental_assessment query analysis_type).
Proof. unfold simulate_environmental_assessment. quiet_steps. Qed.

Hint Resolve vegetation_total change_total environment_total : total_db.
Hint Resolve land_use_keeps vegetation_keeps change_keeps environment_keeps : keeps_db.
Hint Resolve land_use_quiet vegetation_quiet change_quiet environment_quiet : quiet_db.

(** *** Insights and risks *)

Lemma insights_raise (query analysis_type : pyval) (e : exn) :
  py_lower query = Raise e -> generate_geospatial_insights query analysis_type = Raise e.
Proof. unfold generate_geospatial_insights. intros ->. reflexivity. Qed.

Lemma insights_ok (query analysis_type : pyval) (s : string) :
  py_lower query = Ok s ->
  exists l, generate_geospatial_insights query analysis_type = Ok l.
Proof.
  unfold generate_geospatial_insights. intros ->. simpl.
  destruct (contains "fishing" s); [eauto|].
  destruct (contains "water" s); [eauto|].
  destruct (contains "development" s); eauto.
Qed.

(** Inside an urban radius the coastal test raises nothing: the
    coordinates are small. *)
Lemma urban_then_coastal_ok (lat lng : pyval) :
  is_urban_area lat lng = Ok true -> exists c, is_coastal_area lat lng = Ok c.
Proof.
  intros H. apply (within_any_true lat lng urban_centers centers_ok_urban) in H.
  destruct H as (x & y & Hx & Hy & c & Hin & Hw).
  assert (Hc : center_ok c = true).
  { pose proof centers_ok_urban as Hall. rewrite forallb_forall in Hall. auto. }
  destruct c as [[cx cy] r]. unfold center_ok in Hc.
  apply andb_true_iff in Hc. destruct Hc as [Hc Hr].
  apply andb_true_iff in Hc. destruct Hc as [Hcx Hcy].
  destruct (python_within_small x y cx cy r Hcx Hcy Hr Hw) as [Sx Sy].
  eexists. unfold is_coastal_area.
  apply (within_any_small lat lng x y); try assumption.
  - apply (abs_lt_pow2_mono 8); [lia|assumption].
  - apply (abs_lt_pow2_mono 8); [lia|assumption].
  - apply centers_ok_coastal.
Qed.

(** The risks are those of the branch the classification takes. *)
Lemma assess_area (lat lng analysis_type : pyval) :
  assess_environmental_risks lat lng analysis_type
  = match area_class lat lng with
    | Ok a => Ok (risks_of a)
    | Raise e => Raise e
    end.
Proof.
  unfold assess_environmental_risks, area_class.
  destruct (is_urban_area lat lng) as [[]|e] eqn:Hu; simpl; try reflexivity.
  - destruct (urban_then_coastal_ok lat lng Hu) as [c ->]. reflexivity.
  - destruct (is_coastal_area lat lng) as [[]|e]; reflexivity.
Qed.

(** *** The demo analysis *)

Ltac fails_steps :=
  repeat match goal with
    | |- fails_with (lift (Raise _)) _ => apply fails_lift
    | |- fails_with (bind (lift (Raise _)) _) _ => apply fails_bind_l, fails_lift
    | |- fails_with (bind (simulate_land_use_classification _ _ _) _) _ =>
        first [ apply fails_bind_l, land_use_fails; assumption
              | apply fails_bind_r; [eapply land_use_total; eassumption|intro] ]
    | |- fails_with (bind _ _) _ =>
        apply fails_bind_r; [solve [auto 2 with total_db]|intro]
    end.

Lemma demo_fails (query satellite_data coordinates analysis_type : pyval) (e : exn) :
  demo_area query coordinates = Raise e ->
  fails_with (generate_demo_analysis query satellite_data coordinates analysis_type) e.
Proof.
  unfold demo_area, generate_demo_analysis. intros H.
  destruct (py_get coordinates "lat" (PInt 0)) as [lat|e1]; simpl in H;
    [|injection H as ->; fails_steps].
  destruct (py_get coordinates "lng" (PInt 0)) as [lng|e2]; simpl in H;
    [|injection H as ->; rewrite bind_lift_ok; fails_steps].
  rewrite !bind_lift_ok.
  destruct (area_class lat lng) as [a|e3] eqn:Ea; simpl in H;
    [|injection H as ->; fails_steps].
  destruct (py_lower query) as [s|e4] eqn:El; simpl in H; [discriminate|].
  injection H as ->. rewrite (insights_raise _ analysis_type _ El). fails_steps.
Qed.

Lemma demo_total (query satellite_data coordinates analysis_type : pyval) (a : area) :
  demo_area query coordinates = Ok a ->
  total (generate_demo_analysis query satellite_data coordinates analysis_type).
Proof.
  unfold demo_area, generate_demo_analysis. intros H.
  destruct (py_get coordinates "lat" (PInt 0)) as [lat|e1]; simpl in H; [|discriminate].
  destruct (py_get coordinates "lng" (PInt 0)) as [lng|e2]; simpl in H; [|discriminate].
  rewrite !bind_lift_ok.
  destruct (area_class lat lng) as [a'|e3] eqn:Ea; simpl in H; [|discriminate].
  destruct (py_lower query) as [s|e4] eqn:El; simpl in H; [|discriminate].
  destruct (insights_ok query analysis_type s El) as [l ->].
  rewrite assess_area, Ea.
  pose proof (land_use_total lat lng analysis_type a' Ea).
  total_steps.
Qed.

Lemma demo_post (query satellite_data coordinates analysis_type : pyval) (a : area) :
  demo_area query coordinates = Ok a ->
  post (generate_demo_analysis query satellite_data coordinates analysis_type)
       (demo_answer a).
Proof.
  unfold demo_area, generate_demo_analysis. intros H.
  destruct (py_get coordinates "lat" (PInt 0)) as [lat|e1]; simpl in H; [|discriminate].
  destruct (py_get coordinates "lng" (PInt 0)) as [lng|e2]; simpl in H; [|discriminate].
  rewrite !bind_lift_ok.
  destruct (area_class lat lng) as [a'|e3] eqn:Ea; simpl in H; [|discriminate].
  destruct (py_lower query) as [s|e4] eqn:El; simpl in H; [|discriminate].
  injection H as <-.
  rewrite assess_area, Ea.
  apply post_bind; intros _.
  apply (post_bind_strong _ _ _ _ (land_use_post lat lng analysis_type a' Ea)).
  intros land_use Hland.
  do 5 (apply post_bind; intro). rewrite bind_lift_ok.
  do 2 (apply post_bind; intro). apply post_ret.
  unfold demo_answer, demo_schema. cbn -[class_name risks_of].
  rewrite Hland. repeat split; reflexivity.
Qed.

Lemma demo_keeps (query satellite_data coordinates analysis_type : pyval) :
  keeps_processor (generate_demo_analysis query satellite_data coordinates analysis_type).
Proof. unfold generate_demo_analysis. keeps_steps. Qed.

Lemma demo_quiet (query satellite_data coordinates analysis_type : pyval) :
  quiet (generate_demo_analysis query satellite_data coordinates analysis_type).
Proof. unfold generate_demo_analysis. quiet_steps. Qed.

(** The outcome of the demo analysis: the exception, if any, is the one its
    arguments cause, whatever the state. *)
Lemma demo_outcome (query satellite_data coordinates analysis_type : pyval) (st : State) :
  match demo_area query coordinates with
  | Ok a =>
      exists obj st',
        generate_demo_analysis query satellite_data coordinates analysis_type st
        = (Ok obj, st') /\ demo_answer a obj
  | Raise e =>
      fst (generate_demo_analysis query satellite_data coordinates analysis_type st)
      = Raise e
  end.
Proof.
  destruct (demo_area query coordinates) as [a|e] eqn:E.
  - destruct (demo_total query satellite_data coordinates analysis_type a E st)
      as (obj & st' & Hrun).
    exists obj, st'. split; [assumption|].
    exact (demo_post query satellite_data coordinates analysis_type a E st obj st' Hrun).
  - apply demo_fails. assumption.
Qed.

(** *** The analysis entry point *)

Lemma bind_run_ok {A B : Type} (m : M A) (k : A -> M B) (st st1 : State) (a : A) :
  m st = (Ok a, st1) -> bind m k st = k a st1.
Proof. intros E. unfold bind. rewrite E. reflexivity. Qed.

Lemma finally_fst {A : Type} (m : M A) (f : M unit) (st : State) :
  total f -> fst (finally m f st) = fst (m st).
Proof.
  intros Hf. unfold finally. destruct (m st) as [r st1].
  destruct (Hf st1) as (u & st2 & ->). reflexivity.
Qed.

Lemma run_terramind_raises (query satellite_data coordinates analysis_type : pyval)
      (st : State) :
  exists e st',
    run_terramind_analysis query satellite_data coordinates analysis_type st
    = (Raise e, st').
Proof.
  unfold run_terramind_analysis.
  erewrite bind_run_ok by reflexivity.
  destruct (build_geospatial_prompt query coordinates analysis_type) as [text|e].
  - rewrite bind_lift_ok. unfold bind, external, raise.
    destruct (tokenizer text _) as [[u|e] w]; eauto.
  - rewrite bind_lift_raise. eexists. eexists. reflexivity.
Qed.

Lemma run_terramind_keeps (query satellite_data coordinates analysis_type : pyval) :
  keeps_processor (run_terramind_analysis query satellite_data coordinates analysis_type).
Proof. unfold run_terramind_analysis. keeps_steps. Qed.

Hint Resolve demo_keeps run_terramind_keeps : keeps_db.
Hint Resolve demo_quiet : quiet_db.

Lemma analyze_keeps (query satellite_data coordinates analysis_type : pyval) :
  keeps_processor (analyze_geospatial_data query satellite_data coordinates analysis_type).
Proof. unfold analyze_geospatial_data. keeps_steps. Qed.

Lemma completion_total (start_time : float) :
  total (now <- time_time ;; logger (AnalysisCompleted (now - start_time))).
Proof. total_steps. auto with total_db. Qed.

(** With the demo flag set or no model loaded, the answer is the demo
    analysis: when that raises, the handler runs it again, and it raises
    the same exception again. *)
Lemma analyze_demo_branch (query satellite_data coordinates analysis_type : pyval)
      (st : State) :
  demo_mode (processor st) || negb (model_loaded (processor st)) = true ->
  fst (analyze_geospatial_data query satellite_data coordinates analysis_type st)
  = fst (generate_demo_analysis query satellite_data coordinates analysis_type
           (entered st)).
Proof.
  intros Hflag. unfold analyze_geospatial_data.
  rewrite (bind_run_ok time_time _ st (entered st) _ eq_refl).
  rewrite finally_fst by apply completion_total.
  unfold try_except.
  rewrite (bind_run_ok self _ (entered st) (entered st) _ eq_refl).
  change (processor (entered st)) with (processor st). rewrite Hflag.
  pose proof (demo_outcome query satellite_data coordinates analysis_type (entered st))
    as H1.
  destruct (demo_area query coordinates) as [a|e] eqn:E.
  - destruct H1 as (obj & st' & -> & _). reflexivity.
  - destruct (generate_demo_analysis _ _ _ _ (entered st)) as [[obj|e'] st1];
      simpl in H1; [discriminate|]. injection H1 as ->.
    rewrite (bind_run_ok (logger (AnalysisError e)) _ st1 _ _ eq_refl).
    apply (demo_fails query satellite_data coordinates analysis_type e E).
Qed.

(** When the real path raises, the answer is the demo analysis, run after
    the error has been logged. *)
Lemma analyze_fallback (query satellite_data coordinates analysis_type : pyval)
      (st st1 : State) (e : exn) :
  demo_mode (processor st) = false -> model_loaded (processor st) = true ->
  run_terramind_analysis query satellite_data coordinates analysis_type (entered st)
  = (Raise e, st1) ->
  fst (analyze_geospatial_data query satellite_data coordinates analysis_type st)
  = fst (generate_demo_analysis query satellite_data coordinates analysis_type
           (snd (logger (AnalysisError e) st1))).
Proof.
  intros Hdemo Hloaded Hrun. unfold analyze_geospatial_data.
  rewrite (bind_run_ok time_time _ st (entered st) _ eq_refl).
  rewrite finally_fst by apply completion_total.
  unfold try_except.
  rewrite (bind_run_ok self _ (entered st) (entered st) _ eq_refl).
  change (processor (entered st)) with (processor st).
  rewrite Hdemo, Hloaded. cbn [orb negb]. rewrite Hrun.
  rewrite (bind_run_ok (logger (AnalysisError e)) _ st1 _ _ eq_refl). reflexivity.
Qed.


(** *** The endpoint *)

Hint Resolve analyze_keeps : keeps_db.

Lemma endpoint_keeps (get_json : result pyval) :
  keeps_processor (analyze_geospatial get_json).
Proof. unfold analyze_geospatial, analyze_geospatial_body. keeps_steps. Qed.

Lemma endpoint_no_data (data : pyval) (st : State) :
  truthy data = false ->
  analyze_geospatial (Ok data) st
  = (Ok (PDict [ ("error", PStr "No data provided") ], 400), st).
Proof.
  intros H. unfold analyze_geospatial, analyze_geospatial_body, try_except.
  rewrite bind_lift_ok, H. reflexivity.
Qed.

Lemma endpoint_error (get_json : result pyval) (st st' : State) (e : exn) :
  analyze_geospatial_body get_json st = (Raise e, st') ->
  analyze_geospatial get_json st
  = (Ok (PDict [ ("error", PStr "Analysis failed")
               ; ("message", PStr (exn_str e))
               ; ("fallback", PBool true) ], 500),
     snd (logger (EndpointError e) st')).
Proof.
  intros H. unfold analyze_geospatial, try_except. rewrite H. reflexivity.
Qed.

(** The catch-all lets no exception out of the handler. *)
Lemma endpoint_total (get_json : result pyval) : total (analyze_geospatial get_json).
Proof.
  intros st. unfold analyze_geospatial, try_except.
  destruct (analyze_geospatial_body get_json st) as [[resp|e] st1];
    eexists; eexists; reflexivity.
Qed.

(** *** Startup *)

(** [__init__] leaves the model name set, and a processor that is in demo
    mode or has its model loaded. *)
Lemma init_processor (getenv : option string) (st : State) :
  exists loaded demo,
    processor (snd (__init__ getenv st))
    = {| model_name := "ibm-esa-geospatial/TerraMind-1.0-large";
         model_loaded := loaded; demo_mode := demo |}
    /\ (demo = true \/ loaded = true).
Proof.
  unfold __init__.
  rewrite (bind_run_ok (set_model_name _) _ st _ _ eq_refl).
  rewrite (bind_run_ok (set_model_loaded _) _ _ _ _ eq_refl).
  rewrite (bind_run_ok (set_demo_mode _) _ _ _ _ eq_refl).
  rewrite (bind_run_ok self _ _ _ _ eq_refl).
  cbn [processor demo_mode model_name model_loaded world].
  destruct (lower match getenv with Some v => v | None => "true" end =? "true")%string.
  - cbn [negb]. rewrite (bind_run_ok (ret tt) _ _ _ _ eq_refl).
    rewrite (bind_run_ok self _ _ _ _ eq_refl). cbn.
    exists false, true. auto.
  - cbn [negb]. unfold try_except, bind, external, logger, set_model_loaded,
      set_demo_mode, self, ret. cbn.
    destruct (import_transformers (world st)) as [[u|e] w1]; cbn;
      [|exists false, true; auto].
    destruct (from_pretrained _ _) as [[u1|e1] w2]; cbn;
      [|exists false, true; auto].
    destruct (from_pretrained _ _) as [[u2|e2] w3]; cbn;
      [|exists false, true; auto].
    exists true, false. auto.
Qed.

End Generators.

(** ** Coordinates that default to zero *)

Section Defaults.
Context {LM : Libm}.

Lemma as_float_zero : as_float (PInt 0) = Ok 0%float.
Proof. reflexivity. Qed.

(** Latitude 0 is more than 8 degrees from every center. *)
Lemma zero_lat_outside (lng : pyval) (centers : list center) :
  centers = urban_centers \/ centers = coastal_regions ->
  within_any (PInt 0) lng centers <> Ok true.
Proof.
  intros Hc H.
  assert (Hok : forallb center_ok centers = true)
    by (destruct Hc; subst; [apply centers_ok_urban|apply centers_ok_coastal]).
  apply (within_any_true _ _ _ Hok) in H.
  destruct H as (x & y & Hx & Hy & c & Hin & Hw).
  rewrite as_float_zero in Hx. injection Hx as <-.
  destruct Hc; subst centers; simpl in Hin;
    repeat (destruct Hin as [<-|Hin];
            [rewrite python_within_far in Hw;
             [discriminate|left; vm_compute; reflexivity|vm_compute; reflexivity]|]);
    destruct Hin.
Qed.

(** So is longitude 0. *)
Lemma zero_lng_outside (lat : pyval) (centers : list center) :
  centers = urban_centers \/ centers = coastal_regions ->
  within_any lat (PInt 0) centers <> Ok true.
Proof.
  intros Hc H.
  assert (Hok : forallb center_ok centers = true)
    by (destruct Hc; subst; [apply centers_ok_urban|apply centers_ok_coastal]).
  apply (within_any_true _ _ _ Hok) in H.
  destruct H as (x & y & Hx & Hy & c & Hin & Hw).
  rewrite as_float_zero in Hy. injection Hy as <-.
  destruct Hc; subst centers; simpl in Hin;
    repeat (destruct Hin as [<-|Hin];
            [rewrite python_within_far in Hw;
             [discriminate|right; vm_compute; reflexivity|vm_compute; reflexivity]|]);
    destruct Hin.
Qed.

Lemma area_class_zero (lat lng : pyval) (a : area) :
  lat = PInt 0 \/ lng = PInt 0 -> area_class lat lng = Ok a -> a = Rural.
Proof.
  intros Hz. unfold area_class, is_urban_area, is_coastal_area.
  destruct (within_any lat lng urban_centers) as [[]|e] eqn:Hu; cbn [rbind];
    [| |discriminate].
  - exfalso. destruct Hz as [->| ->].
    + apply (zero_lat_outside lng urban_centers); auto.
    + apply (zero_lng_outside lat urban_centers); auto.
  - destruct (within_any lat lng coastal_regions) as [[]|e] eqn:Hc; cbn [rbind];
      [|intros [= <-]; reflexivity|discriminate].
    exfalso. destruct Hz as [->| ->].
    + apply (zero_lat_outside lng coastal_regions); auto.
    + apply (zero_lng_outside lat coastal_regions); auto.
Qed.

Lemma area_class_in_range (lat lng : pyval) :
  in_range lat = true -> in_range lng = true -> exists a, area_class lat lng = Ok a.
Proof.
  unfold in_range. intros Hlat Hlng.
  destruct (as_float lat) as [x|] eqn:Ex; [|discriminate].
  destruct (as_float lng) as [y|] eqn:Ey; [|discriminate].
  unfold area_class, is_urban_area, is_coastal_area.
  rewrite (within_any_small lat lng x y urban_centers Ex Ey Hlat Hlng centers_ok_urban).
  rewrite (within_any_small lat lng x y coastal_regions Ex Ey Hlat Hlng centers_ok_coastal).
  simpl. eauto.
Qed.

Lemma demo_area_dict (query : pyval) (d : list (string * pyval)) :
  demo_area query (PDict d)
  = (let? a := area_class (coordinate d "lat") (coordinate d "lng") in
     let? _ := py_lower query in
     Ok a).
Proof. reflexivity. Qed.

End Defaults.

(** ** Comparisons with the vegetation thresholds *)

Lemma SFcompare_eq_finite (s : bool) (m : positive) (e : Z) (x : spec_float) :
  SFcompare (S754_finite s m e) x = Some Eq -> x = S754_finite s m e.
Proof.
  destruct x as [s'|s'| |s' m' e']; cbv [SFcompare]; try (destruct s; discriminate);
    try (destruct s'; discriminate); try discriminate.
  destruct s, s'; try discriminate;
    destruct (Z.compare_spec e e') as [<-| |]; try discriminate;
    change (Pos.compare_cont Eq m m') with (Pos.compare m m');
    destruct (Pos.compare_spec m m') as [<-| |]; try discriminate; reflexivity.
Qed.

(** A sample that is at least 0.3 and not above it is 0.3. *)
Lemma ndvi_low_end (x : float) :
  (0.3 <=? x)%float = true -> (0.3 <? x)%float = false -> x = 0.3%float.
Proof.
  rewrite leb_spec, ltb_spec. unfold SFleb, SFltb.
  remember (Prim2SF 0.3) as c eqn:Ec.
  assert (Hc : c = S754_finite false 5404319552844595 (-54))
    by (subst c; vm_compute; reflexivity).
  intros Hle Hlt. apply Prim2SF_inj. rewrite <- Ec, Hc.
  apply SFcompare_eq_finite. rewrite <- Hc.
  destruct (SFcompare c (Prim2SF x)) as [[]|]; try discriminate. reflexivity.
Qed.

(** A sample that is at least 0.3 is above 0.1. *)
Lemma ndvi_above_tenth (x : float) :
  (0.3 <=? x)%float = true -> (0.1 <? x)%float = true.
Proof.
  rewrite leb_spec, ltb_spec.
  assert (H3 : Prim2SF 0.3 = S754_finite false 5404319552844595 (-54))
    by (vm_compute; reflexivity).
  assert (H1 : Prim2SF 0.1 = S754_finite false 7205759403792794 (-56))
    by (vm_compute; reflexivity).
  rewrite H3, H1.
  destruct (Prim2SF x) as [s|[]| |[] m e]; cbv [SFleb SFltb SFcompare];
    try discriminate; try reflexivity.
  destruct (Z.compare_spec (-54) e); destruct (Z.compare_spec (-56) e);
    try lia; try discriminate; reflexivity.
Qed.

Lemma categorize_from_low_end (x : float) :
  (0.3 <=? x)%float = true ->
  In (categorize_vegetation_health x) ["poor"; "moderate"; "good"; "excellent"] /\
  (categorize_vegetation_health x = "poor" <-> x = 0.3%float).
Proof.
  intros Hle. pose proof (ndvi_above_tenth x Hle) as H1. split.
  - unfold categorize_vegetation_health. rewrite H1.
    destruct (0.7 <? x)%float; [simpl; auto|].
    destruct (0.5 <? x)%float; [simpl; auto|].
    destruct (0.3 <? x)%float; simpl; auto.
  - split.
    + unfold categorize_vegetation_health. rewrite H1.
      destruct (0.7 <? x)%float; [discriminate|].
      destruct (0.5 <? x)%float; [discriminate|].
      destruct (0.3 <? x)%float eqn:E; [discriminate|].
      intros _. apply ndvi_low_end; assumption.
    + intros ->. vm_compute. reflexivity.
Qed.

Lemma recommendations_three (ndvi : float) (analysis_type : pyval) :
  exists r1 r2 r3, generate_vegetation_recommendations ndvi analysis_type = [r1; r2; r3].
Proof.
  unfold generate_vegetation_recommendations.
  destruct (ndvi <? 0.3)%float; [eauto|]. destruct (ndvi <? 0.6)%float; eauto.
Qed.

(** * The claims *)

Section Claims.
Context {LM : Libm} {RT : Runtime}.

(** C1: the urban / coastal / rural branch is a function of the coordinates
    alone.  Two runs of [simulate_land_use_classification] on the same
    [(lat, lng)], in any two states of the generator (and with any analysis
    type and any rounding), select the same primary class, or raise the same
    exception; and [is_urban_area] and [is_coastal_area], which read no
    state at all, answer the same boolean each time. *)
Theorem branch_deterministic (RT' : Runtime) (lat lng type1 type2 : pyval)
        (st1 st2 : State) :
  primary_class_of (fst (simulate_land_use_classification (RT := RT) lat lng type1 st1))
  = primary_class_of (fst (simulate_land_use_classification (RT := RT') lat lng type2 st2))
  /\ (forall b1 b2, is_urban_area lat lng = Ok b1 -> is_urban_area lat lng = Ok b2 -> b1 = b2)
  /\ (forall b1 b2, is_coastal_area lat lng = Ok b1 -> is_coastal_area lat lng = Ok b2 ->
                    b1 = b2).
Proof.
  split; [|split; congruence].
  rewrite !land_use_primary_class. reflexivity.
Qed.

(** C2: [is_urban_area] answers [True] exactly when the coordinates are
    numbers and one of the four hardcoded city centers (radius 50) is within
    its radius by [((lat-clat)**2 + (lng-clng)**2)**0.5 * 111 <= radius] as
    Python evaluates it on doubles, the square and the root by libm's
    [pow], of any libm accurate to one unit in the last place;
    [is_coastal_area] likewise with its three centers of radius 30, 20
    and 15.  At the boundary of a circle this is neither the formula over
    the reals nor its correctly rounded evaluation. *)
Theorem coordinate_thresholds (lat lng : pyval) :
  (is_urban_area lat lng = Ok true <->
   exists x y, as_float lat = Ok x /\ as_float lng = Ok y /\
     exists c,
       In c [ (13.0827, 80.2707, 50%Z); (12.9716, 77.5946, 50%Z)
            ; (19.0760, 72.8777, 50%Z); (28.7041, 77.1025, 50%Z) ]%float /\
       python_within x y c = true) /\
  (is_coastal_area lat lng = Ok true <->
   exists x y, as_float lat = Ok x /\ as_float lng = Ok y /\
     exists c,
       In c [ (13.0827, 80.2707, 30%Z); (19.0760, 72.8777, 20%Z)
            ; (11.9416, 79.8083, 15%Z) ]%float /\
       python_within x y c = true).
Proof.
  split.
  - exact (within_any_true lat lng urban_centers centers_ok_urban).
  - exact (within_any_true lat lng coastal_regions centers_ok_coastal).
Qed.


(** C4: a request whose JSON body is falsy is answered 400 with
    "No data provided"; a request whose handling raises is answered 500 with
    error "Analysis failed" and fallback true. *)
Theorem malformed_requests (get_json : result pyval) (st : State) :
  (forall data,
     get_json = Ok data -> truthy data = false ->
     fst (analyze_geospatial get_json st)
     = Ok (PDict [ ("error", PStr "No data provided") ], 400)) /\
  (forall e st',
     analyze_geospatial_body get_json st = (Raise e, st') ->
     exists body,
       fst (analyze_geospatial get_json st) = Ok (body, 500) /\
       field "error" body = Some (PStr "Analysis failed") /\
       field "fallback" body = Some (PBool true)).
Proof.
  split.
  - intros data -> H. rewrite endpoint_no_data by assumption. reflexivity.
  - intros e st' H. rewrite (endpoint_error _ _ _ _ H). simpl.
    eexists. repeat split.
Qed.

(** C5, as amended: a demo analysis that is returned has the top-level
    fields success, model, mode, analysis and metadata, and its analysis has
    the seven section fields; beyond the presence of fields, success is
    true, model is "TerraMind-1.0-large", mode is "demo", and the primary
    class and the risk list are those of one and the same area.
    [generate_demo_analysis] returns unless its arguments themselves make it
    raise (coordinates without [get], a coordinate that is no number or
    overflows the distance, a query without [lower]). *)
Theorem demo_schema_conformance (query satellite_data coordinates analysis_type : pyval)
        (st : State) :
  match fst (generate_demo_analysis query satellite_data coordinates analysis_type st) with
  | Ok obj =>
      demo_schema obj = true /\
      field "success" obj = Some (PBool true) /\
      field "model" obj = Some (PStr "TerraMind-1.0-large") /\
      field "mode" obj = Some (PStr "demo") /\
      exists a,
        path ["analysis"; "land_use_classification"; "primary_class"] obj
        = Some (PStr (class_name a)) /\
        path ["analysis"; "risk_factors"] obj = Some (PList (risks_of a))
  | Raise e => demo_area query coordinates = Raise e
  end.
Proof.
  pose proof (demo_outcome query satellite_data coordinates analysis_type st) as H.
  destruct (demo_area query coordinates) as [a|e].
  - destruct H as (obj & st' & -> & Hschema & Hsuccess & Hmodel & Hmode & Hcls & Hrisk).
    simpl. repeat (split; [assumption|]). exists a. split; assumption.
  - rewrite H. reflexivity.
Qed.


(** C7: serving a request leaves model_name, model_loaded and demo_mode of
    the shared processor as they were: in [analyze_geospatial_data], in the
    endpoint, in [generate_demo_analysis] and in each of its generators;
    [__init__] is where the three fields are set. *)
Theorem processor_never_mutated
        (query satellite_data coordinates analysis_type lat lng : pyval)
        (get_json : result pyval) (getenv : option string) (st : State) :
  processor (snd (analyze_geospatial_data query satellite_data coordinates
                    analysis_type st)) = processor st /\
  processor (snd (analyze_geospatial get_json st)) = processor st /\
  processor (snd (generate_demo_analysis query satellite_data coordinates
                    analysis_type st)) = processor st /\
  processor (snd (simulate_land_use_classification lat lng analysis_type st))
  = processor st /\
  processor (snd (simulate_vegetation_health_analysis satellite_data analysis_type st))
  = processor st /\
  processor (snd (simulate_change_detection_analysis lat lng st)) = processor st /\
  processor (snd (simulate_environmental_assessment query analysis_type st))
  = processor st /\
  exists loaded demo,
    processor (snd (__init__ getenv st))
    = {| model_name := "ibm-esa-geospatial/TerraMind-1.0-large";
         model_loaded := loaded; demo_mode := demo |}.
Proof.
  split; [apply analyze_keeps|].
  split; [apply endpoint_keeps|].
  split; [apply demo_keeps|].
  split; [apply land_use_keeps|].
  split; [apply vegetation_keeps|].
  split; [apply change_keeps|].
  split; [apply environment_keeps|].
  destruct (init_processor getenv st) as (loaded & demo & H & _). eauto.
Qed.


(** C9: the land-use classification and the risk assessment take the same
    branch, urban before coastal: the primary class is "urban" exactly when
    the risks are the urban list, and likewise for the coastal and the rural
    branch; Chennai, inside both an urban and a coastal radius, is "urban". *)
Theorem class_and_risks_agree (lat lng type1 type2 : pyval) (st : State) :
  let cls := primary_class_of (fst (simulate_land_use_classification lat lng type1 st)) in
  let risks := assess_environmental_risks lat lng type2 in
  (cls = Ok (Some (PStr "urban")) <-> risks = Ok urban_risks) /\
  (cls = Ok (Some (PStr "coastal_mixed")) <-> risks = Ok coastal_risks) /\
  (cls = Ok (Some (PStr "agricultural")) <-> risks = Ok rural_risks) /\
  (is_urban_area (PFloat 13.0827) (PFloat 80.2707) = Ok true /\
   is_coastal_area (PFloat 13.0827) (PFloat 80.2707) = Ok true /\
   primary_class_of
     (fst (simulate_land_use_classification (PFloat 13.0827) (PFloat 80.2707) type1 st))
   = Ok (Some (PStr "urban")) /\
   assess_environmental_risks (PFloat 13.0827) (PFloat 80.2707) type2 = Ok urban_risks).
Proof.
  cbv zeta. rewrite !land_use_primary_class, !assess_area.
  assert (Hchennai : area_class (PFloat 13.0827) (PFloat 80.2707) = Ok Urban)
    by (vm_compute; reflexivity).
  rewrite Hchennai.
  split; [|split; [|split]].
  - destruct (area_class lat lng) as [[]|e]; cbn [class_name risks_of];
      split; intros H; try reflexivity; discriminate H.
  - destruct (area_class lat lng) as [[]|e]; cbn [class_name risks_of];
      split; intros H; try reflexivity; discriminate H.
  - destruct (area_class lat lng) as [[]|e]; cbn [class_name risks_of];
      split; intros H; try reflexivity; discriminate H.
  - repeat split; vm_compute; reflexivity.
Qed.

(** C10, as amended: with base_ndvi at least 0.3, the health category is
    "poor", "moderate", "good" or "excellent", never "very_poor", and it is
    "poor" exactly when the sample is 0.3 itself; drought_stress is "low"
    exactly when base_ndvi > 0.6; [generate_vegetation_recommendations]
    always returns three recommendations. *)
Theorem vegetation_health_ranges (satellite_data analysis_type : pyval) (st : State) :
  let base_ndvi := uniform_at (world st) (tick (world st)) in
  (0.3 <=? base_ndvi)%float = true ->
  (exists obj st',
     simulate_vegetation_health_analysis satellite_data analysis_type st = (Ok obj, st') /\
     field "health_category" obj = Some (PStr (categorize_vegetation_health base_ndvi)) /\
     path ["stress_indicators"; "drought_stress"] obj
     = Some (PStr (if (0.6 <? base_ndvi)%float then "low" else "moderate")) /\
     exists r1 r2 r3,
       field "recommendations" obj = Some (PList [PStr r1; PStr r2; PStr r3])) /\
  In (categorize_vegetation_health base_ndvi) ["poor"; "moderate"; "good"; "excellent"] /\
  (categorize_vegetation_health base_ndvi = "poor" <-> base_ndvi = 0.3%float) /\
  (forall ndvi type,
     length (generate_vegetation_recommendations ndvi type) = 3%nat).
Proof.
  intros base_ndvi Hle.
  destruct (categorize_from_low_end base_ndvi Hle) as [Hin Hpoor].
  split; [|split; [exact Hin|split; [exact Hpoor|]]].
  - destruct (recommendations_three base_ndvi analysis_type) as (r1 & r2 & r3 & Hrec).
    eexists. eexists. split; [reflexivity|].
    split; [reflexivity|]. split; [reflexivity|].
    exists r1, r2, r3. cbn [field lookup String.eqb Ascii.eqb Bool.eqb].
    fold base_ndvi. rewrite Hrec. reflexivity.
  - intros ndvi type.
    destruct (recommendations_three ndvi type) as (r1 & r2 & r3 & ->). reflexivity.
Qed.

End Claims.

(** * Further properties

    What the code shows beyond the claims: the order on doubles behind the
    vegetation thresholds, the words the insights look for, the outcome and
    the log of an analysis in either mode, the endpoint case by case,
    startup and the health endpoint. *)

(** ** The order on doubles *)

Ltac cmp_cases :=
  repeat match goal with
    | H : context [Z.compare ?a ?b] |- _ => destruct (Z.compare_spec a b)
    | |- context [Z.compare ?a ?b] => destruct (Z.compare_spec a b)
    | H : context [Pos.compare ?a ?b] |- _ => destruct (Pos.compare_spec a b)
    | |- context [Pos.compare ?a ?b] => destruct (Pos.compare_spec a b)
    end.

Ltac order_cases :=
  cbv [SFleb SFltb SFcompare]; try discriminate; try reflexivity;
  repeat match goal with s : bool |- _ => destruct s end;
  try discriminate; try reflexivity;
  change (Pos.compare_cont Eq) with Pos.compare;
  intros; cmp_cases; simpl in *; try discriminate; try reflexivity;
  subst; try lia.

Lemma SFleb_trans (x y z : spec_float) :
  SFleb x y = true -> SFleb y z = true -> SFleb x z = true.
Proof.
  destruct x as [sx|sx| |sx mx ex], y as [sy|sy| |sy my ey], z as [sz|sz| |sz mz ez];
    order_cases.
Qed.

Lemma SFltb_leb_trans (x y z : spec_float) :
  SFltb x y = true -> SFleb y z = true -> SFltb x z = true.
Proof.
  destruct x as [sx|sx| |sx mx ex], y as [sy|sy| |sy my ey], z as [sz|sz| |sz mz ez];
    order_cases.
Qed.

Lemma SFleb_ltb_trans (x y z : spec_float) :
  SFleb x y = true -> SFltb y z = true -> SFltb x z = true.
Proof.
  destruct x as [sx|sx| |sx mx ex], y as [sy|sy| |sy my ey], z as [sz|sz| |sz mz ez];
    order_cases.
Qed.

Lemma SFltb_asym (x y : spec_float) : SFltb x y = true -> SFltb y x = false.
Proof.
  destruct x as [sx|sx| |sx mx ex], y as [sy|sy| |sy my ey]; order_cases.
Qed.

Lemma leb_trans (x y z : float) :
  (x <=? y)%float = true -> (y <=? z)%float = true -> (x <=? z)%float = true.
Proof. rewrite !leb_spec. apply SFleb_trans. Qed.

Lemma ltb_leb_trans (x y z : float) :
  (x <? y)%float = true -> (y <=? z)%float = true -> (x <? z)%float = true.
Proof. rewrite !ltb_spec, leb_spec. apply SFltb_leb_trans. Qed.

Lemma leb_ltb_trans (x y z : float) :
  (x <=? y)%float = true -> (y <? z)%float = true -> (x <? z)%float = true.
Proof. rewrite !ltb_spec, leb_spec. apply SFleb_ltb_trans. Qed.

Lemma ltb_asym (x y : float) : (x <? y)%float = true -> (y <? x)%float = false.
Proof. rewrite !ltb_spec. apply SFltb_asym. Qed.

(** ** The coastal centers behind the urban ones *)

Section Coast.
Context {LM : Libm}.

(** A point within a radius of a center is within any larger radius. *)
Lemma python_within_radius (x y cx cy : float) (r r' : Z) :
  (float_of_Z r <=? float_of_Z r')%float = true ->
  python_within x y (cx, cy, r) = true -> python_within x y (cx, cy, r') = true.
Proof. unfold python_within. intros Hr H. exact (leb_trans _ _ _ H Hr). Qed.

(** The coastal circles of Chennai and Mumbai lie inside the urban ones:
    a point that is coastal and not urban is near Pondicherry. *)
Lemma coastal_not_urban (lat lng : pyval) :
  is_urban_area lat lng = Ok false -> is_coastal_area lat lng = Ok true ->
  exists x y, as_float lat = Ok x /\ as_float lng = Ok y /\
              python_within x y (11.9416%float, 79.8083%float, 15) = true.
Proof.
  intros Hu Hc.
  apply (within_any_true lat lng coastal_regions centers_ok_coastal) in Hc.
  destruct Hc as (x & y & Hx & Hy & c & Hin & Hw).
  exists x, y. split; [assumption|]. split; [assumption|].
  apply (within_any_spec lat lng x y urban_centers Hx Hy) in Hu.
  symmetry in Hu. unfold urban_centers in Hu. cbn [existsb] in Hu.
  apply orb_false_iff in Hu. destruct Hu as [Hchennai Hu].
  apply orb_false_iff in Hu. destruct Hu as [_ Hu].
  apply orb_false_iff in Hu. destruct Hu as [Hmumbai _].
  unfold coastal_regions in Hin. cbn [In] in Hin.
  destruct Hin as [<-|[<-|[<-|[]]]].
  - apply (python_within_radius _ _ _ _ 30 50) in Hw; [congruence|vm_compute; reflexivity].
  - apply (python_within_radius _ _ _ _ 20 50) in Hw; [congruence|vm_compute; reflexivity].
  - exact Hw.
Qed.

End Coast.

(** ** The vegetation thresholds against each other *)

Lemma vegetation_low_stress (ndvi : float) (analysis_type : pyval) :
  drought_stress ndvi = "low" ->
  In (categorize_vegetation_health ndvi) ["good"; "excellent"] /\
  generate_vegetation_recommendations ndvi analysis_type
  = [ "Excellent vegetation health detected"
    ; "Continue current conservation practices"
    ; "Consider this area for biodiversity studies" ].
Proof.
  unfold drought_stress. destruct (0.6 <? ndvi)%float eqn:E6; [intros _|discriminate].
  assert (E5 : (0.5 <? ndvi)%float = true)
    by (apply (leb_ltb_trans 0.5 0.6 ndvi); [vm_compute; reflexivity|assumption]).
  assert (N6 : (ndvi <? 0.6)%float = false) by (apply ltb_asym; assumption).
  assert (N3 : (ndvi <? 0.3)%float = false).
  { destruct (ndvi <? 0.3)%float eqn:E; [|reflexivity].
    rewrite (ltb_leb_trans ndvi 0.3 0.6 E) in N6; [discriminate|vm_compute; reflexivity]. }
  split.
  - unfold categorize_vegetation_health. rewrite E5.
    destruct (0.7 <? ndvi)%float; simpl; auto.
  - unfold generate_vegetation_recommendations. rewrite N3, N6. reflexivity.
Qed.

Lemma vegetation_poor_stress (ndvi : float) :
  In (categorize_vegetation_health ndvi) ["poor"; "very_poor"; "moderate"] ->
  drought_stress ndvi = "moderate".
Proof.
  unfold drought_stress. destruct (0.6 <? ndvi)%float eqn:E6; [|reflexivity].
  assert (E5 : (0.5 <? ndvi)%float = true)
    by (apply (leb_ltb_trans 0.5 0.6 ndvi); [vm_compute; reflexivity|assumption]).
  unfold categorize_vegetation_health. rewrite E5.
  destruct (0.7 <? ndvi)%float; simpl; intros [H|[H|[H|[]]]]; discriminate.
Qed.

Lemma vegetation_first_list (ndvi : float) (analysis_type : pyval) :
  generate_vegetation_recommendations ndvi analysis_type
  = [ "Consider soil health improvement programs"
    ; "Implement water conservation measures"
    ; "Monitor for pest and disease pressure" ] ->
  In (categorize_vegetation_health ndvi) ["poor"; "very_poor"].
Proof.
  unfold generate_vegetation_recommendations.
  destruct (ndvi <? 0.3)%float eqn:E3;
    [intros _|destruct (ndvi <? 0.6)%float; discriminate].
  assert (N3 : (0.3 <? ndvi)%float = false) by (apply ltb_asym; assumption).
  assert (N5 : (0.5 <? ndvi)%float = false).
  { destruct (0.5 <? ndvi)%float eqn:E; [|reflexivity].
    rewrite (leb_ltb_trans 0.3 0.5 ndvi) in N3;
      [discriminate|vm_compute; reflexivity|assumption]. }
  assert (N7 : (0.7 <? ndvi)%float = false).
  { destruct (0.7 <? ndvi)%float eqn:E; [|reflexivity].
    rewrite (leb_ltb_trans 0.3 0.7 ndvi) in N3;
      [discriminate|vm_compute; reflexivity|assumption]. }
  unfold categorize_vegetation_health. rewrite N7, N5, N3.
  destruct (0.1 <? ndvi)%float; simpl; auto.
Qed.

(** ** Lower case and substrings *)

Lemma lower_ascii_idem (c : ascii) : lower_ascii (lower_ascii c) = lower_ascii c.
Proof. destruct c as [[] [] [] [] [] [] [] []]; reflexivity. Qed.

Lemma lower_idem (s : string) : lower (lower s) = lower s.
Proof.
  induction s as [|c s IH]; [reflexivity|]. simpl. rewrite lower_ascii_idem, IH. reflexivity.
Qed.

Lemma prefix_append (needle hay : string) :
  prefix needle hay = true <-> exists after, hay = needle ++ after.
Proof.
  revert hay. induction needle as [|c needle IH]; intros hay.
  - split; [intros _; exists hay; reflexivity|intros _; destruct hay; reflexivity].
  - destruct hay as [|c' hay]; simpl.
    + split; [discriminate|intros [after H]; discriminate].
    + destruct (ascii_dec c c') as [<-|Hne].
      * rewrite IH. split; intros [after H]; exists after; [rewrite H; reflexivity|].
        injection H as H. exact H.
      * split; [discriminate|]. intros [after H]. injection H as H _. congruence.
Qed.

(** Python's [needle in hay] is the substring relation. *)
Lemma contains_occurs (needle hay : string) :
  contains needle hay = true <-> occurs needle hay.
Proof.
  unfold occurs. induction hay as [|c hay IH].
  - cbn [contains]. rewrite orb_false_r, prefix_append. split.
    + intros [after H]. exists "", after. exact H.
    + intros (before & after & H). destruct before; [exists after; exact H|discriminate].
  - cbn [contains]. rewrite orb_true_iff, IH, prefix_append. split.
    + intros [[after H]|(before & after & H)].
      * exists "", after. exact H.
      * exists (String c before), after. rewrite H. reflexivity.
    + intros (before & after & H). destruct before as [|c' before].
      * left. exists after. exact H.
      * right. exists before, after. injection H as _ H. exact H.
Qed.

Lemma insights_str (s : string) (analysis_type : pyval) :
  generate_geospatial_insights (PStr s) analysis_type
  = Ok (if contains "fishing" (lower s) then fishing_insights
        else if contains "water" (lower s) then water_insights
        else if contains "development" (lower s) then development_insights
        else general_insights).
Proof.
  unfold generate_geospatial_insights. cbn [py_lower rbind].
  destruct (contains "fishing" (lower s)); [reflexivity|].
  destruct (contains "water" (lower s)); [reflexivity|].
  destruct (contains "development" (lower s)); reflexivity.
Qed.

(** ** What can go wrong in the demo analysis *)

Lemma as_float_raise (v : pyval) (e : exn) :
  as_float v = Raise e -> e = TypeError \/ e = OverflowError.
Proof.
  destruct v as [ |b|z|f|s|l|d]; cbn [as_float]; try (intros [= <-]; auto); try discriminate.
  unfold float_of_int. destruct (binary_normalize _ _ _ _ _); try discriminate.
  intros [= <-]. auto.
Qed.

Section Causes.
Context {LM : Libm}.

Lemma area_class_raise (lat lng : pyval) (e : exn) :
  area_class lat lng = Raise e ->
  (e = TypeError /\ (as_float lat = Raise TypeError \/ as_float lng = Raise TypeError)) \/
  (e = OverflowError /\ (in_range lat = false \/ in_range lng = false)).
Proof.
  intros H.
  assert (Hcause : as_float lat = Raise e \/ as_float lng = Raise e \/ e = OverflowError).
  { unfold area_class, is_urban_area, is_coastal_area in H.
    destruct (within_any lat lng urban_centers) as [u|e1] eqn:Hu; cbn [rbind] in H.
    - destruct (within_any lat lng coastal_regions) as [c|e2] eqn:Hc; cbn [rbind] in H;
        [discriminate|].
      injection H as <-. exact (within_any_raise _ _ _ _ Hc).
    - injection H as <-. exact (within_any_raise _ _ _ _ Hu). }
  assert (Hover : e = OverflowError -> in_range lat = false \/ in_range lng = false).
  { intros ->. destruct (in_range lat) eqn:Rlat; [|auto].
    destruct (in_range lng) eqn:Rlng; [|auto].
    destruct (area_class_in_range lat lng Rlat Rlng) as [a Ha]. congruence. }
  destruct Hcause as [Hlat|[Hlng|He]].
  - destruct (as_float_raise _ _ Hlat) as [->| ->]; [left; auto|right; auto].
  - destruct (as_float_raise _ _ Hlng) as [->| ->]; [left; auto|right; auto].
  - right. auto.
Qed.

End Causes.

(** [np.random.choice] answers one of its options. *)
Lemma nth_mod_In (i : nat) (options : list string) :
  options <> [] -> In (nth (i mod length options) options "") options.
Proof.
  intros H. apply nth_In. apply Nat.mod_upper_bound.
  destruct options; [contradiction|discriminate].
Qed.

(** ** Computations that log nothing *)

Lemma silent_ret {A : Type} (a : A) : silent (ret a).
Proof. intros st. reflexivity. Qed.

Lemma silent_lift {A : Type} (r : result A) : silent (lift r).
Proof. intros st. reflexivity. Qed.

Lemma silent_bind {A B : Type} (m : M A) (k : A -> M B) :
  silent m -> (forall a, silent (k a)) -> silent (bind m k).
Proof.
  intros Hm Hk st. specialize (Hm st). unfold bind.
  destruct (m st) as [[a|e] st1]; simpl in *; [|assumption].
  rewrite Hk. assumption.
Qed.

Lemma silent_uniform (low high : float) : silent (uniform low high).
Proof. intros st. reflexivity. Qed.

Lemma silent_choice (options : list string) : silent (choice options).
Proof. intros st. reflexivity. Qed.

Lemma silent_time_time : silent time_time.
Proof. intros st. reflexivity. Qed.

Lemma silent_now : silent datetime_now_isoformat.
Proof. intros st. reflexivity. Qed.

Create HintDb silent_db.
#[export] Hint Resolve silent_ret silent_lift silent_uniform silent_choice
  silent_time_time silent_now : silent_db.

Ltac silent_steps :=
  repeat match goal with
    | |- silent (bind _ _) => apply silent_bind; [|intro]
    | |- silent (if ?b then _ else _) => destruct b
    | |- silent _ => solve [auto 2 with silent_db]
    end.

Section Further.
Context {LM : Libm} {RT : Runtime}.

Lemma silent_rounded (low high : float) (n : Z) : silent (rounded low high n).
Proof. unfold rounded. silent_steps. Qed.

Lemma silent_formatted (low high : float) (spec suffix : string) :
  silent (formatted low high spec suffix).
Proof. unfold formatted. silent_steps. Qed.

Lemma silent_chosen (options : list string) : silent (chosen options).
Proof. unfold chosen. silent_steps. Qed.

Hint Resolve silent_rounded silent_formatted silent_chosen : silent_db.

Lemma silent_land_use (lat lng analysis_type : pyval) :
  silent (simulate_land_use_classification lat lng analysis_type).
Proof. unfold simulate_land_use_classification. silent_steps. Qed.

Lemma silent_vegetation (satellite_data analysis_type : pyval) :
  silent (simulate_vegetation_health_analysis satellite_data analysis_type).
Proof. unfold simulate_vegetation_health_analysis. silent_steps. Qed.

Lemma silent_change (lat lng : pyval) : silent (simulate_change_detection_analysis lat lng).
Proof. unfold simulate_change_detection_analysis. silent_steps. Qed.

Lemma silent_environment (query analysis_type : pyval) :
  silent (simulate_environmental_assessment query analysis_type).
Proof. unfold simulate_environmental_assessment. silent_steps. Qed.

Hint Resolve silent_land_use silent_vegetation silent_change silent_environment
  : silent_db.

Lemma logged_then_silent {A : Type} (ev : log_event) (k : unit -> M A) (st : State) :
  (forall u, silent (k u)) ->
  log (world (snd (bind (logger ev) k st))) = (log (world st) ++ [ev])%list.
Proof.
  intros Hk. rewrite (bind_run_ok (logger ev) _ st _ _ eq_refl). rewrite Hk. reflexivity.
Qed.

(** The demo analysis logs its notice and nothing else, whatever its
    outcome. *)
Lemma demo_log (query satellite_data coordinates analysis_type : pyval) (st : State) :
  log (world (snd (generate_demo_analysis query satellite_data coordinates
                     analysis_type st)))
  = (log (world st) ++ [GeneratingDemo])%list.
Proof.
  unfold generate_demo_analysis. apply logged_then_silent. intros _. silent_steps.
Qed.

Lemma finally_completion_log {A : Type} (m : M A) (start_time : float) (st : State) :
  exists seconds,
    log (world (snd (finally m
                       (now <- time_time ;; logger (AnalysisCompleted (now - start_time)))
                       st)))
    = (log (world (snd (m st))) ++ [AnalysisCompleted seconds])%list.
Proof.
  unfold finally. destruct (m st) as [r st1]. eexists. reflexivity.
Qed.

(** The handler of [analyze_geospatial_data] logs the error, then the demo
    notice. *)
Lemma handler_log (query satellite_data coordinates analysis_type : pyval) (e : exn)
      (st : State) :
  log (world (snd ((logger (AnalysisError e) ;;
                    generate_demo_analysis query satellite_data coordinates analysis_type)
                     st)))
  = (log (world st) ++ [AnalysisError e; GeneratingDemo])%list.
Proof.
  rewrite (bind_run_ok (logger (AnalysisError e)) _ st _ _ eq_refl).
  rewrite demo_log. cbn [logger external world snd record log].
  rewrite <- !app_assoc. reflexivity.
Qed.

Lemma analyze_log_demo (query satellite_data coordinates analysis_type : pyval) (st : State) :
  demo_mode (processor st) || negb (model_loaded (processor st)) = true ->
  exists seconds,
    log (world (snd (analyze_geospatial_data query satellite_data coordinates
                       analysis_type st)))
    = match demo_area query coordinates with
      | Ok _ => log (world st) ++ [GeneratingDemo; AnalysisCompleted seconds]
      | Raise e =>
          log (world st)
          ++ [GeneratingDemo; AnalysisError e; GeneratingDemo; AnalysisCompleted seconds]
      end%list.
Proof.
  intros Hflag. unfold analyze_geospatial_data.
  rewrite (bind_run_ok time_time _ st (entered st) _ eq_refl).
  match goal with
  | |- context [finally ?m (bind time_time (fun now => logger (AnalysisCompleted (now - ?s))))
                  (entered st)] =>
      destruct (finally_completion_log m s (entered st)) as [seconds ->]
  end.
  exists seconds. unfold try_except.
  rewrite (bind_run_ok self _ (entered st) (entered st) _ eq_refl).
  change (processor (entered st)) with (processor st). rewrite Hflag.
  pose proof (demo_outcome query satellite_data coordinates analysis_type (entered st))
    as Hout.
  pose proof (demo_log query satellite_data coordinates analysis_type (entered st)) as Hlog.
  change (log (world (entered st))) with (log (world st)) in Hlog.
  destruct (generate_demo_analysis query satellite_data coordinates analysis_type
              (entered st)) as [[obj|e] st1]; cbn [snd fst] in Hlog, Hout.
  - destruct (demo_area query coordinates) as [a|e]; [|discriminate Hout].
    cbn [snd]. rewrite Hlog, <- !app_assoc. reflexivity.
  - destruct (demo_area query coordinates) as [a|e'].
    + destruct Hout as (obj & st' & [=] & _).
    + injection Hout as ->. rewrite handler_log, Hlog, <- !app_assoc. reflexivity.
Qed.

Lemma analyze_log_real (query satellite_data coordinates analysis_type : pyval) (st : State) :
  demo_mode (processor st) || negb (model_loaded (processor st)) = false ->
  exists e seconds,
    fst (run_terramind_analysis query satellite_data coordinates analysis_type
           (entered st)) = Raise e /\
    log (world (snd (analyze_geospatial_data query satellite_data coordinates
                       analysis_type st)))
    = (log (world (snd (run_terramind_analysis query satellite_data coordinates
                          analysis_type (entered st))))
       ++ [AnalysisError e; GeneratingDemo; AnalysisCompleted seconds])%list.
Proof.
  intros Hflag. unfold analyze_geospatial_data.
  rewrite (bind_run_ok time_time _ st (entered st) _ eq_refl).
  match goal with
  | |- context [finally ?m (bind time_time (fun now => logger (AnalysisCompleted (now - ?s))))
                  (entered st)] =>
      destruct (finally_completion_log m s (entered st)) as [seconds Hfin]
  end.
  destruct (run_terramind_raises query satellite_data coordinates analysis_type
              (entered st)) as (e & st1 & Hrun).
  exists e, seconds. split; [rewrite Hrun; reflexivity|].
  rewrite Hfin. unfold try_except.
  rewrite (bind_run_ok self _ (entered st) (entered st) _ eq_refl).
  change (processor (entered st)) with (processor st). rewrite Hflag, Hrun.
  rewrite handler_log. cbn [snd]. rewrite <- !app_assoc. reflexivity.
Qed.

Lemma run_log_prompt (query satellite_data coordinates analysis_type : pyval) (e : exn)
      (st : State) :
  build_geospatial_prompt query coordinates analysis_type = Raise e ->
  run_terramind_analysis query satellite_data coordinates analysis_type st
  = (Raise e, snd (logger RunningReal st)).
Proof.
  intros H. unfold run_terramind_analysis.
  rewrite (bind_run_ok (logger RunningReal) _ st _ _ eq_refl), H. reflexivity.
Qed.

(** ** The outcome of an analysis in either mode *)

Lemma post_never {A : Type} (m : M A) (P : A -> Prop) :
  (forall st, exists e st', m st = (Raise e, st')) -> post m P.
Proof. intros H st a st' E. destruct (H st) as (e & st1 & E1). congruence. Qed.

Lemma post_try_except {A : Type} (m : M A) (h : exn -> M A) (P : A -> Prop) :
  post m P -> (forall e, post (h e) P) -> post (try_except m h) P.
Proof.
  intros Hm Hh st a st'. unfold try_except.
  destruct (m st) as [[a1|e] st1] eqn:E.
  - intros [= <- <-]. exact (Hm st a1 st1 E).
  - apply Hh.
Qed.

Lemma post_finally {A : Type} (m : M A) (f : M unit) (P : A -> Prop) :
  post m P -> post (finally m f) P.
Proof.
  intros Hm st a st'. unfold finally.
  destruct (m st) as [r st1] eqn:E. destruct (f st1) as [[u|e] st2]; [|discriminate].
  intros [= -> <-]. exact (Hm st a st1 E).
Qed.

(** Whatever [analyze_geospatial_data] returns, in either mode, is something
    [generate_demo_analysis] returned on the same arguments. *)
Lemma analyze_post (query satellite_data coordinates analysis_type : pyval)
      (P : pyval -> Prop) :
  post (generate_demo_analysis query satellite_data coordinates analysis_type) P ->
  post (analyze_geospatial_data query satellite_data coordinates analysis_type) P.
Proof.
  intros Hdemo. unfold analyze_geospatial_data.
  apply post_bind; intros start_time. apply post_finally. apply post_try_except.
  - apply post_bind; intros p.
    destruct (demo_mode p || negb (model_loaded p)); [exact Hdemo|].
    apply post_never. apply run_terramind_raises.
  - intros e. apply post_bind; intros _. exact Hdemo.
Qed.

(** In either mode the outcome is the one the arguments decide: a demo
    answer, or the exception the demo analysis meets. *)
Lemma analyze_outcome (query satellite_data coordinates analysis_type : pyval)
      (st : State) :
  match demo_area query coordinates with
  | Ok a =>
      exists obj,
        fst (analyze_geospatial_data query satellite_data coordinates analysis_type st)
        = Ok obj /\ demo_answer a obj
  | Raise e =>
      fst (analyze_geospatial_data query satellite_data coordinates analysis_type st)
      = Raise e
  end.
Proof.
  assert (Hsame : exists st1,
    fst (analyze_geospatial_data query satellite_data coordinates analysis_type st)
    = fst (generate_demo_analysis query satellite_data coordinates analysis_type st1)).
  { destruct (demo_mode (processor st) || negb (model_loaded (processor st))) eqn:Hflag.
    - eexists. apply analyze_demo_branch. assumption.
    - apply orb_false_iff in Hflag. destruct Hflag as [Hdemo Hloaded].
      apply negb_false_iff in Hloaded.
      destruct (run_terramind_raises query satellite_data coordinates analysis_type
                  (entered st)) as (e & st1 & Hrun).
      eexists. apply (analyze_fallback _ _ _ _ st st1 e); assumption. }
  destruct Hsame as [st1 ->].
  pose proof (demo_outcome query satellite_data coordinates analysis_type st1) as H.
  destruct (demo_area query coordinates) as [a|e]; [|exact H].
  destruct H as (obj & st' & -> & Hans). exists obj. split; [reflexivity|assumption].
Qed.

Lemma demo_echoes (query satellite_data coordinates analysis_type : pyval) :
  post (generate_demo_analysis query satellite_data coordinates analysis_type)
       (echoes query coordinates analysis_type).
Proof.
  unfold generate_demo_analysis.
  do 8 (apply post_bind; intro).
  destruct (generate_geospatial_insights query analysis_type) as [l|e] eqn:E.
  - rewrite bind_lift_ok. do 3 (apply post_bind; intro). apply post_ret.
    unfold echoes. rewrite E. cbn. repeat split. exists l. split; reflexivity.
  - rewrite bind_lift_raise. intros st obj st'. discriminate.
Qed.

(** The sections of a demo answer, against the formats /capabilities
    names. *)
Lemma demo_sections (query satellite_data coordinates analysis_type : pyval) :
  post (generate_demo_analysis query satellite_data coordinates analysis_type)
       (fun obj =>
          exists analysis,
            field "analysis" obj = Some analysis /\
            map (has_field analysis)
                [ "land_use_classification"; "vegetation_health"; "change_detection"
                ; "environmental_assessment"; "risk_analysis"; "risk_factors" ]
            = [true; true; true; true; false; true]).
Proof.
  unfold generate_demo_analysis. post_steps.
  eexists. split; reflexivity.
Qed.

(** ** Arguments that are never read *)

Lemma satellite_data_unused (query sat1 sat2 coordinates analysis_type : pyval) :
  analyze_geospatial_data query sat1 coordinates analysis_type
  = analyze_geospatial_data query sat2 coordinates analysis_type.
Proof. reflexivity. Qed.

Lemma alike_bind {A : Type} (Q : pyval -> pyval -> Prop) (m : M A) (k1 k2 : A -> M pyval) :
  (forall a st, alike Q (k1 a st) (k2 a st)) ->
  forall st, alike Q (bind m k1 st) (bind m k2 st).
Proof.
  intros Hk st. unfold bind. destruct (m st) as [[a|e] st1]; [apply Hk|].
  split; reflexivity.
Qed.

Lemma demo_type_unused (query satellite_data coordinates type1 type2 : pyval) (st : State) :
  alike same_but_type
    (generate_demo_analysis query satellite_data coordinates type1 st)
    (generate_demo_analysis query satellite_data coordinates type2 st).
Proof.
  unfold generate_demo_analysis.
  do 12 (apply alike_bind; intro). intros st'.
  split; [reflexivity|]. cbn [fst ret]. split.
  - intros k Hk. cbn [field lookup].
    repeat match goal with
      | |- context [String.eqb k ?s] =>
          destruct (String.eqb_spec k s); [try reflexivity; congruence|]
      end.
    reflexivity.
  - intros k Hk. cbn [path field lookup String.eqb Ascii.eqb Bool.eqb].
    repeat match goal with
      | |- context [String.eqb k ?s] =>
          destruct (String.eqb_spec k s); [try reflexivity; congruence|]
      end.
    reflexivity.
Qed.

(** ** The endpoint, case by case *)

Lemma endpoint_raise (e : exn) (st : State) :
  fst (analyze_geospatial (Raise e) st) = Ok (failure e, 500).
Proof. reflexivity. Qed.

Lemma endpoint_not_dict (data : pyval) (st : State) :
  truthy data = true -> (forall d, data <> PDict d) ->
  fst (analyze_geospatial (Ok data) st) = Ok (failure AttributeError, 500).
Proof.
  intros Ht Hd. unfold analyze_geospatial, analyze_geospatial_body, try_except.
  rewrite bind_lift_ok, Ht. cbn [negb].
  destruct data as [ |b|z|f|s|l|d]; try reflexivity. elim (Hd d). reflexivity.
Qed.

Lemma demo_area_query (query coordinates : pyval) (a : area) :
  demo_area query coordinates = Ok a -> exists s, query = PStr s.
Proof.
  unfold demo_area.
  destruct (py_get coordinates "lat" (PInt 0)); cbn [rbind]; [|discriminate].
  destruct (py_get coordinates "lng" (PInt 0)); cbn [rbind]; [|discriminate].
  destruct (area_class _ _); cbn [rbind]; [|discriminate].
  destruct query; cbn [py_lower rbind]; try discriminate. eauto.
Qed.

Lemma demo_area_no_coordinates (s : string) : demo_area (PStr s) (PDict []) = Ok Rural.
Proof.
  rewrite demo_area_dict.
  destruct (area_class_in_range (coordinate [] "lat") (coordinate [] "lng"))
    as [a Ha]; try reflexivity.
  rewrite Ha. rewrite (area_class_zero _ _ a (or_introl eq_refl) Ha). reflexivity.
Qed.

(** A request whose body is a non-empty object: 200 with a demo answer that
    echoes the request, or 500, as the query and the coordinates decide. *)
Lemma endpoint_dict (d : list (string * pyval)) (st : State) :
  truthy (PDict d) = true ->
  let query := body_get d "query" (PStr "") in
  let coordinates := body_get d "coordinates" (PDict []) in
  let analysis_type := body_get d "analysis_type" (PStr "general") in
  match demo_area query coordinates with
  | Ok a =>
      exists obj,
        fst (analyze_geospatial (Ok (PDict d)) st) = Ok (obj, 200) /\
        demo_answer a obj /\ echoes query coordinates analysis_type obj
  | Raise _ =>
      exists e, fst (analyze_geospatial (Ok (PDict d)) st) = Ok (failure e, 500)
  end.
Proof.
  intros Ht query coordinates analysis_type.
  unfold analyze_geospatial, analyze_geospatial_body, try_except.
  rewrite bind_lift_ok, Ht. cbn [negb py_get]. rewrite !bind_lift_ok.
  fold (body_get d "query" (PStr "")). fold query.
  fold (body_get d "satellite_data" (PDict [])).
  fold (body_get d "coordinates" (PDict [])). fold coordinates.
  fold (body_get d "analysis_type" (PStr "general")). fold analysis_type.
  set (satellite_data := body_get d "satellite_data" (PDict [])).
  destruct (py_slice_to 50 query) as [query_head|e] eqn:Eslice.
  - rewrite bind_lift_ok.
    rewrite (bind_run_ok (logger (AnalysisRequest query_head)) _ st _ _ eq_refl).
    unfold bind.
    match goal with
    | |- context [analyze_geospatial_data _ _ _ _ ?s] => set (st1 := s)
    end.
    pose proof (analyze_outcome query satellite_data coordinates analysis_type st1) as Hout.
    pose proof (analyze_post query satellite_data coordinates analysis_type _
                  (demo_echoes query satellite_data coordinates analysis_type) st1)
      as Hecho.
    destruct (analyze_geospatial_data query satellite_data coordinates analysis_type st1)
      as [[obj|e] st2].
    + destruct (demo_area query coordinates) as [a|e]; [|discriminate Hout].
      destruct Hout as (obj' & [= <-] & Hans).
      exists obj. split; [reflexivity|]. split; [assumption|].
      exact (Hecho obj st2 eq_refl).
    + destruct (demo_area query coordinates) as [a|e'].
      * destruct Hout as (obj' & Hobj & _). discriminate Hobj.
      * exists e. reflexivity.
  - rewrite bind_lift_raise.
    destruct (demo_area query coordinates) as [a|e'] eqn:Ea.
    + destruct (demo_area_query _ _ _ Ea) as [s Hs]. rewrite Hs in Eslice. discriminate.
    + exists e. reflexivity.
Qed.

(** ** Startup *)

(** What [__init__] does, by what the environment and transformers do. *)
Lemma init_outcome (getenv : option string) (st : State) :
  exists st',
    __init__ getenv st = (Ok tt, st') /\
    model_name (processor st') = "ibm-esa-geospatial/TerraMind-1.0-large" /\
    model_loaded (processor st') = negb (demo_mode (processor st')) /\
    (lower (match getenv with Some v => v | None => "true" end) = "true" ->
     demo_mode (processor st') = true /\
     world st' = record DemoModeNotice (world st)) /\
    (demo_mode (processor st') = true ->
     exists l, log (world st') = (l ++ [DemoModeNotice])%list).
Proof.
  unfold __init__.
  rewrite (bind_run_ok (set_model_name _) _ st _ _ eq_refl).
  rewrite (bind_run_ok (set_model_loaded _) _ _ _ _ eq_refl).
  rewrite (bind_run_ok (set_demo_mode _) _ _ _ _ eq_refl).
  rewrite (bind_run_ok self _ _ _ _ eq_refl).
  cbn [processor demo_mode model_name model_loaded world].
  destruct (String.eqb_spec (lower match getenv with Some v => v | None => "true" end) "true")
    as [Heq|Hne].
  - cbn [negb]. rewrite (bind_run_ok (ret tt) _ _ _ _ eq_refl).
    rewrite (bind_run_ok self _ _ _ _ eq_refl). cbn.
    eexists. split; [reflexivity|]. cbn. repeat split. eexists. reflexivity.
  - cbn [negb]. unfold try_except, bind, external, logger, set_model_loaded,
      set_demo_mode, self, ret. cbn.
    destruct (import_transformers (world st)) as [[u|e] w1]; cbn;
      [|eexists; split; [reflexivity|]; cbn; repeat split;
        try contradiction; eexists; reflexivity].
    destruct (from_pretrained _ _) as [[u1|e1] w2]; cbn;
      [|eexists; split; [reflexivity|]; cbn; repeat split;
        try contradiction; eexists; reflexivity].
    destruct (from_pretrained _ _) as [[u2|e2] w3]; cbn;
      [|eexists; split; [reflexivity|]; cbn; repeat split;
        try contradiction; eexists; reflexivity].
    eexists. split; [destruct u2; reflexivity|]. cbn. repeat split;
      try contradiction; discriminate.
Qed.

(** ** The prompt of the real path *)

Lemma py_format_value_ok (spec : string) (v : pyval) (text : string) :
  py_format_value spec v = Ok text <->
  exists x, as_float v = Ok x /\ text = py_format spec x.
Proof.
  destruct v as [ |b|z|f|s|l|d]; cbn [py_format_value as_float rbind];
    try (split; [discriminate|intros (x & [=] & _)]);
    try (split; [intros [= <-]; eexists; split; reflexivity
                |intros (x & [= <-] & ->); reflexivity]).
  destruct (float_of_int z) as [x|e]; cbn [rbind].
  - split; [intros [= <-]; eexists; split; reflexivity
           |intros (x' & [= <-] & ->); reflexivity].
  - split; [discriminate|intros (x & [=] & _)].
Qed.

(** ** The properties *)

(** X1: [run_terramind_analysis] never returns, whatever its arguments, the
    state and the tokenizer: it raises the exception of the prompt when the
    prompt cannot be built, and otherwise, once the tokenizer has returned,
    [AttributeError] for the method [process_satellite_modalities] the class
    does not define. *)
Theorem real_path_never_returns (query satellite_data coordinates analysis_type : pyval)
        (st : State) :
  let outcome := fst (run_terramind_analysis query satellite_data coordinates
                        analysis_type st) in
  (exists e, outcome = Raise e) /\
  (forall e, build_geospatial_prompt query coordinates analysis_type = Raise e ->
             outcome = Raise e) /\
  (forall text w,
     build_geospatial_prompt query coordinates analysis_type = Ok text ->
     tokenizer text (record RunningReal (world st)) = (Ok tt, w) ->
     outcome = Raise AttributeError).
Proof.
  cbv zeta. split; [|split].
  - destruct (run_terramind_raises query satellite_data coordinates analysis_type st)
      as (e & st' & ->). exists e. reflexivity.
  - intros e H. rewrite (run_log_prompt _ _ _ _ e st H). reflexivity.
  - intros text w H Htok. unfold run_terramind_analysis.
    rewrite (bind_run_ok (logger RunningReal) _ st _ _ eq_refl), H.
    rewrite bind_lift_ok. unfold bind, external, raise. cbn [world logger external snd].
    rewrite Htok. reflexivity.
Qed.

(** X2: in every state of the processor, production mode included, what
    [analyze_geospatial_data] returns is a demo answer (success true, mode
    "demo", the fields of the schema, class and risks of the area of the
    coordinates), and what it raises is the exception the arguments cause
    in the demo analysis. *)
Theorem answers_are_demo_in_every_mode
        (query satellite_data coordinates analysis_type : pyval) (st : State) :
  match fst (analyze_geospatial_data query satellite_data coordinates analysis_type st) with
  | Ok obj =>
      demo_schema obj = true /\
      field "success" obj = Some (PBool true) /\
      field "mode" obj = Some (PStr "demo") /\
      exists a,
        demo_area query coordinates = Ok a /\
        path ["analysis"; "land_use_classification"; "primary_class"] obj
        = Some (PStr (class_name a)) /\
        path ["analysis"; "risk_factors"] obj = Some (PList (risks_of a))
  | Raise e => demo_area query coordinates = Raise e
  end.
Proof.
  pose proof (analyze_outcome query satellite_data coordinates analysis_type st) as H.
  destruct (demo_area query coordinates) as [a|e].
  - destruct H as (obj & -> & Hschema & Hsuccess & Hmodel & Hmode & Hcls & Hrisk).
    repeat (split; [assumption|]). exists a. repeat split; assumption.
  - rewrite H. reflexivity.
Qed.

(** X3: what [analyze_geospatial_data] adds to the log.  With the demo flag
    set or no model loaded: the demo notice and the completion time, and,
    when the demo analysis raises, the error and a second demo notice in
    between, the analysis being run again by the handler.  Otherwise the
    log always ends with an analysis error, the demo notice and the
    completion time; when the prompt cannot be built nothing else but
    [RunningReal] comes before them. *)
Theorem analysis_log_trace (query satellite_data coordinates analysis_type : pyval)
        (st : State) :
  let after := log (world (snd (analyze_geospatial_data query satellite_data coordinates
                                  analysis_type st))) in
  let before := log (world st) in
  if demo_mode (processor st) || negb (model_loaded (processor st)) then
    exists seconds,
      after = match demo_area query coordinates with
              | Ok _ => before ++ [GeneratingDemo; AnalysisCompleted seconds]
              | Raise e =>
                  before ++ [ GeneratingDemo; AnalysisError e; GeneratingDemo
                            ; AnalysisCompleted seconds ]
              end%list
  else
    (exists earlier e seconds,
       after = (earlier ++ [AnalysisError e; GeneratingDemo; AnalysisCompleted seconds])%list)
    /\
    (forall e,
       build_geospatial_prompt query coordinates analysis_type = Raise e ->
       exists seconds,
         after = (before ++ [ RunningReal; AnalysisError e; GeneratingDemo
                            ; AnalysisCompleted seconds ])%list).
Proof.
  cbv zeta.
  destruct (demo_mode (processor st) || negb (model_loaded (processor st))) eqn:Hflag.
  - apply analyze_log_demo. assumption.
  - destruct (analyze_log_real query satellite_data coordinates analysis_type st Hflag)
      as (e & seconds & Hrun & Hlog).
    split; [eexists; exists e, seconds; exact Hlog|].
    intros e' Hprompt. exists seconds. rewrite Hlog.
    rewrite (run_log_prompt _ _ _ _ e' (entered st) Hprompt) in Hrun |- *.
    injection Hrun as <-. cbn [snd logger external world record log entered time_time next].
    rewrite <- !app_assoc. reflexivity.
Qed.

(** X4: [__init__] never raises, whatever transformers does.  It leaves
    the model name set and [model_loaded] the negation of [demo_mode]; with
    TERRAMIND_DEMO_MODE unset, or set to "true" in any letter case, the
    processor is in demo mode and nothing but the demo notice has happened
    to the world; and whenever it ends in demo mode the notice is the last
    entry of the log. *)
Theorem startup_never_fails (getenv : option string) (st : State) :
  exists st',
    __init__ getenv st = (Ok tt, st') /\
    model_name (processor st') = "ibm-esa-geospatial/TerraMind-1.0-large" /\
    model_loaded (processor st') = negb (demo_mode (processor st')) /\
    (getenv = None \/ (exists v, getenv = Some v /\ lower v = "true") ->
     demo_mode (processor st') = true /\
     world st' = record DemoModeNotice (world st)) /\
    (demo_mode (processor st') = true ->
     exists earlier, log (world st') = (earlier ++ [DemoModeNotice])%list).
Proof.
  destruct (init_outcome getenv st) as (st' & Hrun & Hname & Hloaded & Hreq & Hlog).
  exists st'. repeat (split; [assumption|]). split; [|assumption].
  intros [->|(v & -> & Hv)]; apply Hreq; [reflexivity|assumption].
Qed.

(** X5: the /analyze handler always answers, with status 200, 400 or 500:
    400 exactly when the JSON body is falsy; 200 exactly when the body is a
    non-empty object whose query (default "") is a string and whose
    coordinates (default {}) let the demo analysis find an area; 500
    otherwise.  The flags of the processor play no part. *)
Theorem endpoint_status (get_json : result pyval) (st : State) :
  exists body status,
    fst (analyze_geospatial get_json st) = Ok (body, status) /\
    (status = 200 \/ status = 400 \/ status = 500) /\
    (status = 400 <-> exists data, get_json = Ok data /\ truthy data = false) /\
    (status = 200 <->
     exists d a,
       get_json = Ok (PDict d) /\ d <> [] /\
       demo_area (body_get d "query" (PStr "")) (body_get d "coordinates" (PDict []))
       = Ok a).
Proof.
  destruct get_json as [data|e].
  - destruct (truthy data) eqn:Ht.
    + assert (Hnot400 : ~ exists data', Ok data = Ok data' /\ truthy data' = false)
        by (intros (data' & [= <-] & H); congruence).
      destruct data as [ |b|z|f|s|l|d];
        try (rewrite endpoint_not_dict by (assumption || discriminate);
             eexists; eexists; split; [reflexivity|];
             split; [auto|]; split; (split; [discriminate|]);
             [intros H; elim (Hnot400 H)|intros (d & a & [=] & _)]).
      pose proof (endpoint_dict d st Ht) as H. cbv zeta in H.
      destruct (demo_area _ _) as [a|e] eqn:Ea.
      * destruct H as (obj & -> & _). eexists. eexists. split; [reflexivity|].
        split; [auto|]. split; (split; [try discriminate|]).
        -- intros H; elim (Hnot400 H).
        -- intros _. exists d, a. split; [reflexivity|]. split; [|assumption].
           intros ->. discriminate Ht.
        -- reflexivity.
      * destruct H as (e' & ->). eexists. eexists. split; [reflexivity|].
        split; [auto|]. split; (split; [discriminate|]).
        -- intros H; elim (Hnot400 H).
        -- intros (d' & a & [= <-] & _ & Ha). congruence.
    + rewrite endpoint_no_data by assumption. eexists. eexists. split; [reflexivity|].
      split; [auto|]. split; split; try discriminate.
      * intros _. exists data. split; [reflexivity|assumption].
      * reflexivity.
      * intros (d & a & [= ->] & Hd & _). destruct d; [congruence|discriminate].
  - rewrite endpoint_raise. eexists. eexists. split; [reflexivity|].
    split; [auto|]. split; (split; [discriminate|]).
    + intros (data & [=] & _).
    + intros (d & a & [=] & _).
Qed.

(** X6: a request whose body is a non-empty object without 'coordinates',
    and whose query is a string or absent, is answered 200 in every state:
    the class is "agricultural", the risks are the rural list, the metadata
    echo the default coordinates {}; a missing analysis type is echoed as
    "general", and a missing query gets the general insights. *)
Theorem endpoint_defaults (d : list (string * pyval)) (st : State) :
  truthy (PDict d) = true ->
  lookup "coordinates" d = None ->
  match lookup "query" d with Some (PStr _) | None => true | Some _ => false end = true ->
  exists body,
    fst (analyze_geospatial (Ok (PDict d)) st) = Ok (body, 200) /\
    path ["analysis"; "land_use_classification"; "primary_class"] body
    = Some (PStr "agricultural") /\
    path ["analysis"; "risk_factors"] body = Some (PList rural_risks) /\
    path ["metadata"; "coordinates"] body = Some (PDict []) /\
    (lookup "analysis_type" d = None ->
     path ["metadata"; "analysis_type"] body = Some (PStr "general")) /\
    (lookup "query" d = None ->
     path ["analysis"; "geospatial_insights"] body = Some (strs general_insights)).
Proof.
  intros Ht Hc Hq. pose proof (endpoint_dict d st Ht) as H. cbv zeta in H.
  unfold body_get in H. rewrite Hc in H.
  assert (Hs : exists s, match lookup "query" d with Some v => v | None => PStr "" end
                         = PStr s /\ (lookup "query" d = None -> s = "")).
  { destruct (lookup "query" d) as [[ |b|z|f|s|l|d']|]; try discriminate.
    - exists s. split; [reflexivity|discriminate].
    - exists "". split; reflexivity. }
  destruct Hs as (s & Hs & Hempty). rewrite Hs in H.
  rewrite demo_area_no_coordinates in H.
  destruct H as (body & Hrun & Hans & Hcoord & Htype & l & Hl & Hins).
  exists body. split; [assumption|].
  destruct Hans as (_ & _ & _ & _ & Hcls & Hrisk).
  repeat (split; [assumption|]). split.
  - intros Hnone. rewrite Hnone in Htype. exact Htype.
  - intros Hnone. rewrite (Hempty Hnone), insights_str in Hl.
    injection Hl as <-. exact Hins.
Qed.

(** X7: a request with a string query and coordinates that are an object
    whose 'lat' and 'lng' (0 when absent) are numbers below [2^480] in
    absolute value is answered 200 with success true, in every state. *)
Theorem endpoint_answers_numbers (d c : list (string * pyval)) (s : string) (st : State) :
  lookup "query" d = Some (PStr s) ->
  lookup "coordinates" d = Some (PDict c) ->
  in_range (coordinate c "lat") = true -> in_range (coordinate c "lng") = true ->
  exists body,
    fst (analyze_geospatial (Ok (PDict d)) st) = Ok (body, 200) /\
    field "success" body = Some (PBool true).
Proof.
  intros Hq Hc Hlat Hlng.
  assert (Ht : truthy (PDict d) = true) by (destruct d; [discriminate|reflexivity]).
  pose proof (endpoint_dict d st Ht) as H. cbv zeta in H.
  unfold body_get in H. rewrite Hq, Hc, demo_area_dict in H.
  destruct (area_class_in_range _ _ Hlat Hlng) as [a Ea]. rewrite Ea in H.
  cbn [rbind py_lower] in H.
  destruct H as (body & Hrun & Hans & _). exists body. split; [assumption|].
  apply Hans.
Qed.

(** X8: a 200 answer of /analyze has success true and mode "demo", and
    echoes the request: its metadata hold the coordinates and the analysis
    type of the body as they came (or the defaults {} and "general"), and
    its insights are those of the query. *)
Theorem endpoint_echoes_request (d : list (string * pyval)) (st : State) :
  truthy (PDict d) = true ->
  exists body status,
    fst (analyze_geospatial (Ok (PDict d)) st) = Ok (body, status) /\
    (status = 200 ->
     field "success" body = Some (PBool true) /\
     field "mode" body = Some (PStr "demo") /\
     path ["metadata"; "coordinates"] body = Some (body_get d "coordinates" (PDict [])) /\
     path ["metadata"; "analysis_type"] body
     = Some (body_get d "analysis_type" (PStr "general")) /\
     exists l,
       generate_geospatial_insights (body_get d "query" (PStr ""))
         (body_get d "analysis_type" (PStr "general")) = Ok l /\
       path ["analysis"; "geospatial_insights"] body = Some (strs l)).
Proof.
  intros Ht. pose proof (endpoint_dict d st Ht) as H. cbv zeta in H.
  destruct (demo_area _ _) as [a|e] eqn:Ea.
  - destruct H as (body & Hrun & Hans & Hcoord & Htype & l & Hl & Hins).
    exists body, 200. split; [assumption|]. intros _.
    destruct Hans as (_ & Hsuccess & _ & Hmode & _).
    repeat (split; [assumption|]). exists l. split; assumption.
  - destruct H as (e' & ->). eexists. eexists. split; [reflexivity|]. discriminate.
Qed.

(** X9: 'satellite_data' is never read: two non-empty bodies with the same
    query, coordinates and analysis type get the same answer and leave the
    same state, whatever else they hold. *)
Theorem satellite_data_ignored (d1 d2 : list (string * pyval)) (st : State) :
  truthy (PDict d1) = true -> truthy (PDict d2) = true ->
  lookup "query" d1 = lookup "query" d2 ->
  lookup "coordinates" d1 = lookup "coordinates" d2 ->
  lookup "analysis_type" d1 = lookup "analysis_type" d2 ->
  analyze_geospatial (Ok (PDict d1)) st = analyze_geospatial (Ok (PDict d2)) st.
Proof.
  intros Ht1 Ht2 Hq Hc Ha.
  unfold analyze_geospatial, analyze_geospatial_body.
  rewrite !bind_lift_ok, Ht1, Ht2. cbn [negb py_get]. rewrite !bind_lift_ok.
  rewrite Hq, Hc, Ha.
  rewrite (satellite_data_unused _
             (match lookup "satellite_data" d1 with Some x => x | None => PDict [] end)
             (match lookup "satellite_data" d2 with Some x => x | None => PDict [] end)).
  reflexivity.
Qed.

(** X10: the analysis type changes nothing in a demo analysis but the copy
    of it in the metadata: run in the same state with two analysis types,
    [generate_demo_analysis] ends in the same state, raises the same
    exception or returns two objects with the same analysis (and the same
    fields but for metadata.analysis_type, which is the argument itself). *)
Theorem analysis_type_only_echoed
        (query satellite_data coordinates type1 type2 : pyval) (st : State) :
  let run1 := generate_demo_analysis query satellite_data coordinates type1 st in
  let run2 := generate_demo_analysis query satellite_data coordinates type2 st in
  snd run1 = snd run2 /\
  match fst run1, fst run2 with
  | Ok obj1, Ok obj2 =>
      field "analysis" obj1 = field "analysis" obj2 /\
      (forall k, k <> "metadata" -> field k obj1 = field k obj2) /\
      (forall k, k <> "analysis_type" ->
                 path ["metadata"; k] obj1 = path ["metadata"; k] obj2) /\
      path ["metadata"; "analysis_type"] obj1 = Some type1 /\
      path ["metadata"; "analysis_type"] obj2 = Some type2
  | Raise e1, Raise e2 => e1 = e2
  | _, _ => False
  end.
Proof.
  cbv zeta.
  pose proof (demo_type_unused query satellite_data coordinates type1 type2 st) as [Hst H].
  split; [assumption|].
  pose proof (demo_echoes query satellite_data coordinates type1 st) as H1.
  pose proof (demo_echoes query satellite_data coordinates type2 st) as H2.
  destruct (generate_demo_analysis query satellite_data coordinates type1 st)
    as [[obj1|e1] st1];
    destruct (generate_demo_analysis query satellite_data coordinates type2 st)
      as [[obj2|e2] st2]; cbn [fst] in *; try assumption.
  destruct H as [Hfields Hmeta].
  split; [apply Hfields; discriminate|]. split; [assumption|]. split; [assumption|].
  split; [apply (H1 obj1 st1 eq_refl)|apply (H2 obj2 st2 eq_refl)].
Qed.

(** X11: [generate_geospatial_insights] raises [AttributeError] on a query
    that is no string; on a string it returns three sentences, the same for
    every analysis type and for the query in lower case. *)
Theorem insights_shape (query type1 type2 : pyval) :
  match query with
  | PStr s =>
      exists l,
        generate_geospatial_insights query type1 = Ok l /\ length l = 3%nat /\
        generate_geospatial_insights (PStr (lower s)) type2 = Ok l
  | _ => generate_geospatial_insights query type1 = Raise AttributeError
  end.
Proof.
  destruct query as [ |b|z|f|s|l|d]; try reflexivity.
  rewrite !insights_str, lower_idem. eexists. split; [reflexivity|]. split; [|reflexivity].
  destruct (contains "fishing" (lower s)); [reflexivity|].
  destruct (contains "water" (lower s)); [reflexivity|].
  destruct (contains "development" (lower s)); reflexivity.
Qed.

(** X12: which insights a query gets: the fishing list exactly when
    "fishing" is a substring of the query in lower case; the water list when
    "water" is and "fishing" is not; the development list when "development"
    is and neither of the two; the general list when none is. *)
Theorem insights_keywords (s : string) (analysis_type : pyval) :
  let q := lower s in
  let answer := generate_geospatial_insights (PStr s) analysis_type in
  (answer = Ok fishing_insights <-> occurs "fishing" q) /\
  (answer = Ok water_insights <-> ~ occurs "fishing" q /\ occurs "water" q) /\
  (answer = Ok development_insights <->
   ~ occurs "fishing" q /\ ~ occurs "water" q /\ occurs "development" q) /\
  (answer = Ok general_insights <->
   ~ occurs "fishing" q /\ ~ occurs "water" q /\ ~ occurs "development" q).
Proof.
  cbv zeta. rewrite insights_str, <- !contains_occurs.
  destruct (contains "fishing" (lower s));
    [|destruct (contains "water" (lower s));
      [|destruct (contains "development" (lower s))]];
    repeat split; try discriminate; try reflexivity; try congruence;
    intros H; decompose [and] H; congruence.
Qed.

(** X13: the classification is "coastal_mixed" exactly for numbers within
    15 km of the Pondicherry center and outside the four urban radii, each
    distance being the one Python computes ([python_within], with libm's
    [pow]): the Chennai and Mumbai entries of the coastal list never
    decide, their circles lying inside the urban ones of the same
    centers. *)
Theorem coastal_only_near_pondicherry (lat lng analysis_type : pyval) (st : State) :
  primary_class_of (fst (simulate_land_use_classification lat lng analysis_type st))
  = Ok (Some (PStr "coastal_mixed")) <->
  exists x y,
    as_float lat = Ok x /\ as_float lng = Ok y /\
    python_within x y (11.9416%float, 79.8083%float, 15) = true /\
    existsb (python_within x y) urban_centers = false.
Proof.
  rewrite land_use_primary_class. split.
  - unfold area_class.
    destruct (is_urban_area lat lng) as [[]|e] eqn:Hu; cbn [rbind]; try discriminate;
      destruct (is_coastal_area lat lng) as [[]|e] eqn:Hc; cbn [rbind]; try discriminate.
    intros _. destruct (coastal_not_urban lat lng Hu Hc) as (x & y & Hx & Hy & Hp).
    exists x, y. repeat (split; [assumption|]).
    symmetry. exact (within_any_spec lat lng x y urban_centers Hx Hy false Hu).
  - intros (x & y & Hx & Hy & Hp & Hu).
    assert (Hcx : abs_lt_pow2 7 (Prim2SF 11.9416) = true) by (vm_compute; reflexivity).
    assert (Hcy : abs_lt_pow2 7 (Prim2SF 79.8083) = true) by (vm_compute; reflexivity).
    assert (Hr : abs_lt_pow2 6 (Prim2SF (float_of_Z 15)) = true)
      by (vm_compute; reflexivity).
    destruct (python_within_small x y _ _ _ Hcx Hcy Hr Hp) as [Sx Sy].
    assert (Bx : abs_lt_pow2 480 (Prim2SF x) = true)
      by (apply (abs_lt_pow2_mono 8); [lia|assumption]).
    assert (By : abs_lt_pow2 480 (Prim2SF y) = true)
      by (apply (abs_lt_pow2_mono 8); [lia|assumption]).
    unfold area_class, is_urban_area, is_coastal_area.
    rewrite (within_any_small lat lng x y urban_centers Hx Hy Bx By centers_ok_urban).
    rewrite (within_any_small lat lng x y coastal_regions Hx Hy Bx By centers_ok_coastal).
    rewrite Hu. cbn [rbind].
    assert (Hc : existsb (python_within x y) coastal_regions = true).
    { apply existsb_exists. eexists. split; [|exact Hp]. simpl. auto. }
    rewrite Hc. reflexivity.
Qed.

(** X14: [categorize_vegetation_health] is monotone: a larger NDVI never
    gets a worse category, in the order very_poor, poor, moderate, good,
    excellent. *)
Theorem categorize_monotone (ndvi1 ndvi2 : float) :
  (ndvi1 <=? ndvi2)%float = true ->
  (health_rank (categorize_vegetation_health ndvi1)
   <= health_rank (categorize_vegetation_health ndvi2))%nat.
Proof.
  intros Hle.
  assert (Hup : forall c : float, (c <? ndvi1)%float = true -> (c <? ndvi2)%float = true)
    by (intros c Hc; apply (ltb_leb_trans c ndvi1 ndvi2); assumption).
  unfold categorize_vegetation_health.
  destruct (0.7 <? ndvi1)%float eqn:E7; [rewrite (Hup _ E7); apply Nat.le_refl|].
  destruct (0.5 <? ndvi1)%float eqn:E5;
    [rewrite (Hup _ E5); destruct (0.7 <? ndvi2)%float; vm_compute; lia|].
  destruct (0.3 <? ndvi1)%float eqn:E3;
    [rewrite (Hup _ E3); destruct (0.7 <? ndvi2)%float, (0.5 <? ndvi2)%float;
     vm_compute; lia|].
  destruct (0.1 <? ndvi1)%float eqn:E1;
    [rewrite (Hup _ E1);
     destruct (0.7 <? ndvi2)%float, (0.5 <? ndvi2)%float, (0.3 <? ndvi2)%float;
     vm_compute; lia|].
  change (health_rank "very_poor") with 0%nat. apply Nat.le_0_l.
Qed.

(** X15: the fields of a vegetation report agree with each other, whatever
    the sample: with drought stress "low" the category is "good" or
    "excellent" and the recommendations are the third list; with the first
    list of recommendations the category is "poor" or "very_poor" and the
    drought stress "moderate". *)
Theorem vegetation_fields_consistent (satellite_data analysis_type : pyval) (st : State) :
  exists obj st',
    simulate_vegetation_health_analysis satellite_data analysis_type st = (Ok obj, st') /\
    (path ["stress_indicators"; "drought_stress"] obj = Some (PStr "low") ->
     (field "health_category" obj = Some (PStr "good") \/
      field "health_category" obj = Some (PStr "excellent")) /\
     field "recommendations" obj
     = Some (strs [ "Excellent vegetation health detected"
                  ; "Continue current conservation practices"
                  ; "Consider this area for biodiversity studies" ])) /\
    (field "recommendations" obj
     = Some (strs [ "Consider soil health improvement programs"
                  ; "Implement water conservation measures"
                  ; "Monitor for pest and disease pressure" ]) ->
     (field "health_category" obj = Some (PStr "poor") \/
      field "health_category" obj = Some (PStr "very_poor")) /\
     path ["stress_indicators"; "drought_stress"] obj = Some (PStr "moderate")).
Proof.
  eexists. eexists. split; [reflexivity|].
  set (ndvi := uniform_at (world st) (tick (world st))).
  cbn [path field lookup String.eqb Ascii.eqb Bool.eqb]. split.
  - intros [= Hlow].
    destruct (vegetation_low_stress ndvi analysis_type Hlow) as [Hcat ->].
    split; [|reflexivity].
    destruct Hcat as [<-|[<-|[]]]; auto.
  - intros [= Hrec]. apply (f_equal (map (fun v => match v with PStr s => s | _ => "" end)))
      in Hrec. rewrite map_map, map_id in Hrec. cbn [map] in Hrec.
    pose proof (vegetation_first_list ndvi analysis_type Hrec) as Hcat.
    assert (Hin : In (categorize_vegetation_health ndvi) ["poor"; "very_poor"; "moderate"])
      by (simpl in *; tauto).
    rewrite (vegetation_poor_stress ndvi Hin). split; [|reflexivity].
    destruct Hcat as [<-|[<-|[]]]; auto.
Qed.

(** X16: after [__init__], whatever the environment and transformers did,
    /health answers 200 with status "healthy" and either mode "demo" with
    model_loaded false or mode "production" with model_loaded true; with
    TERRAMIND_DEMO_MODE unset the mode is "demo".  It leaves the processor
    as it is. *)
Theorem health_after_startup (getenv : option string) (st0 : State) :
  let st := snd (__init__ getenv st0) in
  exists body st',
    health_check st = (Ok (body, 200), st') /\
    processor st' = processor st /\
    field "status" body = Some (PStr "healthy") /\
    (field "mode" body = Some (PStr "demo") /\
     field "model_loaded" body = Some (PBool false) \/
     field "mode" body = Some (PStr "production") /\
     field "model_loaded" body = Some (PBool true)) /\
    (getenv = None -> field "mode" body = Some (PStr "demo")).
Proof.
  cbv zeta. destruct (init_outcome getenv st0) as (st & -> & _ & Hloaded & Hreq & _).
  cbn [snd]. eexists. eexists. split; [reflexivity|]. split; [reflexivity|].
  cbn [field lookup String.eqb Ascii.eqb Bool.eqb processor self fst snd].
  split; [reflexivity|]. rewrite Hloaded. split.
  - destruct (demo_mode (processor st)); [left|right]; split; reflexivity.
  - intros ->. destruct (Hreq eq_refl) as [-> _]. reflexivity.
Qed.

(** X17: serving a request on /analyze changes nothing of what /health
    reports but the timestamp: status, model, mode and model_loaded are the
    same before and after, and the status code is 200 both times. *)
Theorem health_unchanged_by_requests (get_json : result pyval) (st : State) :
  let st' := snd (analyze_geospatial get_json st) in
  exists body body',
    fst (health_check st) = Ok (body, 200) /\
    fst (health_check st') = Ok (body', 200) /\
    map (fun k => field k body') ["status"; "model"; "mode"; "model_loaded"]
    = map (fun k => field k body) ["status"; "model"; "mode"; "model_loaded"].
Proof.
  cbv zeta. eexists. eexists. split; [reflexivity|]. split; [reflexivity|].
  cbn [map field lookup String.eqb Ascii.eqb Bool.eqb fst snd self].
  rewrite (endpoint_keeps get_json st). reflexivity.
Qed.

(** X18: [build_geospatial_prompt] returns exactly when the coordinates are
    an object holding both 'lat' and 'lng' as numbers, and then the text is
    the fifteen lines of the template, with the query, both coordinates
    formatted by ".4f" and the analysis type filled in; with 'lat' or 'lng'
    missing it raises ([KeyError] for 'lat'), where the demo analysis would
    have taken 0. *)
Theorem prompt_needs_both_coordinates (query coordinates analysis_type : pyval) :
  (forall text,
     build_geospatial_prompt query coordinates analysis_type = Ok text <->
     exists d lat lng x y,
       coordinates = PDict d /\
       lookup "lat" d = Some lat /\ lookup "lng" d = Some lng /\
       as_float lat = Ok x /\ as_float lng = Ok y /\
       text = prompt_text (py_str query) (py_format ".4f" x) (py_format ".4f" y)
                          (py_str analysis_type) /\
       length (prompt_lines (py_str query) (py_format ".4f" x) (py_format ".4f" y)
                            (py_str analysis_type)) = 15%nat) /\
  (forall d,
     coordinates = PDict d -> lookup "lat" d = None \/ lookup "lng" d = None ->
     exists e, build_geospatial_prompt query coordinates analysis_type = Raise e) /\
  (forall d,
     coordinates = PDict d -> lookup "lat" d = None ->
     build_geospatial_prompt query coordinates analysis_type = Raise KeyError).
Proof.
  split; [|split].
  - intros text. unfold build_geospatial_prompt. split.
    + destruct coordinates as [ |b|z|f|s|l|d]; cbn [py_getitem rbind]; try discriminate.
      destruct (lookup "lat" d) as [lat|] eqn:Hlat; cbn [rbind]; [|discriminate].
      destruct (py_format_value ".4f" lat) as [lat_text|] eqn:Elat; cbn [rbind];
        [|discriminate].
      destruct (lookup "lng" d) as [lng|] eqn:Hlng; cbn [rbind]; [|discriminate].
      destruct (py_format_value ".4f" lng) as [lng_text|] eqn:Elng; cbn [rbind];
        [|discriminate].
      apply py_format_value_ok in Elat, Elng.
      destruct Elat as (x & Hx & ->). destruct Elng as (y & Hy & ->).
      intros [= <-]. exists d, lat, lng, x, y. repeat split; assumption || reflexivity.
    + intros (d & lat & lng & x & y & -> & Hlat & Hlng & Hx & Hy & -> & _).
      cbn [py_getitem]. rewrite Hlat, Hlng. cbn [rbind].
      rewrite (proj2 (py_format_value_ok ".4f" lat _) (ex_intro _ x (conj Hx eq_refl))).
      rewrite (proj2 (py_format_value_ok ".4f" lng _) (ex_intro _ y (conj Hy eq_refl))).
      reflexivity.
  - intros d -> H. unfold build_geospatial_prompt. cbn [py_getitem].
    destruct (lookup "lat" d) as [lat|]; cbn [rbind]; [|eauto].
    destruct (py_format_value ".4f" lat) as [lat_text|]; cbn [rbind]; [|eauto].
    destruct H as [H|H]; [discriminate|]. rewrite H. cbn [rbind]. eauto.
  - intros d -> H. unfold build_geospatial_prompt. cbn [py_getitem]. rewrite H.
    reflexivity.
Qed.

(** X19: of the five output formats /capabilities names, the first four are
    sections of the analysis of every demo answer; the fifth,
    "risk_analysis", never is: the risks come under "risk_factors". *)
Theorem advertised_formats (query satellite_data coordinates analysis_type : pyval)
        (st : State) :
  exists formats,
    field "output_formats" (fst get_capabilities) = Some (strs formats) /\
    match fst (generate_demo_analysis query satellite_data coordinates analysis_type st) with
    | Ok obj =>
        exists analysis,
          field "analysis" obj = Some analysis /\
          map (has_field analysis) formats = [true; true; true; true; false] /\
          has_field analysis "risk_factors" = true
    | Raise _ => True
    end.
Proof.
  eexists. split; [reflexivity|].
  pose proof (demo_sections query satellite_data coordinates analysis_type st) as H.
  destruct (generate_demo_analysis query satellite_data coordinates analysis_type st)
    as [[obj|e] st']; cbn [fst]; [|exact I].
  destruct (H obj st' eq_refl) as (analysis & Ha & Hf).
  exists analysis. split; [assumption|].
  cbn [map] in Hf |- *. injection Hf as -> -> -> -> -> ->. split; reflexivity.
Qed.

(** X20: [generate_demo_analysis] raises nothing but [AttributeError],
    [TypeError] and [OverflowError], and each has its cause: an
    [AttributeError] is raised only when the coordinates are no object or
    the query is no string; a [TypeError] only when 'lat' or 'lng' is no
    number; an [OverflowError] only when one of them is not below [2^480]
    in absolute value.  The causes are necessary, not sufficient: 1e150 is
    not below [2^480] and overflows nothing. *)
Theorem demo_errors (query satellite_data coordinates analysis_type : pyval)
        (st : State) (e : exn) :
  fst (generate_demo_analysis query satellite_data coordinates analysis_type st) = Raise e ->
  (e = AttributeError /\
   ((forall d, coordinates <> PDict d) \/ (forall s, query <> PStr s))) \/
  (exists d,
     coordinates = PDict d /\
     ((e = TypeError /\
       (as_float (coordinate d "lat") = Raise TypeError \/
        as_float (coordinate d "lng") = Raise TypeError)) \/
      (e = OverflowError /\
       (in_range (coordinate d "lat") = false \/ in_range (coordinate d "lng") = false)))).
Proof.
  intros Hrun.
  pose proof (demo_outcome query satellite_data coordinates analysis_type st) as Hout.
  destruct (demo_area query coordinates) as [a|e'] eqn:Ea.
  - destruct Hout as (obj & st' & Hobj & _). rewrite Hobj in Hrun. discriminate.
  - rewrite Hrun in Hout. injection Hout as ->.
    destruct coordinates as [ |b|z|f|s|l|d];
      try (injection Ea as <-; left; split; [reflexivity|left; discriminate]).
    rewrite demo_area_dict in Ea.
    destruct (area_class (coordinate d "lat") (coordinate d "lng")) as [a|e1] eqn:Hc;
      cbn [rbind] in Ea.
    + destruct query as [ |b|z|f|s|l|d']; cbn [py_lower rbind] in Ea; try discriminate;
        injection Ea as <-; left; split; try reflexivity; right; discriminate.
    + injection Ea as <-. right. exists d. split; [reflexivity|].
      exact (area_class_raise _ _ _ Hc).
Qed.

(** X21: the fields a report draws with [np.random.choice] hold one of the
    options, in every state: disease pressure, nutrient status and growth
    trajectory of the vegetation report (whose drought stress and health
    category are one of their words too), and ecosystem health, the three
    human impact factors and the outlook of the environmental assessment. *)
Theorem chosen_fields_in_options (satellite_data query analysis_type : pyval) (st : State) :
  (exists obj st',
     simulate_vegetation_health_analysis satellite_data analysis_type st = (Ok obj, st') /\
     one_of ["low"; "moderate"] ["stress_indicators"; "disease_pressure"] obj /\
     one_of ["adequate"; "deficient"] ["stress_indicators"; "nutrient_status"] obj /\
     one_of ["stable"; "improving"; "declining"] ["temporal_trends"; "growth_trajectory"] obj /\
     one_of ["low"; "moderate"] ["stress_indicators"; "drought_stress"] obj /\
     one_of ["very_poor"; "poor"; "moderate"; "good"; "excellent"] ["health_category"] obj) /\
  (exists obj st',
     simulate_environmental_assessment query analysis_type st = (Ok obj, st') /\
     one_of ["excellent"; "good"; "moderate"]
            ["sustainability_indicators"; "ecosystem_health"] obj /\
     one_of ["low"; "moderate"; "high"] ["human_impact_factors"; "pollution_pressure"] obj /\
     one_of ["low"; "moderate"; "high"] ["human_impact_factors"; "development_pressure"] obj /\
     one_of ["sustainable"; "moderate"; "intensive"]
            ["human_impact_factors"; "resource_exploitation"] obj /\
     one_of ["stable"; "improving"; "declining"] ["predictive_insights"; "5_year_outlook"] obj).
Proof.
  split.
  - eexists. eexists. split; [reflexivity|].
    repeat split; eexists; (split; [reflexivity|]);
      try (apply nth_mod_In; discriminate).
    + unfold drought_stress. destruct (_ <? _)%float; simpl; auto.
    + unfold categorize_vegetation_health.
      repeat match goal with |- context [if ?b then _ else _] => destruct b end;
        simpl; auto 6.
  - eexists. eexists. split; [reflexivity|].
    repeat split; eexists; (split; [reflexivity|]); apply nth_mod_In; discriminate.
Qed.

End Further.

(** ** The properties on concrete requests *)

(** A body that holds only an analysis type, served with a model loaded. *)
Lemma endpoint_defaults_witness :
  exists body,
    fst (analyze_geospatial (LM := Example.libm) (RT := Example.runtime)
           (Ok (PDict [ ("analysis_type", PStr "fishing") ])) Example.real_state)
    = Ok (body, 200) /\
    path ["analysis"; "land_use_classification"; "primary_class"] body
    = Some (PStr "agricultural") /\
    path ["analysis"; "geospatial_insights"] body = Some (strs general_insights).
Proof.
  destruct (endpoint_defaults (LM := Example.libm) (RT := Example.runtime)
              [ ("analysis_type", PStr "fishing") ] Example.real_state
              eq_refl eq_refl eq_refl) as (body & Hrun & Hcls & _ & _ & _ & Hins).
  exists body. split; [assumption|]. split; [assumption|]. apply Hins. reflexivity.
Defined.

(** A request for Chennai. *)
Lemma endpoint_answers_numbers_witness :
  exists body,
    fst (analyze_geospatial (LM := Example.libm) (RT := Example.runtime)
           (Ok (PDict [ ("query", PStr "fishing"); ("coordinates", Example.chennai) ]))
           Example.demo_state)
    = Ok (body, 200) /\
    field "success" body = Some (PBool true).
Proof.
  apply (endpoint_answers_numbers (LM := Example.libm) (RT := Example.runtime)
           [ ("query", PStr "fishing"); ("coordinates", Example.chennai) ]
           [ ("lat", PFloat 13.0827); ("lng", PFloat 80.2707) ] "fishing"
           Example.demo_state); reflexivity.
Defined.

Lemma endpoint_echoes_request_witness :
  exists body status,
    fst (analyze_geospatial (LM := Example.libm) (RT := Example.runtime)
           (Ok (PDict [ ("query", PStr "Water quality"); ("coordinates", Example.chennai) ]))
           Example.real_state)
    = Ok (body, status) /\
    (status = 200 ->
     field "success" body = Some (PBool true) /\
     field "mode" body = Some (PStr "demo") /\
     path ["metadata"; "coordinates"] body = Some Example.chennai /\
     path ["metadata"; "analysis_type"] body = Some (PStr "general") /\
     exists l,
       generate_geospatial_insights (PStr "Water quality") (PStr "general") = Ok l /\
       path ["analysis"; "geospatial_insights"] body = Some (strs l)).
Proof.
  exact (endpoint_echoes_request (LM := Example.libm) (RT := Example.runtime)
           [ ("query", PStr "Water quality"); ("coordinates", Example.chennai) ]
           Example.real_state eq_refl).
Defined.

(** The same request with and without satellite data. *)
Lemma satellite_data_ignored_witness :
  analyze_geospatial (LM := Example.libm) (RT := Example.runtime)
    (Ok (PDict [ ("query", PStr "fishing"); ("satellite_data", PStr "tile") ]))
    Example.demo_state
  = analyze_geospatial (LM := Example.libm) (RT := Example.runtime)
      (Ok (PDict [ ("query", PStr "fishing") ])) Example.demo_state.
Proof.
  apply (satellite_data_ignored (LM := Example.libm) (RT := Example.runtime)); reflexivity.
Defined.

(** The samples 0.4 and 0.6: "moderate", then "good". *)
Lemma categorize_monotone_witness :
  (health_rank (categorize_vegetation_health 0.4)
   <= health_rank (categorize_vegetation_health 0.6))%nat.
Proof. apply categorize_monotone. vm_compute. reflexivity. Defined.

(** A latitude that is a word. *)
Lemma demo_errors_witness :
  exists d,
    PDict [ ("lat", PStr "north") ] = PDict d /\
    as_float (coordinate d "lat") = Raise TypeError.
Proof.
  destruct (demo_errors (LM := Example.libm) (RT := Example.runtime)
              (PStr "status") (PDict []) (PDict [ ("lat", PStr "north") ]) (PStr "general")
              Example.demo_state TypeError eq_refl)
    as [[He _]|(d & Hd & [[_ [Hlat|Hlng]]|[He _]])]; try discriminate.
  - exists d. split; assumption.
  - exists d. split; [assumption|]. injection Hd as <-. discriminate Hlng.
Defined.

(** * The model on concrete requests *)

Local Open Scope float_scope.

Example chennai_is_urban_and_coastal :
  is_urban_area (LM := Example.libm) (PFloat 13.0827) (PFloat 80.2707) = Ok true /\
  is_coastal_area (LM := Example.libm) (PFloat 13.0827) (PFloat 80.2707) = Ok true.
Proof. split; vm_compute; reflexivity. Qed.

Example integer_coordinates : is_urban_area (LM := Example.libm) (PInt 13) (PInt 80) = Ok true.
Proof. vm_compute. reflexivity. Qed.

Example origin_is_neither :
  is_urban_area (LM := Example.libm) (PInt 0) (PInt 0) = Ok false /\
  is_coastal_area (LM := Example.libm) (PInt 0) (PInt 0) = Ok false.
Proof. split; vm_compute; reflexivity. Qed.

Example huge_longitude_overflows :
  is_urban_area (LM := Example.libm) (PFloat 0) (PFloat 1e200) = Raise OverflowError.
Proof. vm_compute. reflexivity. Qed.

Example infinite_longitude_is_far :
  is_urban_area (LM := Example.libm) (PFloat 0) (PFloat infinity) = Ok false.
Proof. vm_compute. reflexivity. Qed.

Example large_longitude_is_far :
  in_range (PFloat 1e150) = false /\
  is_urban_area (LM := Example.libm) (PFloat 1e150) (PInt 0) = Ok false.
Proof. split; vm_compute; reflexivity. Qed.

(** The prompt Python builds for the query "fishing near Chennai" at
    Chennai, character for character. *)
Example prompt_for_chennai :
  prompt_text "fishing near Chennai" "13.0827" "80.2707" "land_use"
  = "
        Geospatial Analysis Task:
        Query: fishing near Chennai
        Location: 13.0827, 80.2707
        Analysis Type: land_use
        
        Analyze the satellite data and provide:
        1. Land use classification with confidence scores
        2. Vegetation health assessment using NDVI
        3. Change detection over temporal period
        4. Environmental risk assessment
        5. Specific insights for the query context
        
        Focus on actionable insights for non-expert users.
        "%string.
Proof. vm_compute. reflexivity. Qed.

(** On the boundary of a circle the answer hangs on the last bit of libm's
    [pow]: 50 km from Delhi by the correctly rounded square,
    50.00000000000001 km by the square of glibc 2.36. *)
Example boundary_depends_on_libm :
  distance (LM := Example.libm)
    (PFloat 28.96277969115031) (PFloat 76.73373120292331) 28.7041 77.1025
  = Ok 50 /\
  distance (LM := Example.libm_glibc)
    (PFloat 28.96277969115031) (PFloat 76.73373120292331) 28.7041 77.1025
  = Ok 0x1.9000000000001p+5 /\
  is_urban_area (LM := Example.libm)
    (PFloat 28.96277969115031) (PFloat 76.73373120292331) = Ok true /\
  is_urban_area (LM := Example.libm_glibc)
    (PFloat 28.96277969115031) (PFloat 76.73373120292331) = Ok false.
Proof. repeat split; vm_compute; reflexivity. Qed.

(** C2, counterexample: at the boundary of a circle the test is not the
    formula of the specification, in either of its readings.
    [is_urban_area(28.96277969115031, 76.73373120292331)] is [False] with
    the [pow] of glibc 2.36, Python's distance to Delhi being
    50.00000000000001, while the formula in correctly rounded doubles gives
    50.0, within the radius.  And
    [is_urban_area(13.292208968223486, 80.66946258669157)] is [True],
    Python's distance to Chennai being 50.0, while over the reals the point
    is farther than 50 from every center. *)
Lemma threshold_is_not_the_formula :
  (is_urban_area (LM := Example.libm_glibc)
     (PFloat 28.96277969115031) (PFloat 76.73373120292331) = Ok false /\
   existsb (spec_within 28.96277969115031 76.73373120292331) urban_centers = true) /\
  (is_urban_area (LM := Example.libm_glibc)
     (PFloat 13.292208968223486) (PFloat 80.66946258669157) = Ok true /\
   existsb (exact_within 13.292208968223486 80.66946258669157) urban_centers = false).
Proof. repeat split; vm_compute; reflexivity. Qed.

(** With the flag off and a model loaded the real path is entered, fails
    (here on the missing 'lat' of the prompt), and the demo answers. *)
Example real_path_is_entered :
  log (world (snd (analyze_geospatial_data (LM := Example.libm) (RT := Example.runtime)
                     (PStr "water quality") (PDict []) (PDict []) (PStr "general")
                     Example.real_state)))
  = [ RunningReal; AnalysisError KeyError; GeneratingDemo; AnalysisCompleted 0 ].
Proof. vm_compute. reflexivity. Qed.

Example startup_defaults_to_demo :
  processor (snd (__init__ (RT := Example.runtime) None Example.real_state))
  = {| model_name := "ibm-esa-geospatial/TerraMind-1.0-large";
       model_loaded := false; demo_mode := true |}.
Proof. vm_compute. reflexivity. Qed.

Example startup_loads_the_model :
  processor (snd (__init__ (RT := Example.runtime) (Some "False"%string) Example.demo_state))
  = {| model_name := "ibm-esa-geospatial/TerraMind-1.0-large";
       model_loaded := true; demo_mode := false |}.
Proof. vm_compute. reflexivity. Qed.

(** C5 as first stated fails in its last clause: every demo answer has
    success = true, which the presence of the fields does not give, as the
    second object shows. *)
Lemma demo_answers_share_more_than_fields :
  (forall (LM : Libm) (RT : Runtime)
          (query satellite_data coordinates analysis_type : pyval)
          (st st' : State) (obj : pyval),
     generate_demo_analysis query satellite_data coordinates analysis_type st
     = (Ok obj, st') ->
     field "success" obj = Some (PBool true)) /\
  (exists obj',
     demo_schema obj' = true /\ field "success" obj' = Some (PBool false)).
Proof.
  split.
  - intros LM RT query satellite_data coordinates analysis_type st st' obj Hrun.
    pose proof (demo_outcome query satellite_data coordinates analysis_type st) as H.
    destruct (demo_area query coordinates) as [a|e].
    + destruct H as (obj' & st'' & Hrun' & Hans).
      rewrite Hrun in Hrun'. injection Hrun' as <- <-. apply Hans.
    + rewrite Hrun in H. discriminate.
  - exists (PDict
      [ ("success", PBool false); ("model", PNone); ("mode", PNone)
      ; ("analysis", PDict
          [ ("land_use_classification", PNone); ("vegetation_health", PNone)
          ; ("change_detection", PNone); ("environmental_assessment", PNone)
          ; ("multimodal_confidence", PNone); ("geospatial_insights", PNone)
          ; ("risk_factors", PNone) ])
      ; ("metadata", PNone) ]).
    split; reflexivity.
Qed.



(** C10 as first stated fails at the low end of the interval: the sample
    0.3 is in [0.3, 0.8] and its category is "poor". *)
Lemma vegetation_poor_at_low_end :
  (0.3 <=? 0.3) = true /\ (0.3 <=? 0.8) = true /\
  match fst (simulate_vegetation_health_analysis (RT := Example.runtime)
               (PDict []) (PStr "general")
               {| processor := processor Example.demo_state;
                  world := Example.world_of 0.3 |}) with
  | Ok obj => field "health_category" obj = Some (PStr "poor")
  | Raise _ => False
  end.
Proof. repeat split; vm_compute; reflexivity. Qed.

(** The sample 0.5 gives "moderate". *)
Lemma vegetation_health_ranges_witness :
  exists obj,
    fst (simulate_vegetation_health_analysis (RT := Example.runtime)
           (PDict []) (PStr "general") Example.demo_state) = Ok obj /\
    field "health_category" obj = Some (PStr "moderate").
Proof.
  destruct (vegetation_health_ranges (RT := Example.runtime)
              (PDict []) (PStr "general") Example.demo_state)
    as ((obj & st' & Hrun & Hcat & _) & _); [reflexivity|].
  exists obj. rewrite Hrun. split; [reflexivity|exact Hcat].
Defined.



(** A null body is answered 400; a body Flask cannot parse is answered
    500. *)
Lemma malformed_requests_witness :
  fst (analyze_geospatial (LM := Example.libm) (RT := Example.runtime) (Ok PNone) Example.demo_state)
  = Ok (PDict [ ("error", PStr "No data provided") ], 400%Z) /\
  exists body,
    fst (analyze_geospatial (LM := Example.libm) (RT := Example.runtime)
           (Raise (LibraryError "400 Bad Request")) Example.demo_state)
    = Ok (body, 500%Z) /\
    field "error" body = Some (PStr "Analysis failed") /\
    field "fallback" body = Some (PBool true).
Proof.
  split.
  - apply (proj1 (malformed_requests (LM := Example.libm) (RT := Example.runtime) (Ok PNone)
                    Example.demo_state) PNone); reflexivity.
  - eapply (proj2 (malformed_requests (LM := Example.libm) (RT := Example.runtime)
                     (Raise (LibraryError "400 Bad Request")) Example.demo_state)).
    reflexivity.
Defined.
